(** * idx-stock-sense: the quantitative analysis engine, embedded in Rocq

    A shallow embedding of the analysis services of the repository
    (indicators.ts, analyzer.ts, intraday-analyzer.ts, comparison.ts and the
    scanning server action), followed by the properties of the engine.

    Numbers.  A JavaScript [number] is modelled as an exact rational [Q]:
    comparisons, [Math.abs], [Math.min], [Math.max], [Math.round] and
    [Math.floor] are the mathematical ones.  Binary64 rounding error, [NaN]
    and the infinities are outside this model; where the source uses the
    literal [Infinity] as a sentinel (comparison.ts) the sentinel is a
    constructor of its own.  The price change of the bandar flow, a division
    by a close that no guard keeps from zero and whose result decides the
    status, is a [quotient] with JavaScript's infinities and [NaN].  In the
    two other divisions without a guard (by the latest EMA200 in the BUY
    confidence, by the current price in the predicted percentage) a zero
    divisor gives [0] in [Q], where JavaScript yields an infinity or [NaN].

    Effects.  A thrown [Error] is the [Err] constructor of [result]; a
    promise is its outcome; the wall clock and the host time zone are
    explicit arguments. *)

From Stdlib Require Import String Ascii DecimalString QArith Qabs Qround ZArith List Bool Lia Lqa.
Import ListNotations.

Local Open Scope Q_scope.

(* ------------------------------------------------------------------ *)
(** ** JavaScript values used by the services *)

Module JS.

Definition number := Q.

(** [x < y], [x > y], [x <= y], [x >= y], [x === y] and [x !== y]. *)
Definition lt (x y : number) : bool := negb (Qle_bool y x).
Definition gt (x y : number) : bool := lt y x.
Definition le (x y : number) : bool := Qle_bool x y.
Definition ge (x y : number) : bool := Qle_bool y x.
Definition strict_eq (x y : number) : bool := Qeq_bool x y.
Definition strict_ne (x y : number) : bool := negb (Qeq_bool x y).

Definition Math_abs (x : number) : number := Qabs x.
Definition Math_min (x y : number) : number := if lt y x then y else x.
Definition Math_max (x y : number) : number := if lt x y then y else x.

(** [Math.round]: nearest integer, a tie going up. *)
Definition Math_round (x : number) : number := inject_Z (Qfloor (x + (1 # 2))).

(** [x / y] where no guard keeps the divisor from zero: there binary64
    gives [Infinity], [-Infinity] or [NaN], by the sign of the dividend (the
    zero of the model is the positive zero). *)
Inductive quotient : Type :=
| Quotient (q : number)
| PlusInfinity
| MinusInfinity
| NaN.

Definition divide (x y : number) : quotient :=
  if strict_eq y 0 then
    if gt x 0 then PlusInfinity
    else if lt x 0 then MinusInfinity
    else NaN
  else Quotient (x / y).

(** [Math.abs(p)], [p < c] and [p > c] on a quotient; a comparison with
    [NaN] is false. *)
Definition quotient_abs (p : quotient) : quotient :=
  match p with
  | Quotient q => Quotient (Math_abs q)
  | PlusInfinity | MinusInfinity => PlusInfinity
  | NaN => NaN
  end.

Definition quotient_lt (p : quotient) (c : number) : bool :=
  match p with
  | Quotient q => lt q c
  | MinusInfinity => true
  | PlusInfinity | NaN => false
  end.

Definition quotient_gt (p : quotient) (c : number) : bool :=
  match p with
  | Quotient q => gt q c
  | PlusInfinity => true
  | MinusInfinity | NaN => false
  end.

(** [Math.max(...xs)] and [Math.min(...xs)]; every call site passes a
    non-empty array (on an empty one JavaScript yields an infinity). *)
Definition Math_max_spread (xs : list number) : number :=
  match xs with
  | [] => 0
  | x :: t => fold_left Math_max t x
  end.

Definition Math_min_spread (xs : list number) : number :=
  match xs with
  | [] => 0
  | x :: t => fold_left Math_min t x
  end.

(** [xs[i] ?? d]: an index out of range reads [undefined]. *)
Definition at_or {A} (xs : list A) (i : nat) (d : A) : A := nth i xs d.

(** [xs[xs.length - 1] ?? d]. *)
Definition last_or {A} (xs : list A) (d : A) : A := last xs d.

(** [xs.slice(-n)]. *)
Definition slice_last {A} (n : nat) (xs : list A) : list A :=
  skipn (length xs - n) xs.

(** [xs.slice(a, b)]. *)
Definition slice {A} (a b : nat) (xs : list A) : list A :=
  firstn (b - a) (skipn a xs).

(** [xs.reduce((sum, v) => sum + v, 0)]. *)
Definition sum (xs : list number) : number := fold_left Qplus xs 0.

(** [for (let i = 0; i < n; i++) body], threading the loop's variables. *)
Definition for_range {S} (n : nat) (body : nat -> S -> S) (init : S) : S :=
  fold_left (fun s i => body i s) (List.seq 0 n) init.

(** A promise outcome, or the outcome of a block that may throw. *)
Inductive result (A : Type) : Type :=
| Ok (a : A)
| Err (message : string).
Arguments Ok {A} a.
Arguments Err {A} message.


Definition bind {A B} (r : result A) (k : A -> result B) : result B :=
  match r with
  | Ok a => k a
  | Err message => Err message
  end.

(** Template-literal rendering of an integer. *)
Definition nat_to_string (n : nat) : string := NilZero.string_of_uint (Nat.to_uint n).
Definition Z_to_string (z : Z) : string := NilZero.string_of_int (Z.to_int z).

(** [parts.join(sep)]. *)
Definition join (sep : string) (parts : list string) : string := String.concat sep parts.

(** [s.toUpperCase()] on the ASCII letters of a ticker code. *)
Definition upper_ascii (c : ascii) : ascii :=
  let n := nat_of_ascii c in
  if ((97 <=? n) && (n <=? 122))%nat then ascii_of_nat (n - 32) else c.

Fixpoint toUpperCase (s : string) : string :=
  match s with
  | EmptyString => EmptyString
  | String c s' => String (upper_ascii c) (toUpperCase s')
  end.

(** [s.replace(pattern, replacement)] with a string pattern: the first
    occurrence only. *)
Fixpoint replace (pattern replacement s : string) : string :=
  if String.prefix pattern s then
    (replacement ++ String.substring (String.length pattern)
                      (String.length s - String.length pattern) s)%string
  else
    match s with
    | EmptyString => EmptyString
    | String c s' => String c (replace pattern replacement s')
    end.


(** [s.trim()] and [s.endsWith(suffix)] on ASCII text. *)
Definition is_space (c : ascii) : bool :=
  let n := nat_of_ascii c in
  ((n =? 32) || ((9 <=? n) && (n <=? 13)))%nat.

Fixpoint trimStart (s : string) : string :=
  match s with
  | EmptyString => EmptyString
  | String c s' => if is_space c then trimStart s' else s
  end.

Fixpoint reverse (s : string) : string :=
  match s with
  | EmptyString => EmptyString
  | String c s' => (reverse s' ++ String c EmptyString)%string
  end.

Definition trim (s : string) : string := reverse (trimStart (reverse (trimStart s))).

Definition endsWith (s suffix : string) : bool :=
  String.prefix (reverse suffix) (reverse s).

End JS.
Import JS.

Notation "x <- r ;; k" := (bind r (fun x => k))
  (at level 61, r at next level, right associativity).

(** [StockData] of types/stock: one OHLCV bar. *)
Record StockData : Type := mkStockData {
  timestamp : Z;
  open : number;
  high : number;
  low : number;
  close : number;
  volume : number
}.

(* ------------------------------------------------------------------ *)
(** ** analyzer.ts: candlestick patterns *)

Record CandlestickPattern : Type := mkPattern {
  name : string;
  label : string;
  color : string;
  bgColor : string
}.

Module Candle.

Definition isBullish (candle : StockData) : bool := gt (close candle) (open candle).
Definition isBearish (candle : StockData) : bool := lt (close candle) (open candle).
Definition bodySize (candle : StockData) : number :=
  Math_abs (close candle - open candle).
Definition rangeSize (candle : StockData) : number := high candle - low candle.
Definition upperShadow (candle : StockData) : number :=
  high candle - Math_max (open candle) (close candle).
Definition lowerShadow (candle : StockData) : number :=
  Math_min (open candle) (close candle) - low candle.

Definition bullishEngulfing : CandlestickPattern :=
  mkPattern "Bullish Engulfing" "Bullish Engulfing (Potensi Naik Kuat)"
    "text-green-700 dark:text-green-300" "bg-green-100 dark:bg-green-900/30".
Definition bearishEngulfing : CandlestickPattern :=
  mkPattern "Bearish Engulfing" "Bearish Engulfing (Potensi Turun Cepat)"
    "text-red-700 dark:text-red-300" "bg-red-100 dark:bg-red-900/30".
Definition hammer : CandlestickPattern :=
  mkPattern "Hammer" "Hammer (Palu - Sinyal Rebound)"
    "text-blue-700 dark:text-blue-300" "bg-blue-100 dark:bg-blue-900/30".
Definition shootingStar : CandlestickPattern :=
  mkPattern "Shooting Star" "Shooting Star (Sinyal Koreksi)"
    "text-orange-700 dark:text-orange-300" "bg-orange-100 dark:bg-orange-900/30".
Definition doji : CandlestickPattern :=
  mkPattern "Doji" "Doji (Pasar Galau/Netral)"
    "text-gray-700 dark:text-gray-300" "bg-gray-100 dark:bg-gray-800".

(** [if (c) patterns.push(p)]. *)
Definition pushIf (c : bool) (p : CandlestickPattern)
    (patterns : list CandlestickPattern) : list CandlestickPattern :=
  if c then patterns ++ [p] else patterns.

(** The checks on the pair (previous candle, current candle), in the
    order of the source. *)
Definition checks (prev current : StockData) : list CandlestickPattern :=
  let patterns := [] in
  (* 1. Bullish Engulfing *)
  let patterns :=
    pushIf (isBearish prev && isBullish current &&
            (lt (open current) (close prev) &&
             gt (close current) (open prev) &&
             gt (bodySize current) (bodySize prev * (11 # 10))))
           bullishEngulfing patterns in
  (* 2. Bearish Engulfing *)
  let patterns :=
    pushIf (isBullish prev && isBearish current &&
            (gt (open current) (close prev) &&
             lt (close current) (open prev) &&
             gt (bodySize current) (bodySize prev * (11 # 10))))
           bearishEngulfing patterns in
  let body := bodySize current in
  let range := rangeSize current in
  let lower := lowerShadow current in
  let upper := upperShadow current in
  (* 3. Hammer *)
  let patterns :=
    pushIf (gt range 0 &&
            lt body (range * (3 # 10)) &&
            gt lower (body * 2) &&
            lt upper (body * (1 # 2)))
           hammer patterns in
  (* 4. Shooting Star *)
  let patterns :=
    pushIf (gt range 0 &&
            lt body (range * (3 # 10)) &&
            gt upper (body * 2) &&
            lt lower (body * (1 # 2)) &&
            isBearish current)
           shootingStar patterns in
  (* 5. Doji *)
  let patterns :=
    pushIf (gt range 0 && lt body (range * (1 # 10))) doji patterns in
  patterns.

(** [detectCandlePatterns]: fewer than two candles give no pattern;
    otherwise [current] and [prev] are the last two of the last five. *)
Definition detectCandlePatterns (historicalData : list StockData)
    : list CandlestickPattern :=
  if (length historicalData <? 2)%nat then []
  else
    let last5Candles := slice_last 5 historicalData in
    match rev last5Candles with
    | current :: prev :: _ => checks prev current
    | _ => []
    end.

(** [patterns.some(p => p.name === n)]. *)
Definition hasPattern (n : string) (patterns : list CandlestickPattern) : bool :=
  existsb (fun p => String.eqb (name p) n) patterns.

End Candle.

(* ------------------------------------------------------------------ *)
(** ** indicators.ts *)

(** One element of [MACD.calculate]'s output. *)
Record MACDOutput : Type := mkMACDOutput {
  out_MACD : option number;
  out_signal : option number;
  out_histogram : option number
}.

(** The package technicalindicators, which the repository imports and does
    not define: the four [calculate] entry points the services call. *)
Record TechnicalIndicators : Type := mkTechnicalIndicators {
  RSI_calculate : list number -> nat -> list number;
  MACD_calculate : list number -> list MACDOutput;
  ATR_calculate : list number -> list number -> list number -> nat -> list number;
  EMA_calculate : list number -> nat -> list number
}.

(** A calendar date (year, month, day): the value the source renders as the
    string [YYYY-MM-DD], two dates giving one string only when equal. *)
Definition DateKey : Type := (Z * Z * Z)%type.

Definition dateKey_eqb (a b : DateKey) : bool :=
  let '(ya, ma, da) := a in
  let '(yb, mb, db) := b in
  (ya =? yb)%Z && (ma =? mb)%Z && (da =? db)%Z.

(** The host time zone: [getFullYear], [getMonth() + 1] and [getDate] of
    [new Date(timestamp)]. *)
Definition TimeZone : Type := Z -> DateKey.

Module Indicators.

Record MACDSeries : Type := mkMACDSeries {
  MACD : list number;
  signal : list number;
  histogram : list number
}.

Section WithLibrary.

Variable lib : TechnicalIndicators.

Definition calculateRSI (closes : list number) (period : nat) : result (list number) :=
  if (length closes <? period + 1)%nat then
    Err ("Insufficient data for RSI calculation. Need at least "
         ++ nat_to_string (period + 1) ++ " data points.")
  else Ok (RSI_calculate lib closes period).

Definition calculateMACD (closes : list number) : result MACDSeries :=
  if (length closes <? 26)%nat then
    Err "Insufficient data for MACD calculation. Need at least 26 data points."
  else
    let macd := MACD_calculate lib closes in
    Ok (mkMACDSeries
          (map (fun item => match out_MACD item with Some v => v | None => 0 end) macd)
          (map (fun item => match out_signal item with Some v => v | None => 0 end) macd)
          (map (fun item => match out_histogram item with Some v => v | None => 0 end) macd)).

Definition calculateATR (high low close : list number) (period : nat)
    : result (list number) :=
  if negb (length high =? length low)%nat || negb (length low =? length close)%nat then
    Err "All arrays must have the same length for ATR calculation."
  else if (length high <? period + 1)%nat then
    Err ("Insufficient data for ATR calculation. Need at least "
         ++ nat_to_string (period + 1) ++ " data points.")
  else Ok (ATR_calculate lib high low close period).

Definition calculateEMA (values : list number) (period : nat) : result (list number) :=
  if (length values <? period)%nat then
    Err ("Insufficient data for EMA calculation. Need at least "
         ++ nat_to_string period ++ " data points.")
  else Ok (EMA_calculate lib values period).

End WithLibrary.

(** The variables of the VWAP loops. *)
Record VwapState : Type := mkVwapState {
  vwap_out : list number;
  cumulativeTPV : number;
  cumulativeVolume : number
}.

(** The part of the loop body the two VWAP functions share: accumulate and
    push either the typical price or the quotient. *)
Definition vwapPush (typicalPrice vol : number) (st : VwapState) : VwapState :=
  let tpv := typicalPrice * vol in
  let cumulativeTPV := cumulativeTPV st + tpv in
  let cumulativeVolume := cumulativeVolume st + vol in
  if strict_eq cumulativeVolume 0 then
    mkVwapState (vwap_out st ++ [typicalPrice]) cumulativeTPV cumulativeVolume
  else
    mkVwapState (vwap_out st ++ [cumulativeTPV / cumulativeVolume])
                cumulativeTPV cumulativeVolume.

(** The body of [calculateVWAP]'s loop at index [i]. *)
Definition vwapBody (high low close volume : list number) (i : nat)
    (st : VwapState) : VwapState :=
  let typicalPrice := (at_or high i 0 + at_or low i 0 + at_or close i 0) / 3 in
  vwapPush typicalPrice (at_or volume i 0) st.

Definition calculateVWAP (high low close volume : list number) : result (list number) :=
  if negb (length high =? length low)%nat
     || negb (length low =? length close)%nat
     || negb (length close =? length volume)%nat
  then Err "All arrays must have the same length for VWAP calculation."
  else
    let final :=
      for_range (length close) (vwapBody high low close volume)
        (mkVwapState [] 0 0) in
    Ok (vwap_out final).

(** [calculateSessionVWAP]: [currentDate] starts as the empty string, which
    is no date ([None]). *)
Definition calculateSessionVWAP (tz : TimeZone) (data : list StockData) : list number :=
  if (length data =? 0)%nat then []
  else
    let final :=
      for_range (length data)
        (fun i (acc : option DateKey * VwapState) =>
           let '(currentDate, st) := acc in
           match nth_error data i with
           | None => acc
           | Some item =>
             let dateKey := tz (timestamp item) in
             let changed :=
               match currentDate with
               | Some d => negb (dateKey_eqb dateKey d)
               | None => true
               end in
             let st := if changed then mkVwapState (vwap_out st) 0 0 else st in
             let currentDate := if changed then Some dateKey else currentDate in
             let typicalPrice := (high item + low item + close item) / 3 in
             (currentDate, vwapPush typicalPrice (volume item) st)
           end)
        (None, mkVwapState [] 0 0) in
    vwap_out (snd final).

(** The body of [calculateOBV]'s loop at index [i]; the loop's variables
    are [cumulativeOBV] and [obv]. *)
Definition obvBody (closes volumes : list number) (i : nat)
    (acc : number * list number) : number * list number :=
  let '(cumulativeOBV, obv) := acc in
  let cumulativeOBV :=
    if (i =? 0)%nat then at_or volumes i 0
    else
      let currentClose := at_or closes i 0 in
      let previousClose := at_or closes (i - 1) 0 in
      if gt currentClose previousClose then cumulativeOBV + at_or volumes i 0
      else if lt currentClose previousClose then cumulativeOBV - at_or volumes i 0
      else cumulativeOBV in
  (cumulativeOBV, obv ++ [cumulativeOBV]).

Definition calculateOBV (closes volumes : list number) : result (list number) :=
  if negb (length closes =? length volumes)%nat then
    Err "Closes and volumes arrays must have the same length for OBV calculation."
  else if (length closes =? 0)%nat then Ok []
  else
    let final := for_range (length closes) (obvBody closes volumes) (0, []) in
    Ok (snd final).

End Indicators.

(* ------------------------------------------------------------------ *)
(** ** analyzer.ts: the swing analysis *)

Inductive Signal : Type := BUY | SELL | NEUTRAL.

Inductive TrendStatus : Type := Uptrend | Downtrend | Sideways.

(** [BandarFlowData['status']]; the constructor [FLOW_NEUTRAL] is the
    string [NEUTRAL]. *)
Inductive FlowStatus : Type :=
  AKUMULASI | DISTRIBUSI | MARKUP | MARKDOWN | FLOW_NEUTRAL.

(** A point of a chart series: [{ timestamp, value }]. *)
Record ChartPoint : Type := mkChartPoint {
  point_timestamp : Z;
  value : number
}.

Record BandarFlowData : Type := mkBandarFlowData {
  status : FlowStatus;
  priceSlope : number;
  obvSlope : number;
  priceData : list ChartPoint;
  obvData : list ChartPoint
}.

Record AnalysisResult (Badge : Type) : Type := mkAnalysisResult {
  symbol : string;
  price : number;
  rsi : number;
  macd : number;
  signal : Signal;
  confidenceScore : number;
  predPrice : number;
  predPercent : number;
  low52w : number;
  high52w : number;
  position52w : number;
  volRatio : number;
  summaryText : string;
  fundamentalBadges : option (list Badge);
  bandarFlow : option BandarFlowData;
  candlePatterns : list CandlestickPattern
}.
Arguments mkAnalysisResult {Badge}.
Arguments symbol {Badge}.
Arguments price {Badge}.
Arguments rsi {Badge}.
Arguments macd {Badge}.
Arguments signal {Badge}.
Arguments confidenceScore {Badge}.
Arguments predPrice {Badge}.
Arguments predPercent {Badge}.
Arguments low52w {Badge}.
Arguments high52w {Badge}.
Arguments position52w {Badge}.
Arguments volRatio {Badge}.
Arguments summaryText {Badge}.
Arguments fundamentalBadges {Badge}.
Arguments bandarFlow {Badge}.
Arguments candlePatterns {Badge}.

(** [FundamentalData] of market-data.ts: every field may be absent. *)
Record FundamentalData : Type := mkFundamentalData {
  marketCap : option number;
  trailingPE : option number;
  priceToBook : option number;
  trailingEps : option number;
  dividendYield : option number
}.

Record IntradayData : Type := mkIntradayData {
  data5m : list StockData;
  data15m : list StockData
}.

(** The market-data collaborator (market-data.ts over yahoo-finance2) as
    the outcomes of its calls for a ticker. *)
Record Market : Type := mkMarket {
  getHistoricalData : string -> string -> result (list StockData);
  getCurrentPrice : string -> result number;
  getIntradayData : string -> result IntradayData;
  getFundamentalData : string -> result FundamentalData
}.

Module Analyzer.

(** Lines 202-210: the trend. *)
Definition trendOf (currentPrice latestEMA200 latestEMA50 : number) : TrendStatus :=
  if gt currentPrice latestEMA200 && gt latestEMA50 latestEMA200 then Uptrend
  else if lt currentPrice latestEMA200 && lt latestEMA50 latestEMA200 then Downtrend
  else Sideways.

(** Lines 217-241: the signal and the confidence before rounding. *)
Definition signalAndConfidence (latestRSI currentPrice latestEMA200 : number)
    : Signal * number :=
  if lt latestRSI 30 && gt currentPrice latestEMA200 then
    let rsiStrength := (30 - latestRSI) / 30 in
    let priceStrength :=
      Math_min ((currentPrice - latestEMA200) / latestEMA200) (1 # 10) * 10 in
    (BUY, Math_min (50 + (rsiStrength * 30) + (priceStrength * 20)) 95)
  else if gt latestRSI 70 then
    let rsiStrength := (latestRSI - 70) / 30 in
    (SELL, Math_min (50 + (rsiStrength * 30)) 95)
  else
    (NEUTRAL, 30).

(** Lines 243-264: the predicted price. *)
Definition predictPrice (latestRSI currentPrice volatility latestMACDHistogram : number)
    : number :=
  let predPrice :=
    if lt latestRSI 30 then currentPrice * (1 + (volatility * (8 # 10)))
    else if gt latestRSI 70 then currentPrice * (1 - (volatility * (8 # 10)))
    else if gt latestMACDHistogram 0 then currentPrice * (1 + (volatility * (3 # 10)))
    else currentPrice * (1 - (volatility * (3 # 10))) in
  Math_round predPrice.

(** Lines 269-302: the summary sentence. *)
Definition summaryOf (trendStatus : TrendStatus) (latestRSI volRatio : number) : string :=
  let rounded := Z_to_string (Qfloor (latestRSI + (1 # 2))) in
  let trendPart :=
    match trendStatus with
    | Uptrend => "Tren sedang Naik"
    | Downtrend => "Tren sedang Turun"
    | Sideways => "Tren sedang Sideways"
    end%string in
  let rsiPart :=
    (if lt latestRSI 30 then "Harga tergolong Murah (RSI " ++ rounded ++ ")"
     else if gt latestRSI 70 then "Harga tergolong Mahal (RSI " ++ rounded ++ ")"
     else if ge latestRSI 30 && le latestRSI 50 then
       "Harga tergolong Wajar (RSI " ++ rounded ++ ")"
     else "Harga tergolong Agak Mahal (RSI " ++ rounded ++ ")")%string in
  let volumePart :=
    (if gt volRatio (3 # 2) then "Ada lonjakan volume transaksi hari ini"
     else if lt volRatio (1 # 2) then "Volume transaksi rendah hari ini"
     else "Volume transaksi normal")%string in
  (join ". " [trendPart; rsiPart; volumePart] ++ ".")%string.

(** Lines 336-352: the status from the two normalised slopes. *)
Definition flowStatus (priceChangePercent : quotient) (obvChangePercent : number)
    : FlowStatus :=
  let significantThreshold := 2 # 100 in
  if quotient_lt (quotient_abs priceChangePercent) (1 # 100)
     && gt obvChangePercent significantThreshold then AKUMULASI
  else if quotient_lt (quotient_abs priceChangePercent) (1 # 100)
          && lt obvChangePercent (- significantThreshold) then DISTRIBUSI
  else if quotient_gt priceChangePercent 0 && gt obvChangePercent 0 then MARKUP
  else if quotient_lt priceChangePercent 0 && lt obvChangePercent 0 then MARKDOWN
  else FLOW_NEUTRAL.



(** Lines 314-380: the bandar-flow block; an exception inside it is caught
    and leaves the field [undefined]. *)
Definition bandarFlowOf (historicalData : list StockData) : option BandarFlowData :=
  let last20Data := slice_last 20 historicalData in
  if (20 <=? length last20Data)%nat then
    let last20Closes := map close last20Data in
    let last20Volumes := map volume last20Data in
    let last20Timestamps := map timestamp last20Data in
    match Indicators.calculateOBV last20Closes last20Volumes with
    | Err _ => None
    | Ok obvValues =>
      let priceSlope :=
        (at_or last20Closes (length last20Closes - 1) 0 - at_or last20Closes 0 0)
        / inject_Z (Z.of_nat (length last20Closes)) in
      let obvSlope :=
        (at_or obvValues (length obvValues - 1) 0 - at_or obvValues 0 0)
        / inject_Z (Z.of_nat (length obvValues)) in
      let priceChangePercent := divide priceSlope (at_or last20Closes 0 0) in
      let obvChangePercent :=
        if strict_ne (at_or obvValues 0 0) 0
        then obvSlope / Math_abs (at_or obvValues 0 0) else 0 in
      let status := flowStatus priceChangePercent obvChangePercent in
      let priceData := map (fun d => mkChartPoint (timestamp d) (close d)) last20Data in
      let obvMin := Math_min_spread obvValues in
      let obvMax := Math_max_spread obvValues in
      let obvRange := obvMax - obvMin in
      let obvData :=
        map (fun index =>
               let obv := at_or obvValues index 0 in
               mkChartPoint (at_or last20Timestamps index 0%Z)
                 (if gt obvRange 0 then ((obv - obvMin) / obvRange) * 100 else 50))
            (List.seq 0 (length obvValues)) in
      Some (mkBandarFlowData status priceSlope obvSlope priceData obvData)
    end
  else None.

Section WithCollaborators.

Variable lib : TechnicalIndicators.
Variable market : Market.

(** fundamental-analyzer.ts: [analyzeFundamentals], the badge texts of a
    fundamental snapshot, and [FundamentalBadge] of types/stock. *)
Variable Badge : Type.
Variable analyzeFundamentals : FundamentalData -> list Badge.

(** The indicator values the signal is decided on (lines 175-185). *)
Definition latestRSI_of (rsiValues : list number) : number := last_or rsiValues 50.
Definition latestEMA_of (emaValues : list number) (currentPrice : number) : number :=
  last_or emaValues currentPrice.

(** Lines 165-172: the quote, or the latest close when the quote fails. *)
Definition currentPriceOf (ticker : string) (closes : list number) : number :=
  let latestClose := at_or closes (length closes - 1) 0 in
  match getCurrentPrice market ticker with
  | Ok p => p
  | Err _ => latestClose
  end.

(** The body of [analyzeStock]'s [try] block. *)
Definition analyzeStock_body (ticker : string) : result (AnalysisResult Badge) :=
  historicalData <- getHistoricalData market ticker "1d" ;;
  if (length historicalData <? 200)%nat then
    Err ("Insufficient historical data for " ++ ticker
         ++ ". Need at least 200 days for EMA200 calculation.")
  else
    let closes := map close historicalData in
    let volumes := map volume historicalData in
    let latestCandle :=
      at_or historicalData (length historicalData - 1) (mkStockData 0 0 0 0 0 0) in
    let currentPrice := currentPriceOf ticker closes in
    rsiValues <- Indicators.calculateRSI lib closes 14 ;;
    macdData <- Indicators.calculateMACD lib closes ;;
    ema200Values <- Indicators.calculateEMA lib closes 200 ;;
    ema50Values <- Indicators.calculateEMA lib closes 50 ;;
    let latestRSI := latestRSI_of rsiValues in
    let latestMACD := last_or (Indicators.MACD macdData) 0 in
    let latestMACDHistogram := last_or (Indicators.histogram macdData) 0 in
    let latestEMA200 := latestEMA_of ema200Values currentPrice in
    let latestEMA50 := latestEMA_of ema50Values currentPrice in
    let dataFor52w := slice_last 250 historicalData in
    let high52w := Math_max_spread (map high dataFor52w) in
    let low52w := Math_min_spread (map low dataFor52w) in
    let range52w := high52w - low52w in
    let position52w :=
      if gt range52w 0 then ((currentPrice - low52w) / range52w) * 100 else 50 in
    let last20Volumes := slice_last 20 volumes in
    let avgVolume20 := JS.sum last20Volumes / inject_Z (Z.of_nat (length last20Volumes)) in
    let currentVolume := last_or volumes 0 in
    let volRatio := if gt avgVolume20 0 then currentVolume / avgVolume20 else 1 in
    let trendStatus := trendOf currentPrice latestEMA200 latestEMA50 in
    let volatility :=
      if gt (close latestCandle) 0
      then (high latestCandle - low latestCandle) / close latestCandle
      else 2 # 100 in
    let '(signal, confidenceScore) :=
      signalAndConfidence latestRSI currentPrice latestEMA200 in
    let predPrice := predictPrice latestRSI currentPrice volatility latestMACDHistogram in
    let predPercent := ((predPrice - currentPrice) / currentPrice) * 100 in
    let summaryText := summaryOf trendStatus latestRSI volRatio in
    let fundamentalBadges :=
      match getFundamentalData market ticker with
      | Ok fundamentalData => Some (analyzeFundamentals fundamentalData)
      | Err _ => None
      end in
    let bandarFlow := bandarFlowOf historicalData in
    let candlePatterns := Candle.detectCandlePatterns historicalData in
    let displayTicker := replace ".JK" "" (toUpperCase ticker) in
    Ok (mkAnalysisResult
          displayTicker
          currentPrice
          (Math_round (latestRSI * 100) / 100)
          (Math_round (latestMACD * 100) / 100)
          signal
          (Math_round confidenceScore)
          predPrice
          (Math_round (predPercent * 100) / 100)
          (Math_round low52w)
          (Math_round high52w)
          (Math_round (position52w * 100) / 100)
          (Math_round (volRatio * 100) / 100)
          summaryText
          fundamentalBadges
          bandarFlow
          candlePatterns).

(** [analyzeStock]: any exception of the body is rethrown with the ticker
    in its message. *)
Definition analyzeStock (ticker : string) : result (AnalysisResult Badge) :=
  match analyzeStock_body ticker with
  | Ok r => Ok r
  | Err message => Err ("Failed to analyze stock " ++ ticker ++ ": " ++ message)
  end.

End WithCollaborators.

End Analyzer.

(* ------------------------------------------------------------------ *)
(** ** intraday-analyzer.ts *)

Inductive Bias : Type := BULLISH | BEARISH | SIDEWAYS.

(** An element of [vwapData]: [{ timestamp, vwap }]. *)
Record VwapPoint : Type := mkVwapPoint {
  vwap_timestamp : Z;
  vwap : number
}.

Record IntradayAnalysisResult : Type := mkIntradayAnalysisResult {
  ticker : string;
  bias : Bias;
  score : number;
  entry : number;
  sl : number;
  tp1 : number;
  tp2 : number;
  vwapData : list VwapPoint;
  chartData : list StockData;
  orHigh : number;
  orLow : number;
  currentVWAP : number;
  lastTimestamp : Z;
  reasonText : string
}.

Module Intraday.

Definition bias_eqb (a b : Bias) : bool :=
  match a, b with
  | BULLISH, BULLISH | BEARISH, BEARISH | SIDEWAYS, SIDEWAYS => true
  | _, _ => false
  end.

(** Lines 56-86: the opening range, as the pair ([orHigh], [orLow]).
    [todayKey] is the calendar date of [new Date()]. *)
Definition openingRange (tz : TimeZone) (todayKey : DateKey)
    (data5m : list StockData) (currentPrice : number) : number * number :=
  let todayData :=
    filter (fun item => dateKey_eqb (tz (timestamp item)) todayKey) data5m in
  if (3 <=? length todayData)%nat then
    let openingRangeData := slice 0 3 todayData in
    (Math_max_spread (map high openingRangeData),
     Math_min_spread (map low openingRangeData))
  else if (0 <? length todayData)%nat then
    (Math_max_spread (map high todayData), Math_min_spread (map low todayData))
  else
    let firstFew := slice 0 (Nat.min 3 (length data5m)) data5m in
    if (0 <? length firstFew)%nat then
      (Math_max_spread (map high firstFew), Math_min_spread (map low firstFew))
    else (currentPrice, currentPrice).

(** Lines 100-108. *)
Definition biasOf (currentPrice currentVWAP orHigh orLow : number) : Bias :=
  if gt currentPrice currentVWAP && gt currentPrice orHigh then BULLISH
  else if lt currentPrice currentVWAP && lt currentPrice orLow then BEARISH
  else SIDEWAYS.

(** The adaptive period of the 5m RSI and ATR. *)
Definition periodOf (len : nat) : nat := Nat.min 14 (Nat.max 2 (len / 2)).

(** Lines 169-172: the plan before rounding, as
    ([entry], [sl], [tp1], [tp2]). *)
Definition tradingPlan (currentPrice latestATR : number)
    : number * number * number * number :=
  let entry := currentPrice in
  let sl := entry - (2 * latestATR) in
  let tp1 := entry + (2 * latestATR) in
  let tp2 := entry + (4 * latestATR) in
  (entry, sl, tp1, tp2).

(** Lines 174-214: the reasoning text. *)
Definition reasonOf (bias : Bias) (currentPrice currentVWAP volumeRatio orHigh orLow : number)
    : string :=
  let vwapPart :=
    [if gt currentPrice currentVWAP then "Price is currently above VWAP (Bullish)"
     else if lt currentPrice currentVWAP then "Price is currently below VWAP (Bearish)"
     else "Price is near VWAP (Neutral)"]%string in
  let volumePart :=
    (if lt volumeRatio (7 # 10) then ["but Volume is low"]
     else if gt volumeRatio (13 # 10) then ["and Volume is high (Strong momentum)"]
     else [])%string in
  let rangePart :=
    [if gt currentPrice orHigh then "Price has broken above Opening Range High"
     else if lt currentPrice orLow then "Price has broken below Opening Range Low"
     else "Price is within Opening Range"]%string in
  let advicePart :=
    [if bias_eqb bias BULLISH && gt currentPrice orHigh then
       "Consider BUY on pullback to VWAP"
     else if bias_eqb bias BEARISH && lt currentPrice orLow then
       "Consider SELL on bounce to VWAP"
     else
       "Wait for a breakout above Opening Range High or below Opening Range Low"]%string in
  (join ". " (vwapPart ++ volumePart ++ rangePart ++ advicePart) ++ ".")%string.

Section WithCollaborators.

Variable lib : TechnicalIndicators.
Variable market : Market.

(** The host: its time zone and the reading of its clock, in epoch
    milliseconds, that [new Date()] and [Date.now()] return. *)
Variable tz : TimeZone.
Variable now : Z.

(** Lines 118-130: the latest RSI of the 5m closes, 50 on any failure. *)
Definition latestRSI5m (closes5m : list number) : number :=
  let rsiPeriod := periodOf (length closes5m) in
  if (rsiPeriod + 1 <=? length closes5m)%nat then
    match Indicators.calculateRSI lib closes5m rsiPeriod with
    | Ok rsi5m => last_or rsi5m 50
    | Err _ => 50
    end
  else 50.

(** Lines 155-167: the latest ATR of the 5m bars, 2% of the price on any
    failure. *)
Definition latestATR5m (data5m : list StockData) (currentPrice : number) : number :=
  let highs5m := map high data5m in
  let lows5m := map low data5m in
  let closes5m := map close data5m in
  let atrPeriod := periodOf (length data5m) in
  if (atrPeriod + 1 <=? length data5m)%nat then
    match Indicators.calculateATR lib highs5m lows5m closes5m atrPeriod with
    | Ok atr5m => last_or atr5m (currentPrice * (2 # 100))
    | Err _ => currentPrice * (2 # 100)
    end
  else currentPrice * (2 # 100).

(** Lines 110-152: the score. *)
Definition scoreOf (bias : Bias) (data5m : list StockData) : number :=
  let score := 50 in
  let score := if bias_eqb bias BULLISH then score + 20 else score in
  let closes5m := map close data5m in
  let latestRSI := latestRSI5m closes5m in
  let score := if gt latestRSI 70 then score - 10 else score in
  let score := if lt latestRSI 30 && bias_eqb bias BULLISH then score + 10 else score in
  let volumes5m := map volume data5m in
  let avgVolume := JS.sum volumes5m / inject_Z (Z.of_nat (length volumes5m)) in
  let latestVolume := last_or volumes5m 0 in
  let score := if gt latestVolume avgVolume then score + 20 else score in
  Math_max 0 (Math_min 99 score).

(** The current price: the quote, or the last 5m close when the quote
    fails. *)
Definition currentPriceOf (ticker : string) (data5m : list StockData) : number :=
  match getCurrentPrice market ticker with
  | Ok p => p
  | Err _ => close (at_or data5m (length data5m - 1) (mkStockData 0 0 0 0 0 0))
  end.

(** The body of [analyzeIntraday]'s [try] block. *)
Definition analyzeIntraday_body (ticker : string) : result IntradayAnalysisResult :=
  fetched <- getIntradayData market ticker ;;
  let data5m := data5m fetched in
  let data15m := data15m fetched in
  if (length data5m =? 0)%nat then Err ("No 5m data available for " ++ ticker)
  else if (length data15m =? 0)%nat then Err ("No 15m data available for " ++ ticker)
  else
    let currentPrice := currentPriceOf ticker data5m in
    let todayKey := tz now in
    let '(orHigh, orLow) := openingRange tz todayKey data5m currentPrice in
    let sessionVWAP := Indicators.calculateSessionVWAP tz data5m in
    let vwapData :=
      map (fun index =>
             let item := at_or data5m index (mkStockData 0 0 0 0 0 0) in
             mkVwapPoint (timestamp item) (at_or sessionVWAP index (close item)))
          (List.seq 0 (length data5m)) in
    let currentVWAP :=
      if (0 <? length vwapData)%nat
      then vwap (at_or vwapData (length vwapData - 1) (mkVwapPoint 0 0))
      else currentPrice in
    let bias := biasOf currentPrice currentVWAP orHigh orLow in
    let score := scoreOf bias data5m in
    let volumes5m := map volume data5m in
    let avgVolume := JS.sum volumes5m / inject_Z (Z.of_nat (length volumes5m)) in
    let latestVolume := last_or volumes5m 0 in
    let latestATR := latestATR5m data5m currentPrice in
    let '(entry, sl, tp1, tp2) := tradingPlan currentPrice latestATR in
    let volumeRatio := if gt avgVolume 0 then latestVolume / avgVolume else 1 in
    let reasonText := reasonOf bias currentPrice currentVWAP volumeRatio orHigh orLow in
    let lastTimestamp :=
      if (0 <? length data5m)%nat
      then timestamp (at_or data5m (length data5m - 1) (mkStockData 0 0 0 0 0 0))
      else now in
    let displayTicker := replace ".JK" "" (toUpperCase ticker) in
    Ok (mkIntradayAnalysisResult
          displayTicker
          bias
          (Math_round score)
          (Math_round entry)
          (Math_round sl)
          (Math_round tp1)
          (Math_round tp2)
          vwapData
          data5m
          (Math_round orHigh)
          (Math_round orLow)
          (Math_round currentVWAP)
          lastTimestamp
          reasonText).

Definition analyzeIntraday (ticker : string) : result IntradayAnalysisResult :=
  match analyzeIntraday_body ticker with
  | Ok r => Ok r
  | Err message => Err ("Failed to analyze intraday for " ++ ticker ++ ": " ++ message)
  end.

End WithCollaborators.

End Intraday.

(* ------------------------------------------------------------------ *)
(** ** comparison.ts *)

Inductive Winner : Type := A | B | TIE.

(** A number that may be one of the literals [Infinity] and [-Infinity],
    which the comparators use for an absent field. *)
Inductive xnumber : Type :=
| Finite (q : number)
| Infinity
| NegInfinity.

Module Comparison.

(** [field ?? Infinity] and [field ?? -Infinity]. *)
Definition orInfinity (field : option number) : xnumber :=
  match field with
  | Some v => Finite v
  | None => Infinity
  end.

Definition orNegInfinity (field : option number) : xnumber :=
  match field with
  | Some v => Finite v
  | None => NegInfinity
  end.

(** [x === Infinity], [x === -Infinity] and [x < y]. *)
Definition isInfinity (x : xnumber) : bool :=
  match x with
  | Infinity => true
  | _ => false
  end.

Definition isNegInfinity (x : xnumber) : bool :=
  match x with
  | NegInfinity => true
  | _ => false
  end.

Definition xlt (x y : xnumber) : bool :=
  match x, y with
  | Finite a, Finite b => lt a b
  | Finite _, Infinity => true
  | NegInfinity, Finite _ => true
  | NegInfinity, Infinity => true
  | _, _ => false
  end.

Definition determineValuationWinner (fundamentalA fundamentalB : FundamentalData)
    : Winner :=
  let peA := orInfinity (trailingPE fundamentalA) in
  let pbvA := orInfinity (priceToBook fundamentalA) in
  let peB := orInfinity (trailingPE fundamentalB) in
  let pbvB := orInfinity (priceToBook fundamentalB) in
  let scoreA := if negb (isInfinity peA) then peA else pbvA in
  let scoreB := if negb (isInfinity peB) then peB else pbvB in
  if isInfinity scoreA && isInfinity scoreB then TIE
  else if isInfinity scoreA then B
  else if isInfinity scoreB then A
  else if xlt scoreA scoreB then A
  else if xlt scoreB scoreA then B
  else TIE.

Definition signalScore (s : Signal) : number :=
  match s with
  | BUY => 1
  | SELL => -1
  | NEUTRAL => 0
  end.

Definition determineMomentumWinner (rsiA : number) (signalA : Signal)
    (rsiB : number) (signalB : Signal) : Winner :=
  let rsiDistanceA := Math_abs (rsiA - 50) in
  let rsiDistanceB := Math_abs (rsiB - 50) in
  let scoreA := - rsiDistanceA + signalScore signalA * 10 in
  let scoreB := - rsiDistanceB + signalScore signalB * 10 in
  if gt scoreA scoreB then A
  else if gt scoreB scoreA then B
  else TIE.

Definition determineProfitabilityWinner (fundamentalA fundamentalB : FundamentalData)
    : Winner :=
  let epsA := orNegInfinity (trailingEps fundamentalA) in
  let epsB := orNegInfinity (trailingEps fundamentalB) in
  if isNegInfinity epsA && isNegInfinity epsB then TIE
  else if isNegInfinity epsA then B
  else if isNegInfinity epsB then A
  else if xlt epsB epsA then A
  else if xlt epsA epsB then B
  else TIE.

Definition statusScore (s : FlowStatus) : nat :=
  match s with
  | AKUMULASI => 5
  | MARKUP => 4
  | FLOW_NEUTRAL => 3
  | MARKDOWN => 2
  | DISTRIBUSI => 1
  end.

Definition determineBandarmologyWinner (bandarFlowA bandarFlowB : option BandarFlowData)
    : Winner :=
  let statusA := match bandarFlowA with Some f => status f | None => FLOW_NEUTRAL end in
  let statusB := match bandarFlowB with Some f => status f | None => FLOW_NEUTRAL end in
  let scoreA := statusScore statusA in
  let scoreB := statusScore statusB in
  if (scoreB <? scoreA)%nat then A
  else if (scoreA <? scoreB)%nat then B
  else TIE.

End Comparison.

(* ------------------------------------------------------------------ *)
(** ** The server action that scans the market *)

(** constants/tickers: the default list. *)
Definition DEFAULT_TICKERS : list string :=
  ["BBCA.JK"; "TLKM.JK"; "BMRI.JK"; "ADRO.JK"; "ASII.JK"; "GOTO.JK"; "UNVR.JK";
   "ICBP.JK"; "BBNI.JK"; "PGAS.JK"; "BBRI.JK"; "INDF.JK"; "KLBF.JK"; "SMGR.JK";
   "EXCL.JK"; "ANTM.JK"; "CPIN.JK"; "INCO.JK"; "MEDC.JK"; "PTBA.JK"; "BULL.JK";
   "BUMI.JK"; "BELL.JK"; "TOBA.JK"]%string.

(** The three shapes of object that flow through the scan: the value of
    [analyzeStock]; the record the scan's processor builds in its [catch]
    (it carries [symbol] and [error]); and the record [processInBatches]
    builds in its own [catch] (it carries [success] and [error]). *)
Inductive ScanItem (Badge : Type) : Type :=
| Analysis (r : AnalysisResult Badge)
| ErrorTagged (symbol : string) (price rsi macd : number) (signal : Signal)
              (confidenceScore : number) (error : string)
| BatchError (success : bool) (error : string).
Arguments Analysis {Badge} r.
Arguments ErrorTagged {Badge}.
Arguments BatchError {Badge}.

(** The value [scanMarket] resolves to. *)
Record ScanResponse (Badge : Type) : Type := mkScanResponse {
  success : bool;
  data : option (list (AnalysisResult Badge));
  error : option string
}.
Arguments mkScanResponse {Badge}.
Arguments success {Badge}.
Arguments data {Badge}.
Arguments error {Badge}.

Module Actions.

(** ['symbol' in result] and ['error' in result]. *)
Definition hasSymbol {Badge} (item : ScanItem Badge) : bool :=
  match item with
  | Analysis _ => true
  | ErrorTagged _ _ _ _ _ _ _ => true
  | BatchError _ _ => false
  end.

Definition hasError {Badge} (item : ScanItem Badge) : bool :=
  match item with
  | Analysis _ => false
  | ErrorTagged _ _ _ _ _ _ _ => true
  | BatchError _ _ => true
  end.

Section Batches.

Context {T R : Type}.

(** The object [{ success: false, error }] at the type [R] the source
    casts it to. *)
Variable errorRecord : string -> R.

Variable items : list T.
Variable batchSize : nat.
Variable processor : T -> result R.

(** [processor(item).catch(...)]: a rejection becomes a value. *)
Definition settle (item : T) : R :=
  match processor item with
  | Ok r => r
  | Err message => errorRecord message
  end.

(** The [for] loop of [processInBatches] from index [i] on; one unit of
    [fuel] per batch, [None] when it runs out.  [Promise.all] keeps the
    order of the batch. *)
Fixpoint processInBatches_loop (fuel i : nat) (results : list R) : option (list R) :=
  if (i <? length items)%nat then
    match fuel with
    | O => None
    | S fuel' =>
      let batch := slice i (i + batchSize) items in
      let batchResults := map settle batch in
      processInBatches_loop fuel' (i + batchSize) (results ++ batchResults)
    end
  else Some results.

Definition processInBatches : option (list R) :=
  processInBatches_loop (length items) 0 [].

End Batches.

Definition normalizeTickerForScan (ticker : string) : string :=
  let upperTicker := trim (toUpperCase ticker) in
  if endsWith upperTicker ".JK" then upperTicker
  else (upperTicker ++ ".JK")%string.

Section Scan.

Variable lib : TechnicalIndicators.
Variable market : Market.
Variable Badge : Type.
Variable analyzeFundamentals : FundamentalData -> list Badge.

(** The processor [scanMarket] passes to [processInBatches]: it never
    rejects. *)
Definition scanProcessor (ticker : string) : result (ScanItem Badge) :=
  match Analyzer.analyzeStock lib market Badge analyzeFundamentals ticker with
  | Ok r => Ok (Analysis r)
  | Err message =>
    let codeWithoutSuffix := replace ".JK" "" ticker in
    Ok (ErrorTagged codeWithoutSuffix 0 0 0 NEUTRAL 0 message)
  end.

Definition tickersToScan (selectedTickers : option (list string)) : list string :=
  match selectedTickers with
  | Some selected =>
    if (0 <? length selected)%nat then map normalizeTickerForScan selected
    else DEFAULT_TICKERS
  | None => DEFAULT_TICKERS
  end.

(** [results.filter(...)], narrowed to [AnalysisResult]. *)
Definition successfulResults (results : list (ScanItem Badge))
    : list (AnalysisResult Badge) :=
  let kept := filter (fun result => hasSymbol result && negb (hasError result)) results in
  flat_map (fun result =>
              match result with
              | Analysis r => [r]
              | _ => []
              end)
           kept.

(** [scanMarket]; [None] stands for a scan that does not return.
    [revalidatePath] acts on the framework's cache, which is not part of
    this model, and returns normally; nothing else in the [try] block can
    throw, so the [catch] branch has no counterpart here. *)
Definition scanMarket (selectedTickers : option (list string))
    : option (ScanResponse Badge) :=
  let CONCURRENCY_LIMIT := 5%nat in
  match processInBatches (BatchError false) (tickersToScan selectedTickers)
          CONCURRENCY_LIMIT scanProcessor with
  | None => None
  | Some results =>
    Some (mkScanResponse true (Some (successfulResults results)) None)
  end.

End Scan.

End Actions.

(* ------------------------------------------------------------------ *)
(** ** comparison.ts: the verdict and [compareStocks] *)

(** [ComparisonResult['winners']]. *)
Record Winners : Type := mkWinners {
  valuation : Winner;
  momentum : Winner;
  profitability : Winner;
  bandarmology : Winner
}.

(** One side of a [ComparisonResult]. *)
Record ComparedStock (Badge : Type) : Type := mkComparedStock {
  stock_symbol : string;
  analysis : AnalysisResult Badge;
  fundamentalData : FundamentalData
}.
Arguments mkComparedStock {Badge}.
Arguments stock_symbol {Badge}.
Arguments analysis {Badge}.
Arguments fundamentalData {Badge}.

Record ComparisonResult (Badge : Type) : Type := mkComparisonResult {
  stockA : ComparedStock Badge;
  stockB : ComparedStock Badge;
  winners : Winners;
  verdict : string
}.
Arguments mkComparisonResult {Badge}.
Arguments stockA {Badge}.
Arguments stockB {Badge}.
Arguments winners {Badge}.
Arguments verdict {Badge}.

Module Verdict.

(** [w === 'A' ? 1 : w === 'B' ? -1 : 0]. *)
Definition winValue (w : Winner) : Z :=
  match w with
  | A => 1
  | B => -1
  | TIE => 0
  end.

(** [generateVerdict]; the two fundamental snapshots it receives are not
    read. *)
Definition generateVerdict (symbolA symbolB : string)
    (fundamentalA fundamentalB : FundamentalData) (winners : Winners) : string :=
  let push (parts : list string) (sentence : string) := parts ++ [sentence] in
  let parts : list string := [] in
  let fundamentalWins :=
    fold_left Z.add [winValue (valuation winners); winValue (profitability winners)] 0%Z in
  let parts :=
    if (fundamentalWins >? 0)%Z then
      push parts ("Secara fundamental, **" ++ symbolA ++ "** lebih unggul")%string
    else if (fundamentalWins <? 0)%Z then
      push parts ("Secara fundamental, **" ++ symbolB ++ "** lebih unggul")%string
    else parts in
  let technicalWins :=
    fold_left Z.add [winValue (momentum winners); winValue (bandarmology winners)] 0%Z in
  let parts :=
    if (technicalWins >? 0)%Z then
      push parts ("secara teknikal, **" ++ symbolA
                  ++ "** memiliki momentum jangka pendek yang lebih baik")%string
    else if (technicalWins <? 0)%Z then
      push parts ("secara teknikal, **" ++ symbolB
                  ++ "** memiliki momentum jangka pendek yang lebih baik")%string
    else parts in
  let totalWins := (fundamentalWins + technicalWins)%Z in
  let parts :=
    if (totalWins >? 0)%Z then
      push parts ("Secara keseluruhan, **" ++ symbolA
                  ++ "** menunjukkan performa yang lebih baik berdasarkan analisis fundamental dan teknikal.")%string
    else if (totalWins <? 0)%Z then
      push parts ("Secara keseluruhan, **" ++ symbolB
                  ++ "** menunjukkan performa yang lebih baik berdasarkan analisis fundamental dan teknikal.")%string
    else
      push parts "Kedua saham memiliki kelebihan masing-masing. Pilih sesuai dengan strategi investasi Anda."%string in
  (join ". " parts ++ ".")%string.

(** The winner seen from the other side. *)
Definition swapWinner (w : Winner) : Winner :=
  match w with
  | A => B
  | B => A
  | TIE => TIE
  end.

Definition swapWinners (w : Winners) : Winners :=
  mkWinners (swapWinner (valuation w)) (swapWinner (momentum w))
    (swapWinner (profitability w)) (swapWinner (bandarmology w)).

(** Lines 24-48 of [compareStocks]: what it computes from the two analyses
    and the two fundamental snapshots. *)
Definition compareAnalyses {Badge} (analysisA analysisB : AnalysisResult Badge)
    (fundamentalA fundamentalB : FundamentalData) : ComparisonResult Badge :=
  let winners :=
    mkWinners
      (Comparison.determineValuationWinner fundamentalA fundamentalB)
      (Comparison.determineMomentumWinner (rsi analysisA) (signal analysisA)
         (rsi analysisB) (signal analysisB))
      (Comparison.determineProfitabilityWinner fundamentalA fundamentalB)
      (Comparison.determineBandarmologyWinner (bandarFlow analysisA)
         (bandarFlow analysisB)) in
  let verdict :=
    generateVerdict (symbol analysisA) (symbol analysisB) fundamentalA fundamentalB
      winners in
  mkComparisonResult
    (mkComparedStock (symbol analysisA) analysisA fundamentalA)
    (mkComparedStock (symbol analysisB) analysisB fundamentalB)
    winners verdict.

Section WithCollaborators.

Variable lib : TechnicalIndicators.
Variable market : Market.
Variable Badge : Type.
Variable analyzeFundamentals : FundamentalData -> list Badge.

(** When both analyses of [Promise.all] reject, the one that rejects first
    gives the error: [firstRejected] is [A] or [B] accordingly. *)
Variable firstRejected : Winner.

(** [getFundamentalData(ticker).catch(() => ({}))]. *)
Definition fundamentalsOrEmpty (ticker : string) : FundamentalData :=
  match getFundamentalData market ticker with
  | Ok f => f
  | Err _ => mkFundamentalData None None None None None
  end.

Definition compareStocks (tickerA tickerB : string) : result (ComparisonResult Badge) :=
  match Analyzer.analyzeStock lib market Badge analyzeFundamentals tickerA,
        Analyzer.analyzeStock lib market Badge analyzeFundamentals tickerB with
  | Ok analysisA, Ok analysisB =>
    Ok (compareAnalyses analysisA analysisB
          (fundamentalsOrEmpty tickerA) (fundamentalsOrEmpty tickerB))
  | Err message, Ok _ => Err message
  | Ok _, Err message => Err message
  | Err messageA, Err messageB =>
    match firstRejected with
    | B => Err messageB
    | _ => Err messageA
    end
  end.

End WithCollaborators.

End Verdict.

(* ------------------------------------------------------------------ *)
(** ** The other server actions *)

(** The value a server action resolves to:
    [{ success, data?, error? }]. *)
Record ActionResponse (D : Type) : Type := mkActionResponse {
  action_success : bool;
  action_data : option D;
  action_error : option string
}.
Arguments mkActionResponse {D}.
Arguments action_success {D}.
Arguments action_data {D}.
Arguments action_error {D}.

(** A point of the chart of [getChartData]:
    [{ timestamp, close, vwap }]. *)
Record ChartDataPoint : Type := mkChartDataPoint {
  chart_timestamp : Z;
  chart_close : number;
  chart_vwap : number
}.

(** A submitted form whose entries are strings: [formData.get(name)]. *)
Definition FormData : Type := string -> option string.

Module ServerActions.

Definition succeed {D} (d : D) : ActionResponse D := mkActionResponse true (Some d) None.
Definition fail {D} (message : string) : ActionResponse D :=
  mkActionResponse false None (Some message).

(** [formData.get(name)?.toString().trim()], then the test
    [!ticker || ticker.length === 0]: [None] when the ticker is missing or
    blank. *)
Definition tickerField (formData : FormData) (name : string) : option string :=
  match formData name with
  | None => None
  | Some raw =>
    let ticker := trim raw in
    if (String.length ticker =? 0)%nat then None else Some ticker
  end.

Section WithCollaborators.

Variable lib : TechnicalIndicators.
Variable market : Market.
Variable Badge : Type.
Variable analyzeFundamentals : FundamentalData -> list Badge.
Variable tz : TimeZone.
Variable now : Z.
Variable firstRejected : Winner.

(** [analyzeTicker]; as in [scanMarket], [revalidatePath] is not part of
    the model. *)
Definition analyzeTicker (formData : FormData) : ActionResponse (AnalysisResult Badge) :=
  match tickerField formData "ticker" with
  | None => fail "Ticker symbol is required"
  | Some ticker =>
    match Analyzer.analyzeStock lib market Badge analyzeFundamentals ticker with
    | Ok r => succeed r
    | Err message => fail message
    end
  end.

Definition analyzeIntradayTicker (formData : FormData)
    : ActionResponse IntradayAnalysisResult :=
  match tickerField formData "ticker" with
  | None => fail "Ticker symbol is required"
  | Some ticker =>
    match Intraday.analyzeIntraday lib market tz now ticker with
    | Ok r => succeed r
    | Err message => fail message
    end
  end.

Definition getChartData (ticker : string) : ActionResponse (list ChartDataPoint) :=
  match getHistoricalData market ticker "5m" with
  | Err message => fail message
  | Ok historicalData =>
    if (length historicalData =? 0)%nat then fail "No chart data available"
    else
      match Indicators.calculateVWAP
              (map high historicalData) (map low historicalData)
              (map close historicalData) (map volume historicalData) with
      | Err message => fail message
      | Ok vwapValues =>
        succeed
          (map (fun index =>
                  let item := at_or historicalData index (mkStockData 0 0 0 0 0 0) in
                  mkChartDataPoint (timestamp item) (close item)
                    (at_or vwapValues index (close item)))
               (List.seq 0 (length historicalData)))
      end
  end.

Definition compareTickers (formData : FormData)
    : ActionResponse (ComparisonResult Badge) :=
  match tickerField formData "tickerA" with
  | None => fail "Ticker A is required"
  | Some tickerA =>
    match tickerField formData "tickerB" with
    | None => fail "Ticker B is required"
    | Some tickerB =>
      if String.eqb (toUpperCase tickerA) (toUpperCase tickerB) then
        fail "Please select two different stocks to compare"
      else
        match Verdict.compareStocks lib market Badge analyzeFundamentals firstRejected
                tickerA tickerB with
        | Ok r => succeed r
        | Err message => fail message
        end
    end
  end.

End WithCollaborators.

End ServerActions.

(* ------------------------------------------------------------------ *)
(** ** market-status.ts *)

Inductive MarketStatus : Type := OPEN | BREAK | CLOSED.

(** What one [new Date()] gives in the host zone: [getDay()] (0 is
    Sunday), [getHours()] and [getMinutes()]. *)
Record ClockReading : Type := mkClockReading {
  dayOfWeek : Z;
  hours : Z;
  minutes : Z
}.

Record MarketStatusResult : Type := mkMarketStatusResult {
  market_status : MarketStatus;
  market_message : string;
  market_timestamp : Z
}.

Module MarketClock.

Local Open Scope string_scope.
Local Open Scope Z_scope.

Definition isBreakTime (now : ClockReading) : bool :=
  let timeInMinutes := hours now * 60 + minutes now in
  if dayOfWeek now =? 5 then
    let breakStart := 11 * 60 + 30 in
    let breakEnd := 14 * 60 in
    (breakStart <=? timeInMinutes) && (timeInMinutes <? breakEnd)
  else if (1 <=? dayOfWeek now) && (dayOfWeek now <=? 4) then
    let breakStart := 12 * 60 in
    let breakEnd := 13 * 60 + 30 in
    (breakStart <=? timeInMinutes) && (timeInMinutes <? breakEnd)
  else false.

(** [getMarketStatusByTime] reads the clock itself ([now]) and, unless the
    day is a weekend day, once more inside [isBreakTime] ([breakNow]). *)
Definition getMarketStatusByTime (now breakNow : ClockReading) : MarketStatus :=
  let timeInMinutes := hours now * 60 + minutes now in
  if (dayOfWeek now =? 0) || (dayOfWeek now =? 6) then CLOSED
  else if isBreakTime breakNow then BREAK
  else
    let marketOpen := 9 * 60 in
    let marketClose := 15 * 60 + 50 in
    if (marketOpen <=? timeInMinutes) && (timeInMinutes <? marketClose) then OPEN
    else CLOSED.

Definition messageOf (status : MarketStatus) : string :=
  match status with
  | OPEN => "Market Open"
  | BREAK => "Istirahat Sesi 1"
  | CLOSED => "Market Closed"
  end.

(** The message of the two fallback branches, written there as a chain of
    conditionals. *)
Definition fallbackMessage (status : MarketStatus) : string :=
  match status with
  | OPEN => "Market Open"
  | _ => match status with
         | BREAK => "Istirahat Sesi 1"
         | _ => "Market Closed"
         end
  end.

(** [getRealTimeMarketStatus].  [quoteJKSE] and [quoteBBCA] are the
    outcomes of the two quote requests, each the [marketState] of the quote
    when it has one; [now] and [breakNow] are the clock readings as above and
    [timestamp] the value of [Date.now()]. *)
Definition getRealTimeMarketStatus (quoteJKSE quoteBBCA : result (option string))
    (now breakNow : ClockReading) (timestamp : Z) : MarketStatusResult :=
  let byTime :=
    let status := getMarketStatusByTime now breakNow in
    mkMarketStatusResult status (fallbackMessage status) timestamp in
  let fromState (marketState : option string) :=
    let isState (s : string) :=
      match marketState with
      | Some m => String.eqb m s
      | None => false
      end in
    let status :=
      if isState "REGULAR" then
        if isBreakTime breakNow then BREAK else OPEN
      else if isState "CLOSED" || isState "PRE" || isState "POST" then CLOSED
      else getMarketStatusByTime now breakNow in
    mkMarketStatusResult status (messageOf status) timestamp in
  match quoteJKSE with
  | Ok marketState => fromState marketState
  | Err _ =>
    match quoteBBCA with
    | Ok marketState => fromState marketState
    | Err _ => byTime
    end
  end.

End MarketClock.

(* ------------------------------------------------------------------ *)
(** ** market-data.ts: the history and the intraday series *)

(** An item of [yahooFinance.historical]: [date.getTime()] when the item
    has a date, and its optional fields. *)
Record YahooHistoricalItem : Type := mkYahooHistoricalItem {
  item_date : option Z;
  item_open : option number;
  item_high : option number;
  item_low : option number;
  item_close : option number;
  item_volume : option number
}.

Record QueryOptions : Type := mkQueryOptions {
  period1 : Z;
  period2 : Z;
  interval : string
}.

(** The package yahoo-finance2: the outcome of [historical], [None] for a
    value that is not an array. *)
Definition YahooHistorical : Type :=
  string -> QueryOptions -> result (option (list YahooHistoricalItem)).

(** The values of [Date.now()] during one call, in the order of the
    source: for [period1], for [period2], for the item at an index that has
    no date, and for the five-day filter of [getIntradayData]. *)
Record ClockReadings : Type := mkClockReadings {
  nowPeriod1 : Z;
  nowPeriod2 : Z;
  nowItem : nat -> Z;
  nowFilter : Z
}.

Module MarketData.

Definition normalizeTicker (ticker : string) : string :=
  let upperTicker := trim (toUpperCase ticker) in
  if endsWith upperTicker ".JK" then upperTicker
  else (upperTicker ++ ".JK")%string.

Definition orZero (field : option number) : number :=
  match field with
  | Some v => v
  | None => 0
  end.

(** [result.map(item => ({ ... }))]. *)
Definition toStockData (clock : ClockReadings) (items : list YahooHistoricalItem)
    : list StockData :=
  map (fun index =>
         let item :=
           nth index items (mkYahooHistoricalItem None None None None None None) in
         mkStockData
           (match item_date item with
            | Some t => t
            | None => nowItem clock index
            end)
           (orZero (item_open item)) (orZero (item_high item))
           (orZero (item_low item)) (orZero (item_close item))
           (orZero (item_volume item)))
      (List.seq 0 (length items)).

Section WithYahoo.

Variable historical : YahooHistorical.
Variable clock : ClockReadings.

Definition getHistoricalData_body (ticker interval : string) : result (list StockData) :=
  let normalizedTicker := normalizeTicker ticker in
  let validInterval :=
    if String.eqb interval "5m" || String.eqb interval "1h" then "1d"%string
    else interval in
  let queryOptions :=
    mkQueryOptions
      (nowPeriod1 clock / 1000 - 365 * 24 * 60 * 60)%Z
      (nowPeriod2 clock / 1000)%Z
      validInterval in
  fetched <- historical normalizedTicker queryOptions ;;
  match fetched with
  | None => Err ("No data found for ticker: " ++ normalizedTicker)
  | Some items =>
    if (length items =? 0)%nat then Err ("No data found for ticker: " ++ normalizedTicker)
    else Ok (toStockData clock items)
  end.

Definition getHistoricalData (ticker interval : string) : result (list StockData) :=
  match getHistoricalData_body ticker interval with
  | Ok bars => Ok bars
  | Err message =>
    Err ("Failed to fetch historical data for " ++ ticker ++ ": " ++ message)
  end.

Definition getIntradayData_body (ticker : string) : result IntradayData :=
  let normalizedTicker := normalizeTicker ticker in
  let sixtyDaysAgo := (nowPeriod1 clock / 1000 - 60 * 24 * 60 * 60)%Z in
  let now := (nowPeriod2 clock / 1000)%Z in
  let query1d := mkQueryOptions sixtyDaysAgo now "1d" in
  fetched <- historical normalizedTicker query1d ;;
  match fetched with
  | None => Err ("No historical data found for ticker: " ++ normalizedTicker)
  | Some items =>
    if (length items =? 0)%nat then
      Err ("No historical data found for ticker: " ++ normalizedTicker)
    else
      let dailyData := toStockData clock items in
      let fiveDaysAgoTimestamp := (nowFilter clock - 5 * 24 * 60 * 60 * 1000)%Z in
      let recentData :=
        filter (fun item => (fiveDaysAgoTimestamp <=? timestamp item)%Z) dailyData in
      let data5m :=
        if (0 <? length recentData)%nat then recentData else slice_last 10 dailyData in
      let data15m := if (20 <=? length dailyData)%nat then dailyData else dailyData in
      if (length data5m =? 0)%nat && (length data15m =? 0)%nat then
        Err ("No intraday data found for ticker: " ++ normalizedTicker)
      else Ok (mkIntradayData data5m data15m)
  end.

Definition getIntradayData (ticker : string) : result IntradayData :=
  match getIntradayData_body ticker with
  | Ok d => Ok d
  | Err message =>
    Err ("Failed to fetch intraday data for " ++ ticker ++ ": " ++ message)
  end.

(** The collaborator of the services over this package, the quote and the
    fundamentals given by their outcomes. *)
Definition marketOver (quote : string -> result number)
    (fundamentals : string -> result FundamentalData) : Market :=
  mkMarket getHistoricalData quote getIntradayData fundamentals.

End WithYahoo.

End MarketData.

(* ------------------------------------------------------------------ *)
(** ** A host and collaborators to run the services on *)

Module Sample.

(** An indicator library with the conventions the services are calibrated
    against: an EMA seeded with the simple average of the first [period]
    values, Wilder's smoothing for RSI and ATR, MACD on the 12/26/9 EMAs. *)
Definition average (xs : list number) : number :=
  Qred (JS.sum xs / inject_Z (Z.of_nat (length xs))).

Fixpoint smooth (step : number -> number -> number) (prev : number)
    (xs : list number) : list number :=
  match xs with
  | [] => []
  | x :: t => let e := Qred (step prev x) in e :: smooth step e t
  end.

Definition ema (values : list number) (period : nat) : list number :=
  if (length values <? period)%nat || (period =? 0)%nat then []
  else
    let k := 2 / inject_Z (Z.of_nat (period + 1)) in
    let seed := average (firstn period values) in
    seed :: smooth (fun prev v => v * k + prev * (1 - k)) seed (skipn period values).

(** The changes [values[i] - values[i-1]], for [i >= 1]. *)
Fixpoint changes (values : list number) : list number :=
  match values with
  | a :: ((b :: _) as t) => (b - a) :: changes t
  | _ => []
  end.

Definition wilder (period : nat) (xs : list number) : list number :=
  if (length xs <? period)%nat || (period =? 0)%nat then []
  else
    let n := inject_Z (Z.of_nat period) in
    let seed := average (firstn period xs) in
    seed :: smooth (fun prev x => (prev * (n - 1) + x) / n) seed (skipn period xs).

Definition rsi (values : list number) (period : nat) : list number :=
  let gains := map (fun c => Math_max c 0) (changes values) in
  let losses := map (fun c => Math_max (- c) 0) (changes values) in
  map (fun gl : number * number =>
         let (avgGain, avgLoss) := gl in
         if strict_eq avgLoss 0 then 100
         else Qred (100 - 100 / (1 + avgGain / avgLoss)))
      (combine (wilder period gains) (wilder period losses)).

Fixpoint trueRanges (high low close : list number) : list number :=
  match high, low, close with
  | _ :: ((h :: _) as hs), _ :: ((l :: _) as ls), pc :: cs =>
    Math_max (h - l) (Math_max (Math_abs (h - pc)) (Math_abs (l - pc)))
    :: trueRanges hs ls cs
  | _, _, _ => []
  end.

Definition atr (high low close : list number) (period : nat) : list number :=
  wilder period (trueRanges high low close).

Definition macd (values : list number) : list MACDOutput :=
  let fast := skipn 14 (ema values 12) in
  let slow := ema values 26 in
  let line := map (fun fs : number * number => fst fs - snd fs) (combine fast slow) in
  let signalLine := ema line 9 in
  map (fun j =>
         let m := nth j line 0 in
         if (8 <=? j)%nat then
           let sg := nth (j - 8) signalLine 0 in
           mkMACDOutput (Some m) (Some sg) (Some (m - sg))
         else mkMACDOutput (Some m) None None)
      (List.seq 0 (length line)).

Definition indicators : TechnicalIndicators :=
  mkTechnicalIndicators rsi macd atr ema.

(** A host set to UTC: the civil date of an epoch-millisecond timestamp. *)
Definition utc : TimeZone := fun ts =>
  let z := (ts / 86400000 + 719468)%Z in
  let era := (z / 146097)%Z in
  let doe := (z - era * 146097)%Z in
  let yoe := ((doe - doe / 1460 + doe / 36524 - doe / 146096) / 365)%Z in
  let doy := (doe - (365 * yoe + yoe / 4 - yoe / 100))%Z in
  let mp := ((5 * doy + 2) / 153)%Z in
  let d := (doy - (153 * mp + 2) / 5 + 1)%Z in
  let m := (if mp <? 10 then mp + 3 else mp - 9)%Z in
  let y := (yoe + era * 400 + (if m <=? 2 then 1 else 0))%Z in
  (y, m, d).

(** Midnight UTC of the [n]-th day after 2024-01-01, in milliseconds. *)
Definition day (n : Z) : Z := (1704067200000 + n * 86400000)%Z.

(** A daily bar around a close: open at the close, one unit of range on
    each side, a thousand shares. *)
Definition barAt (n : nat) (c : number) : StockData :=
  mkStockData (day (Z.of_nat n)) c (c + 1) (c - 1) c 1000.

(** [n] daily bars whose closes are [f 0], ..., [f (n - 1)]. *)
Definition barsOf (f : nat -> number) (n : nat) : list StockData :=
  map (fun i => barAt i (f i)) (List.seq 0 n).

(** A market that serves one bar series for every ticker, with the given
    outcome of the quote, and no fundamental field. *)
Definition marketOf (bars : list StockData) (quote : result number) : Market :=
  mkMarket
    (fun _ _ => Ok bars)
    (fun _ => quote)
    (fun _ => Ok (mkIntradayData bars bars))
    (fun _ => Ok (mkFundamentalData None None None None None)).

(** The same market, except that the history of one ticker cannot be
    fetched. *)
Definition marketWithout (missing : string) (bars : list StockData)
    (quote : result number) : Market :=
  mkMarket
    (fun ticker _ =>
       if String.eqb ticker missing
       then Err ("Failed to fetch historical data for " ++ ticker
                 ++ ": No data found for ticker: " ++ ticker)
       else Ok bars)
    (fun _ => quote)
    (fun _ => Ok (mkIntradayData bars bars))
    (fun _ => Ok (mkFundamentalData None None None None None)).

(** No badge texts. *)
Definition noBadges (_ : FundamentalData) : list unit := [].

(** Bars from (close, volume) pairs, one per day. *)
Definition barsFrom (closesAndVolumes : list (number * number)) : list StockData :=
  map (fun i =>
         let cv := nth i closesAndVolumes (0, 0) in
         mkStockData (day (Z.of_nat i)) (fst cv) (fst cv + 1) (fst cv - 1) (fst cv) (snd cv))
      (List.seq 0 (length closesAndVolumes)).


(** Twenty bars whose first close is 0, a close that market-data.ts stores
    for an item without one, the others rising from 100, each trading 1000
    shares. *)
Definition zeroFirstCloseBars : list StockData :=
  barsFrom
    ((0, 1000)
     :: map (fun i => (99 + inject_Z (Z.of_nat i), 1000)) (List.seq 1 19)).

(** Daily bars with closes 100, 110, 120, ...: two of them, and five. *)
Definition twoBars : list StockData :=
  barsOf (fun i => 100 + 10 * inject_Z (Z.of_nat i)) 2.

Definition fiveBars : list StockData :=
  barsOf (fun i => 100 + 10 * inject_Z (Z.of_nat i)) 5.

(** Ten in the morning, UTC, of the [n]-th day after 2024-01-01. *)
Definition morning (n : Z) : Z := (day n + 36000000)%Z.

(** Two candles whose second has a small body on top of a long lower
    shadow, and two whose second has a small falling body under a long upper
    shadow. *)
Definition hammerBars : list StockData :=
  [mkStockData (day 0) 100 101 99 100 1000;
   mkStockData (day 1) 100 (1016 # 10) 90 (1015 # 10) 1000].

Definition shootingStarBars : list StockData :=
  [mkStockData (day 0) 100 101 99 100 1000;
   mkStockData (day 1) (1015 # 10) (1115 # 10) (999 # 10) 100 1000].

(** A snapshot that carries a trailing P/E only. *)
Definition withPE (pe : number) : FundamentalData :=
  mkFundamentalData None (Some pe) None None None.

(** Two hundred daily bars with closes rising from 100. *)
Definition risingBars : list StockData :=
  barsOf (fun i => 100 + inject_Z (Z.of_nat i)) 200.


(** A package that answers every query with three daily items, the last
    without a date and without a volume, and a clock read on the fourth
    day. *)
Definition items : list YahooHistoricalItem :=
  [mkYahooHistoricalItem (Some (day 0)) (Some 100) (Some 102) (Some 99) (Some 101)
     (Some 1000);
   mkYahooHistoricalItem (Some (day 1)) (Some 101) (Some 104) (Some 100) (Some 103)
     (Some 3000);
   mkYahooHistoricalItem None (Some 103) (Some 103) (Some 100) (Some 100) None].

Definition package : YahooHistorical := fun _ _ => Ok (Some items).

Definition readings : ClockReadings :=
  mkClockReadings (day 3) (day 3 + 1) (fun index => day 3 + 2 + Z.of_nat index)%Z
    (day 3 + 9).

End Sample.

(* ------------------------------------------------------------------ *)
(** * Properties *)

(** ** The comparisons and the [Math] functions *)

Lemma lt_iff (x y : number) : lt x y = true <-> x < y.
Proof.
  unfold lt. rewrite negb_true_iff, <- not_true_iff_false, Qle_bool_iff.
  split; intro H.
  - apply Qnot_le_lt; exact H.
  - apply Qlt_not_le; exact H.
Qed.

Lemma gt_iff (x y : number) : gt x y = true <-> y < x.
Proof. unfold gt. apply lt_iff. Qed.

Lemma lt_false_iff (x y : number) : lt x y = false <-> y <= x.
Proof.
  unfold lt. rewrite negb_false_iff. apply Qle_bool_iff.
Qed.

Lemma gt_false_iff (x y : number) : gt x y = false <-> x <= y.
Proof. unfold gt. apply lt_false_iff. Qed.

Lemma le_iff (x y : number) : le x y = true <-> x <= y.
Proof. unfold le. apply Qle_bool_iff. Qed.

Lemma ge_iff (x y : number) : ge x y = true <-> y <= x.
Proof. unfold ge. apply Qle_bool_iff. Qed.

Lemma strict_eq_iff (x y : number) : strict_eq x y = true <-> x == y.
Proof. unfold strict_eq. apply Qeq_bool_iff. Qed.

Lemma strict_ne_iff (x y : number) : strict_ne x y = true <-> ~ x == y.
Proof.
  unfold strict_ne. rewrite negb_true_iff, <- not_true_iff_false, Qeq_bool_iff.
  tauto.
Qed.

Lemma Math_min_le_l (x y : number) : Math_min x y <= x.
Proof.
  unfold Math_min. destruct (lt y x) eqn:E.
  - apply lt_iff in E. lra.
  - lra.
Qed.

Lemma Math_min_le_r (x y : number) : Math_min x y <= y.
Proof.
  unfold Math_min. destruct (lt y x) eqn:E.
  - lra.
  - apply lt_false_iff in E. lra.
Qed.

Lemma Math_min_glb (x y z : number) : z <= x -> z <= y -> z <= Math_min x y.
Proof.
  intros Hx Hy. unfold Math_min. destruct (lt y x); assumption.
Qed.

Lemma Math_abs_nonneg (x : number) : 0 <= Math_abs x.
Proof. apply Qabs_nonneg. Qed.

(** [Math.round] is monotone and fixes the integers. *)
Lemma Math_round_mono (x y : number) : x <= y -> Math_round x <= Math_round y.
Proof.
  intro H. unfold Math_round.
  rewrite <- Zle_Qle. apply Qfloor_resp_le. lra.
Qed.

Lemma Math_round_Z (z : Z) : Math_round (inject_Z z) = inject_Z z.
Proof.
  unfold Math_round. f_equal.
  assert (Hlo : (z <= Qfloor (inject_Z z + (1 # 2)))%Z).
  { rewrite <- (Qfloor_Z z) at 1. apply Qfloor_resp_le. lra. }
  assert (Hhi : (Qfloor (inject_Z z + (1 # 2)) < z + 1)%Z).
  { rewrite Zlt_Qlt.
    apply Qle_lt_trans with (inject_Z z + (1 # 2)).
    - apply Qfloor_le.
    - rewrite inject_Z_plus. change (inject_Z 1) with 1. lra. }
  lia.
Qed.

(** ** The signal block of the swing analyzer *)

(** Turn the outcome of each comparison in the context into the
    inequality it decides. *)
Ltac to_order :=
  repeat match goal with
  | H : lt _ _ = true |- _ => apply lt_iff in H
  | H : lt _ _ = false |- _ => apply lt_false_iff in H
  | H : gt _ _ = true |- _ => apply gt_iff in H
  | H : gt _ _ = false |- _ => apply gt_false_iff in H
  | H : le _ _ = true |- _ => apply le_iff in H
  | H : ge _ _ = true |- _ => apply ge_iff in H
  | H : strict_eq _ _ = true |- _ => apply strict_eq_iff in H
  | H : strict_ne _ _ = true |- _ => apply strict_ne_iff in H
  end.

Lemma signal_BUY_iff (latestRSI currentPrice latestEMA200 : number) :
  fst (Analyzer.signalAndConfidence latestRSI currentPrice latestEMA200) = BUY <->
  latestRSI < 30 /\ latestEMA200 < currentPrice.
Proof.
  unfold Analyzer.signalAndConfidence.
  destruct (lt latestRSI 30) eqn:E1; destruct (gt currentPrice latestEMA200) eqn:E2;
    cbn [andb fst];
    try (destruct (gt latestRSI 70) eqn:E3; cbn [fst]);
    to_order; (split; [intro H; try discriminate H; lra | intro H; try reflexivity; lra]).
Qed.

Lemma signal_SELL_iff (latestRSI currentPrice latestEMA200 : number) :
  fst (Analyzer.signalAndConfidence latestRSI currentPrice latestEMA200) = SELL <->
  70 < latestRSI /\ ~ (latestRSI < 30 /\ latestEMA200 < currentPrice).
Proof.
  unfold Analyzer.signalAndConfidence.
  destruct (lt latestRSI 30) eqn:E1; destruct (gt currentPrice latestEMA200) eqn:E2;
    cbn [andb fst];
    try (destruct (gt latestRSI 70) eqn:E3; cbn [fst]);
    to_order; (split; [intro H; try discriminate H; lra | intro H; try reflexivity; lra]).
Qed.


(** The quotient of a non-negative number by a positive one. *)
Lemma Qdiv_nonneg (a b : number) : 0 <= a -> 0 < b -> 0 <= a / b.
Proof.
  intros Ha Hb. unfold Qdiv.
  apply Qmult_le_0_compat; [exact Ha|].
  apply Qlt_le_weak, Qinv_lt_0_compat, Hb.
Qed.

(** With a positive EMA200 the unrounded confidence is between 30 and 95;
    the SELL and NEUTRAL branches need no assumption. *)
Lemma confidence_range (latestRSI currentPrice latestEMA200 : number) :
  0 < latestEMA200 ->
  30 <= snd (Analyzer.signalAndConfidence latestRSI currentPrice latestEMA200) <= 95.
Proof.
  intro Hema. unfold Analyzer.signalAndConfidence.
  destruct (lt latestRSI 30) eqn:E1; destruct (gt currentPrice latestEMA200) eqn:E2;
    cbn [andb snd];
    try (destruct (gt latestRSI 70) eqn:E3; cbn [snd]);
    to_order; try lra.
  - split; [|apply Math_min_le_r].
    apply Math_min_glb; [|lra].
    assert (Hq : 0 <= (currentPrice - latestEMA200) / latestEMA200)
      by (apply Qdiv_nonneg; lra).
    assert (Hm : 0 <= Math_min ((currentPrice - latestEMA200) / latestEMA200) (1 # 10))
      by (apply Math_min_glb; lra).
    set (m := Math_min ((currentPrice - latestEMA200) / latestEMA200) (1 # 10)) in *.
    assert (Hr : 0 <= (30 - latestRSI) / 30) by (apply Qdiv_nonneg; lra).
    set (rsiStrength := (30 - latestRSI) / 30) in *.
    lra.
  - split; [|apply Math_min_le_r]. apply Math_min_glb; [|lra].
    assert (Hr : 0 <= (latestRSI - 70) / 30) by (apply Qdiv_nonneg; lra).
    set (rsiStrength := (latestRSI - 70) / 30) in *.
    lra.
  - split; [|apply Math_min_le_r]. apply Math_min_glb; [|lra].
    assert (Hr : 0 <= (latestRSI - 70) / 30) by (apply Qdiv_nonneg; lra).
    set (rsiStrength := (latestRSI - 70) / 30) in *.
    lra.
Qed.

(** Rounding keeps a value inside an interval with integer ends. *)
Lemma Math_round_range (lo hi : Z) (x : number) :
  inject_Z lo <= x <= inject_Z hi ->
  inject_Z lo <= Math_round x <= inject_Z hi.
Proof.
  intros [Hlo Hhi]. split.
  - rewrite <- (Math_round_Z lo). apply Math_round_mono, Hlo.
  - rewrite <- (Math_round_Z hi). apply Math_round_mono, Hhi.
Qed.

(** ** The swing analyzer *)

Section AnalyzerProperties.

Variable lib : TechnicalIndicators.
Variable market : Market.
Variable Badge : Type.
Variable analyzeFundamentals : FundamentalData -> list Badge.

Let analyzeStock := Analyzer.analyzeStock lib market Badge analyzeFundamentals.

(** The three values the signal is decided on, for a bar series. *)
Let priceOf (ticker : string) (bars : list StockData) : number :=
  Analyzer.currentPriceOf market ticker (map close bars).
Let rsiOf (bars : list StockData) : number :=
  Analyzer.latestRSI_of (RSI_calculate lib (map close bars) 14).
Let ema200Of (ticker : string) (bars : list StockData) : number :=
  Analyzer.latestEMA_of (EMA_calculate lib (map close bars) 200) (priceOf ticker bars).

(** With at least 200 bars the analysis returns, and its signal,
    confidence, bandar flow and patterns are those of the blocks above. *)
Lemma analyzeStock_returns (ticker : string) (bars : list StockData) :
  getHistoricalData market ticker "1d" = Ok bars ->
  (200 <= length bars)%nat ->
  exists r,
    analyzeStock ticker = Ok r /\
    signal r =
      fst (Analyzer.signalAndConfidence (rsiOf bars) (priceOf ticker bars)
             (ema200Of ticker bars)) /\
    confidenceScore r =
      Math_round
        (snd (Analyzer.signalAndConfidence (rsiOf bars) (priceOf ticker bars)
                (ema200Of ticker bars))) /\
    bandarFlow r = Analyzer.bandarFlowOf bars /\
    candlePatterns r = Candle.detectCandlePatterns bars.
Proof.
  intros Hfetch Hlen.
  unfold analyzeStock, Analyzer.analyzeStock, Analyzer.analyzeStock_body.
  rewrite Hfetch. cbn [bind].
  assert (E200 : (length bars <? 200)%nat = false) by (apply Nat.ltb_ge; lia).
  rewrite E200.
  unfold Indicators.calculateRSI, Indicators.calculateMACD, Indicators.calculateEMA.
  rewrite length_map.
  assert (E15 : (length bars <? 14 + 1)%nat = false) by (apply Nat.ltb_ge; lia).
  assert (E26 : (length bars <? 26)%nat = false) by (apply Nat.ltb_ge; lia).
  assert (E50 : (length bars <? 50)%nat = false) by (apply Nat.ltb_ge; lia).
  rewrite E15, E26, E200, E50. cbn [bind].
  fold (priceOf ticker bars). fold (rsiOf bars). fold (ema200Of ticker bars).
  destruct (Analyzer.signalAndConfidence (rsiOf bars) (priceOf ticker bars)
              (ema200Of ticker bars)) as [sg conf] eqn:E.
  eexists. split; [reflexivity|]. cbn. repeat split; reflexivity.
Qed.

End AnalyzerProperties.

(** ** The sample host *)

Example utc_epoch : Sample.utc 0%Z = (1970, 1, 1)%Z.
Proof. reflexivity. Qed.

Example utc_sample_day : Sample.utc (Sample.day 59) = (2024, 2, 29)%Z.
Proof. reflexivity. Qed.

Example ema_of_constant : Sample.ema [5; 5; 5; 5] 2 = [5; 5; 5].
Proof. reflexivity. Qed.

Example rsi_of_falling : Sample.rsi [5; 4; 3; 2] 2 = [0; 0].
Proof. vm_compute. reflexivity. Qed.

Section SwingSignal.

Variable lib : TechnicalIndicators.
Variable market : Market.
Variable Badge : Type.
Variable analyzeFundamentals : FundamentalData -> list Badge.


End SwingSignal.


(** The unrounded confidence, by signal. *)
Lemma confidence_formula (latestRSI currentPrice latestEMA200 : number) :
  let rc := Analyzer.signalAndConfidence latestRSI currentPrice latestEMA200 in
  match fst rc with
  | BUY =>
    snd rc =
    Math_min (50 + ((30 - latestRSI) / 30 * 30)
              + (Math_min ((currentPrice - latestEMA200) / latestEMA200) (1 # 10)
                 * 10 * 20)) 95
  | SELL => snd rc = Math_min (50 + ((latestRSI - 70) / 30 * 30)) 95
  | NEUTRAL => snd rc = 30
  end.
Proof.
  unfold Analyzer.signalAndConfidence.
  destruct (lt latestRSI 30 && gt currentPrice latestEMA200); [reflexivity|].
  destruct (gt latestRSI 70); reflexivity.
Qed.

Section SwingConfidence.

Variable lib : TechnicalIndicators.
Variable market : Market.
Variable Badge : Type.
Variable analyzeFundamentals : FundamentalData -> list Badge.

(** Where the latest EMA200 is positive, as it is on positive prices, the
    score is in the range: for a series of at least 200 bars the analysis
    returns with a confidence score in [30, 95], a NEUTRAL signal yielding
    exactly 30, a BUY signal the rounded
    min(50 + 30 rsiStrength + 20 priceStrength, 95) and a SELL signal the
    rounded min(50 + 30 rsiStrength, 95). *)
Theorem swing_confidence_range (ticker : string) (bars : list StockData) :
  let currentPrice := Analyzer.currentPriceOf market ticker (map close bars) in
  let latestRSI := Analyzer.latestRSI_of (RSI_calculate lib (map close bars) 14) in
  let latestEMA200 :=
    Analyzer.latestEMA_of (EMA_calculate lib (map close bars) 200) currentPrice in
  getHistoricalData market ticker "1d" = Ok bars ->
  (200 <= length bars)%nat ->
  0 < latestEMA200 ->
  exists r,
    Analyzer.analyzeStock lib market Badge analyzeFundamentals ticker = Ok r /\
    30 <= confidenceScore r <= 95 /\
    (signal r = NEUTRAL -> confidenceScore r = 30) /\
    (signal r = BUY ->
     let rsiStrength := (30 - latestRSI) / 30 in
     let priceStrength :=
       Math_min ((currentPrice - latestEMA200) / latestEMA200) (1 # 10) * 10 in
     confidenceScore r =
     Math_round (Math_min (50 + (rsiStrength * 30) + (priceStrength * 20)) 95)) /\
    (signal r = SELL ->
     let rsiStrength := (latestRSI - 70) / 30 in
     confidenceScore r = Math_round (Math_min (50 + (rsiStrength * 30)) 95)).
Proof.
  intros currentPrice latestRSI latestEMA200 Hfetch Hlen Hema.
  destruct (analyzeStock_returns lib market Badge analyzeFundamentals ticker bars
              Hfetch Hlen) as (r & Hr & Hsig & Hconf & _).
  fold currentPrice latestRSI latestEMA200 in Hsig, Hconf.
  exists r. split; [exact Hr|].
  pose proof (confidence_formula latestRSI currentPrice latestEMA200) as Hf.
  cbv zeta in Hf. rewrite <- Hsig in Hf.
  split.
  - rewrite Hconf. apply (Math_round_range 30 95).
    apply confidence_range, Hema.
  - repeat split; intro Hs; rewrite Hs in Hf; rewrite Hconf, Hf; reflexivity.
Qed.

End SwingConfidence.

(** The signal block at RSI 0, price 100 and EMA200 -100.5: the price
    strength is 10 (200.5 / -100.5), about -19.95, and the confidence
    50 + 30 - 399.005 rounds to -319. *)
Example confidence_at_negative_ema :
  fst (Analyzer.signalAndConfidence 0 100 (- (201 # 2))) = BUY /\
  Math_round (snd (Analyzer.signalAndConfidence 0 100 (- (201 # 2)))) = - (319).
Proof. split; vm_compute; reflexivity. Qed.


Lemma swing_confidence_range_witness :
  getHistoricalData (Sample.marketOf Sample.risingBars (Err "no quote")) "BBCA" "1d"
    = Ok Sample.risingBars /\
  (200 <= length Sample.risingBars)%nat /\
  0 < Analyzer.latestEMA_of (Sample.ema (map close Sample.risingBars) 200)
        (Analyzer.currentPriceOf (Sample.marketOf Sample.risingBars (Err "no quote"))
           "BBCA" (map close Sample.risingBars)) /\
  exists r,
    Analyzer.analyzeStock Sample.indicators
      (Sample.marketOf Sample.risingBars (Err "no quote")) unit Sample.noBadges "BBCA"
    = Ok r /\
    30 <= confidenceScore r <= 95.
Proof.
  split; [reflexivity|].
  split; [vm_compute; lia|].
  split; [vm_compute; reflexivity|].
  destruct (swing_confidence_range Sample.indicators
              (Sample.marketOf Sample.risingBars (Err "no quote")) unit Sample.noBadges
              "BBCA" Sample.risingBars eq_refl
              ltac:(vm_compute; lia) ltac:(vm_compute; reflexivity))
    as (r & Hr & Hrange & _).
  exists r. split; [exact Hr|exact Hrange].
Defined.

(** ** Candlestick patterns *)

Lemma hasPattern_pushIf (n : string) (c : bool) (p : CandlestickPattern)
    (patterns : list CandlestickPattern) :
  Candle.hasPattern n (Candle.pushIf c p patterns) =
  Candle.hasPattern n patterns || (c && String.eqb (name p) n).
Proof.
  unfold Candle.hasPattern, Candle.pushIf. destruct c.
  - rewrite existsb_app. cbn. rewrite orb_false_r. reflexivity.
  - cbn. rewrite orb_false_r. reflexivity.
Qed.

(** A Hammer among the checks of a candle means a short upper shadow. *)
Lemma checks_hammer (prev current : StockData) :
  Candle.hasPattern "Hammer" (Candle.checks prev current) = true ->
  Candle.upperShadow current < Candle.bodySize current * (1 # 2).
Proof.
  unfold Candle.checks. cbv zeta. rewrite !hasPattern_pushIf.
  cbn [name Candle.bullishEngulfing Candle.bearishEngulfing Candle.hammer
       Candle.shootingStar Candle.doji Candle.hasPattern existsb].
  change (String.eqb "Bullish Engulfing" "Hammer") with false.
  change (String.eqb "Bearish Engulfing" "Hammer") with false.
  change (String.eqb "Hammer" "Hammer") with true.
  change (String.eqb "Shooting Star" "Hammer") with false.
  change (String.eqb "Doji" "Hammer") with false.
  rewrite !andb_false_r, !andb_true_r, !orb_false_r. cbn [orb].
  intro H. apply andb_prop in H. destruct H as [_ H]. apply lt_iff, H.
Qed.

(** A Shooting Star among them means a long one. *)
Lemma checks_shootingStar (prev current : StockData) :
  Candle.hasPattern "Shooting Star" (Candle.checks prev current) = true ->
  Candle.bodySize current * 2 < Candle.upperShadow current.
Proof.
  unfold Candle.checks. cbv zeta. rewrite !hasPattern_pushIf.
  cbn [name Candle.bullishEngulfing Candle.bearishEngulfing Candle.hammer
       Candle.shootingStar Candle.doji Candle.hasPattern existsb].
  change (String.eqb "Bullish Engulfing" "Shooting Star") with false.
  change (String.eqb "Bearish Engulfing" "Shooting Star") with false.
  change (String.eqb "Hammer" "Shooting Star") with false.
  change (String.eqb "Shooting Star" "Shooting Star") with true.
  change (String.eqb "Doji" "Shooting Star") with false.
  rewrite !andb_false_r, !andb_true_r, !orb_false_r. cbn [orb].
  intro H. apply andb_prop in H. destruct H as [H _].
  apply andb_prop in H. destruct H as [H _].
  apply andb_prop in H. destruct H as [_ H]. apply gt_iff, H.
Qed.

Example hammer_detected :
  map name (Candle.detectCandlePatterns Sample.hammerBars) = ["Hammer"]%string.
Proof. reflexivity. Qed.

Example shootingStar_detected :
  map name (Candle.detectCandlePatterns Sample.shootingStarBars)
  = ["Shooting Star"]%string.
Proof. reflexivity. Qed.

(** C10.  The patterns detected on a bar series never hold both Hammer and
    Shooting Star: the first needs upperShadow < 0.5 body, the second
    upperShadow > 2 body, and the body size is not negative. *)
Theorem hammer_excludes_shooting_star (historicalData : list StockData) :
  ~ (Candle.hasPattern "Hammer" (Candle.detectCandlePatterns historicalData) = true /\
     Candle.hasPattern "Shooting Star" (Candle.detectCandlePatterns historicalData)
     = true).
Proof.
  unfold Candle.detectCandlePatterns.
  destruct (length historicalData <? 2)%nat; [intros [H _]; discriminate H|].
  destruct (rev (slice_last 5 historicalData)) as [|current [|prev rest]];
    try (intros [H _]; discriminate H).
  intros [Hh Hs].
  apply checks_hammer in Hh. apply checks_shootingStar in Hs.
  pose proof (Math_abs_nonneg (close current - open current)) as Hb.
  fold (Candle.bodySize current) in Hb. lra.
Qed.

(** ** Loops *)

Lemma for_range_S {S} (n : nat) (body : nat -> S -> S) (init : S) :
  for_range (Datatypes.S n) body init = body n (for_range n body init).
Proof.
  unfold for_range. rewrite seq_S, fold_left_app. reflexivity.
Qed.

Lemma for_range_0 {S} (body : nat -> S -> S) (init : S) :
  for_range 0 body init = init.
Proof. reflexivity. Qed.

(** ** On-balance volume *)

Section OBV.

Variables closes volumes : list number.

(** The loop's variables after [n] rounds. *)
Let after (n : nat) : number * list number :=
  for_range n (Indicators.obvBody closes volumes) (0, []).

(** What one round stores in [cumulativeOBV]. *)
Let next (i : nat) (cumulativeOBV : number) : number :=
  if (i =? 0)%nat then at_or volumes i 0
  else if gt (at_or closes i 0) (at_or closes (i - 1) 0)
       then cumulativeOBV + at_or volumes i 0
  else if lt (at_or closes i 0) (at_or closes (i - 1) 0)
       then cumulativeOBV - at_or volumes i 0
  else cumulativeOBV.

Lemma obv_after_S (n : nat) :
  after (S n) = (next n (fst (after n)), snd (after n) ++ [next n (fst (after n))]).
Proof.
  unfold after. rewrite for_range_S.
  destruct (for_range n (Indicators.obvBody closes volumes) (0, [])) as [c o].
  reflexivity.
Qed.

Lemma obv_after_length (n : nat) : length (snd (after n)) = n.
Proof.
  induction n as [|n IH]; [reflexivity|].
  rewrite obv_after_S. cbn [snd]. rewrite length_app, IH. cbn. lia.
Qed.

(** [cumulativeOBV] is the value pushed last. *)
Lemma obv_after_last (n : nat) :
  fst (after (S n)) = nth n (snd (after (S n))) 0.
Proof.
  rewrite obv_after_S. cbn [fst snd].
  rewrite app_nth2; rewrite obv_after_length; [|lia].
  rewrite Nat.sub_diag. reflexivity.
Qed.

(** A later round does not change an entry already pushed. *)
Lemma obv_after_stable (i n m : nat) :
  (i < n)%nat -> (n <= m)%nat ->
  nth i (snd (after m)) 0 = nth i (snd (after n)) 0.
Proof.
  intros Hi Hnm. induction Hnm as [|m Hnm IH]; [reflexivity|].
  rewrite obv_after_S. cbn [snd].
  rewrite app_nth1; [exact IH|]. rewrite obv_after_length. lia.
Qed.

(** The recurrence of the series. *)
Lemma obv_recurrence (i n : nat) :
  (i < n)%nat ->
  nth i (snd (after n)) 0 =
  next i (nth (i - 1) (snd (after n)) 0).
Proof.
  intro Hi.
  rewrite (obv_after_stable i (S i) n) by lia.
  rewrite <- obv_after_last, obv_after_S. cbn [fst].
  destruct i as [|j]; [reflexivity|].
  replace (S j - 1)%nat with j by lia.
  rewrite (obv_after_stable j (S j) n) by lia.
  rewrite <- obv_after_last. reflexivity.
Qed.

(** On arrays of equal lengths the computation returns a series of that
    length. *)
Lemma calculateOBV_returns :
  length closes = length volumes ->
  exists obv,
    Indicators.calculateOBV closes volumes = Ok obv /\
    length obv = length closes.
Proof.
  intro Hlen. unfold Indicators.calculateOBV.
  rewrite (proj2 (Nat.eqb_eq _ _) Hlen). cbn [negb].
  destruct (length closes =? 0)%nat eqn:E.
  - exists []. apply Nat.eqb_eq in E. split; [reflexivity|]. symmetry. exact E.
  - eexists. split; [reflexivity|]. apply obv_after_length.
Qed.

(** C6.  On equal-length non-empty arrays the OBV series starts at
    [volume[0]], and each later step [obv[i] - obv[i-1]] is [volume[i]] when
    the close rose, [-volume[i]] when it fell and 0 when it did not move;
    on arrays of different lengths the computation fails with the
    length-mismatch error and yields no series. *)
Theorem obv_series :
  (length closes = length volumes -> closes <> [] ->
   exists obv,
     Indicators.calculateOBV closes volumes = Ok obv /\
     length obv = length closes /\
     nth 0 obv 0 = nth 0 volumes 0 /\
     forall i, (0 < i < length closes)%nat ->
       let step := nth i obv 0 - nth (i - 1) obv 0 in
       (nth (i - 1) closes 0 < nth i closes 0 -> step == nth i volumes 0) /\
       (nth i closes 0 < nth (i - 1) closes 0 -> step == - nth i volumes 0) /\
       (nth i closes 0 == nth (i - 1) closes 0 -> step == 0)) /\
  (length closes <> length volumes ->
   Indicators.calculateOBV closes volumes =
   Err "Closes and volumes arrays must have the same length for OBV calculation.").
Proof.
  split.
  - intros Hlen Hne. unfold Indicators.calculateOBV.
    rewrite (proj2 (Nat.eqb_eq _ _) Hlen). cbn [negb].
    assert (Hn : length closes <> 0%nat).
    { intro H0. apply Hne, length_zero_iff_nil, H0. }
    rewrite (proj2 (Nat.eqb_neq _ _) Hn). fold (after (length closes)).
    exists (snd (after (length closes))).
    split; [reflexivity|]. split; [apply obv_after_length|].
    split.
    + rewrite obv_recurrence by lia. reflexivity.
    + intros i Hi. cbv zeta.
      rewrite (obv_recurrence i) by lia. unfold next, at_or.
      destruct (i =? 0)%nat eqn:E0; [apply Nat.eqb_eq in E0; lia|].
      destruct (gt (nth i closes 0) (nth (i - 1) closes 0)) eqn:E1;
        [|destruct (lt (nth i closes 0) (nth (i - 1) closes 0)) eqn:E2];
        to_order; repeat split; intro H; try lra.
  - intro Hlen. unfold Indicators.calculateOBV.
    rewrite (proj2 (Nat.eqb_neq _ _) Hlen). reflexivity.
Qed.

End OBV.

Lemma obv_series_witness :
  (length [10; 12; 11; 11] = length [5; 7; 3; 4] /\ [10; 12; 11; 11] <> ([] : list number)) /\
  length [10; 12] <> length [5] /\
  Indicators.calculateOBV [10; 12; 11; 11] [5; 7; 3; 4] = Ok [5; 5 + 7; 5 + 7 - 3; 5 + 7 - 3] /\
  Indicators.calculateOBV [10; 12] [5] =
  Err "Closes and volumes arrays must have the same length for OBV calculation.".
Proof.
  split; [split; [reflexivity|discriminate]|].
  split; [discriminate|].
  split.
  - destruct (proj1 (obv_series [10; 12; 11; 11] [5; 7; 3; 4]) eq_refl
                ltac:(discriminate)) as (obv & Hobv & _).
    reflexivity.
  - apply (proj2 (obv_series [10; 12] [5])). discriminate.
Defined.

(** ** VWAP *)

Section VWAP.

Variables high low close volume : list number.

Hypothesis volume_zero : Forall (fun v => v == 0) volume.

Let typicalPrice (i : nat) : number :=
  (at_or high i 0 + at_or low i 0 + at_or close i 0) / 3.

Let after (n : nat) : Indicators.VwapState :=
  for_range n (Indicators.vwapBody high low close volume)
    (Indicators.mkVwapState [] 0 0).

Lemma volume_at_zero (i : nat) : at_or volume i 0 == 0.
Proof.
  unfold at_or. destruct (Nat.lt_ge_cases i (length volume)) as [Hlt|Hge].
  - apply (proj1 (Forall_forall _ _) volume_zero). apply nth_In, Hlt.
  - rewrite nth_overflow by exact Hge. reflexivity.
Qed.

(** With no volume the cumulative volume stays zero, so every round takes
    the branch that pushes the typical price. *)
Lemma vwap_after_zero (n : nat) :
  Indicators.cumulativeVolume (after n) == 0 /\
  Indicators.vwap_out (after n) = map typicalPrice (List.seq 0 n).
Proof.
  induction n as [|n [IHv IHo]]; [split; reflexivity|].
  unfold after. rewrite for_range_S. fold (after n).
  unfold Indicators.vwapBody, Indicators.vwapPush.
  fold (typicalPrice n).
  assert (Hz : Indicators.cumulativeVolume (after n) + at_or volume n 0 == 0).
  { rewrite IHv, volume_at_zero. reflexivity. }
  rewrite (proj2 (strict_eq_iff _ _) Hz).
  cbn [Indicators.cumulativeVolume Indicators.vwap_out].
  split; [exact Hz|].
  rewrite IHo, seq_S, map_app. reflexivity.
Qed.

(** C7.  When every volume is zero, [calculateVWAP] returns the series of
    typical prices (high + low + close) / 3 unchanged: the cumulative volume
    is 0 at every index, the quotient is never formed, and each value is the
    typical price itself. *)
Theorem vwap_zero_volume :
  length high = length low ->
  length low = length close ->
  length close = length volume ->
  Indicators.calculateVWAP high low close volume =
  Ok (map (fun i => (nth i high 0 + nth i low 0 + nth i close 0) / 3)
          (List.seq 0 (length close))).
Proof.
  intros H1 H2 H3. unfold Indicators.calculateVWAP.
  rewrite (proj2 (Nat.eqb_eq _ _) H1), (proj2 (Nat.eqb_eq _ _) H2),
    (proj2 (Nat.eqb_eq _ _) H3).
  cbn [negb orb]. fold (after (length close)).
  rewrite (proj2 (vwap_after_zero (length close))). reflexivity.
Qed.

End VWAP.

Lemma vwap_zero_volume_witness :
  Forall (fun v => v == 0) [0; 0; 0] /\
  length [12; 14; 13] = length [9; 10; 11] /\
  length [9; 10; 11] = length [10; 12; 12] /\
  length [10; 12; 12] = length [0; 0; 0] /\
  Indicators.calculateVWAP [12; 14; 13] [9; 10; 11] [10; 12; 12] [0; 0; 0] =
  Ok [(12 + 9 + 10) / 3; (14 + 10 + 12) / 3; (13 + 11 + 12) / 3].
Proof.
  assert (Hz : Forall (fun v => v == 0) [0; 0; 0]).
  { repeat constructor. }
  split; [exact Hz|].
  repeat (split; [reflexivity|]).
  exact (vwap_zero_volume [12; 14; 13] [9; 10; 11] [10; 12; 12] [0; 0; 0] Hz
           eq_refl eq_refl eq_refl).
Defined.

(** With volume the quotient is formed. *)
Example vwap_with_volume :
  match Indicators.calculateVWAP [12; 14] [9; 10] [9; 12] [1; 3] with
  | Ok series => map Qred series
  | Err _ => []
  end = [10; 23 # 2].
Proof. vm_compute. reflexivity. Qed.

(** ** Bandar flow *)

Lemma slice_last_length {A} (n : nat) (xs : list A) :
  (n <= length xs)%nat -> length (slice_last n xs) = n.
Proof.
  intro H. unfold slice_last. rewrite length_skipn. lia.
Qed.






(** A window whose first close is 0 and whose closes and OBV rise: the
    price change is [Infinity], no rule on a flat price applies, and the
    status is MARKUP. *)
Example bandar_flow_zero_first_close :
  exists flow,
    Analyzer.bandarFlowOf Sample.zeroFirstCloseBars = Some flow /\
    divide (priceSlope flow) (close (nth 0 Sample.zeroFirstCloseBars
                                      (mkStockData 0 0 0 0 0 0))) = PlusInfinity /\
    status flow = MARKUP.
Proof.
  eexists. split; [vm_compute; reflexivity|].
  split; vm_compute; reflexivity.
Qed.

(** ** Comparison *)

(** C8.  The valuation winner is decided on the score "trailingPE if
    present, else priceToBook, else +infinity", the lower score winning:
    both scores missing give TIE, exactly one missing makes the other side
    win; and a trailing P/E of 10 against one of 20, nothing else present,
    gives A. *)
Theorem valuation_winner (fundamentalA fundamentalB : FundamentalData) :
  let score (f : FundamentalData) : xnumber :=
    match trailingPE f, priceToBook f with
    | Some pe, _ => Finite pe
    | None, Some pbv => Finite pbv
    | None, None => Infinity
    end in
  Comparison.determineValuationWinner fundamentalA fundamentalB =
  match score fundamentalA, score fundamentalB with
  | Finite a, Finite b =>
    if Qlt_le_dec a b then A else if Qlt_le_dec b a then B else TIE
  | Finite _, _ => A
  | _, Finite _ => B
  | _, _ => TIE
  end
  /\ Comparison.determineValuationWinner (Sample.withPE 10) (Sample.withPE 20) = A.
Proof.
  split; [|reflexivity].
  unfold Comparison.determineValuationWinner, Comparison.orInfinity.
  destruct (trailingPE fundamentalA) as [peA|], (priceToBook fundamentalA) as [pbvA|],
    (trailingPE fundamentalB) as [peB|], (priceToBook fundamentalB) as [pbvB|];
    cbn [score Comparison.isInfinity negb andb Comparison.xlt]; try reflexivity;
    match goal with
    | |- context [Qlt_le_dec ?a ?b] =>
      destruct (Qlt_le_dec a b) as [H1|H1];
        [rewrite (proj2 (lt_iff a b) H1); reflexivity|];
      rewrite (proj2 (lt_false_iff a b) H1);
      destruct (Qlt_le_dec b a) as [H2|H2];
        [rewrite (proj2 (lt_iff b a) H2); reflexivity
        |rewrite (proj2 (lt_false_iff b a) H2); reflexivity]
    end.
Qed.

(** ** The market scan *)

Section BatchProperties.

Context {T R : Type}.
Variable errorRecord : string -> R.
Variable items : list T.
Variable batchSize : nat.
Variable processor : T -> result R.

Hypothesis batchSize_positive : (0 < batchSize)%nat.

(** With enough fuel the loop returns, having settled the remaining items
    in order. *)
Lemma processInBatches_loop_returns (fuel i : nat) (results : list R) :
  (length items - i <= fuel)%nat ->
  Actions.processInBatches_loop errorRecord items batchSize processor fuel i results =
  Some (results ++ map (Actions.settle errorRecord processor) (skipn i items)).
Proof.
  revert i results. induction fuel as [|fuel IH]; intros i results Hfuel.
  - cbn [Actions.processInBatches_loop].
    assert (E : (i <? length items)%nat = false) by (apply Nat.ltb_ge; lia).
    rewrite E, skipn_all2 by lia. cbn [map]. rewrite app_nil_r. reflexivity.
  - cbn [Actions.processInBatches_loop].
    destruct (i <? length items)%nat eqn:E.
    + apply Nat.ltb_lt in E.
      rewrite IH by lia. f_equal. rewrite <- app_assoc. f_equal.
      unfold slice. replace (i + batchSize - i)%nat with batchSize by lia.
      rewrite <- map_app. f_equal.
      rewrite Nat.add_comm, <- skipn_skipn. apply firstn_skipn.
    + apply Nat.ltb_ge in E.
      rewrite skipn_all2 by lia. cbn [map]. rewrite app_nil_r. reflexivity.
Qed.

(** [processInBatches] returns every item settled, in the order of the
    input. *)
Lemma processInBatches_returns :
  Actions.processInBatches errorRecord items batchSize processor =
  Some (map (Actions.settle errorRecord processor) items).
Proof.
  unfold Actions.processInBatches.
  rewrite processInBatches_loop_returns by lia. reflexivity.
Qed.

End BatchProperties.

Section ScanProperties.

Variable lib : TechnicalIndicators.
Variable market : Market.
Variable Badge : Type.
Variable analyzeFundamentals : FundamentalData -> list Badge.

Let analyzeStock := Analyzer.analyzeStock lib market Badge analyzeFundamentals.

(** The analyses that succeed, in the order of the tickers. *)
Let successes (tickers : list string) : list (AnalysisResult Badge) :=
  flat_map (fun ticker =>
              match analyzeStock ticker with
              | Ok r => [r]
              | Err _ => []
              end)
           tickers.

(** The scan's processor never rejects, so settling it never builds the
    record of [processInBatches]. *)
Lemma settle_scan (ticker : string) :
  Actions.settle (BatchError false)
    (Actions.scanProcessor lib market Badge analyzeFundamentals) ticker =
  match analyzeStock ticker with
  | Ok r => Analysis r
  | Err message => ErrorTagged (replace ".JK" "" ticker) 0 0 0 NEUTRAL 0 message
  end.
Proof.
  unfold Actions.settle, Actions.scanProcessor. fold analyzeStock.
  destruct (analyzeStock ticker); reflexivity.
Qed.

Lemma successfulResults_settled (tickers : list string) :
  Actions.successfulResults Badge
    (map (Actions.settle (BatchError false)
            (Actions.scanProcessor lib market Badge analyzeFundamentals)) tickers)
  = successes tickers.
Proof.
  unfold Actions.successfulResults, successes. cbv zeta.
  induction tickers as [|ticker rest IH]; [reflexivity|].
  cbn [map filter flat_map]. rewrite settle_scan.
  destruct (analyzeStock ticker) as [r|message];
    cbn [Actions.hasSymbol Actions.hasError andb negb flat_map app];
    rewrite IH; reflexivity.
Qed.

(** C9.  For every list of symbols the scan returns [success: true]: each
    per-symbol failure of the analysis becomes a record carrying the symbol
    and the error message instead of an exception, and the returned data are
    exactly the analyses that succeeded, in the order of the symbols, the
    failed symbols left out. *)
Theorem scan_isolates_failures (selectedTickers : option (list string)) :
  (forall ticker,
     match analyzeStock ticker with
     | Ok r =>
       Actions.scanProcessor lib market Badge analyzeFundamentals ticker
       = Ok (Analysis r)
     | Err message =>
       Actions.scanProcessor lib market Badge analyzeFundamentals ticker
       = Ok (ErrorTagged (replace ".JK" "" ticker) 0 0 0 NEUTRAL 0 message)
     end) /\
  Actions.scanMarket lib market Badge analyzeFundamentals selectedTickers =
  Some (mkScanResponse true
          (Some (successes (Actions.tickersToScan selectedTickers))) None).
Proof.
  split.
  - intro ticker. unfold Actions.scanProcessor. fold analyzeStock.
    destruct (analyzeStock ticker); reflexivity.
  - unfold Actions.scanMarket.
    rewrite processInBatches_returns by lia.
    rewrite successfulResults_settled. reflexivity.
Qed.

End ScanProperties.

(** Five symbols, the history of the third missing: the scan returns the
    other four analyses. *)
Example scan_five_one_failing :
  exists results,
    Actions.scanMarket Sample.indicators
      (Sample.marketWithout "BMRI.JK" Sample.risingBars (Err "no quote"))
      unit Sample.noBadges (Some ["bbca"; "TLKM"; "BMRI"; "ADRO.JK"; "asii"]%string)
    = Some (mkScanResponse true (Some results) None) /\
    map symbol results = ["BBCA"; "TLKM"; "ADRO"; "ASII"]%string.
Proof.
  eexists. split; [vm_compute; reflexivity|]. reflexivity.
Qed.

(** ** The intraday analyzer *)

Section IntradayProperties.

Variable lib : TechnicalIndicators.
Variable market : Market.
Variable tz : TimeZone.

(** With both series non-empty the analysis returns, and the fields of the
    plan are the roundings of [tradingPlan] at the current price and the
    latest ATR. *)
Lemma analyzeIntraday_returns (now : Z) (ticker : string) (fetched : IntradayData) :
  getIntradayData market ticker = Ok fetched ->
  data5m fetched <> [] ->
  data15m fetched <> [] ->
  let currentPrice := Intraday.currentPriceOf market ticker (data5m fetched) in
  let latestATR := Intraday.latestATR5m lib (data5m fetched) currentPrice in
  let range := Intraday.openingRange tz (tz now) (data5m fetched) currentPrice in
  exists r,
    Intraday.analyzeIntraday lib market tz now ticker = Ok r /\
    entry r = Math_round currentPrice /\
    sl r = Math_round (currentPrice - (2 * latestATR)) /\
    tp1 r = Math_round (currentPrice + (2 * latestATR)) /\
    tp2 r = Math_round (currentPrice + (4 * latestATR)) /\
    orHigh r = Math_round (fst range) /\
    orLow r = Math_round (snd range).
Proof.
  intros Hfetch H5 H15 currentPrice latestATR range.
  unfold Intraday.analyzeIntraday, Intraday.analyzeIntraday_body.
  rewrite Hfetch. cbn [bind].
  assert (E5 : (length (data5m fetched) =? 0)%nat = false).
  { apply Nat.eqb_neq. intro H0. apply H5, length_zero_iff_nil, H0. }
  assert (E15 : (length (data15m fetched) =? 0)%nat = false).
  { apply Nat.eqb_neq. intro H0. apply H15, length_zero_iff_nil, H0. }
  rewrite E5, E15.
  fold currentPrice. fold latestATR. fold range.
  destruct range as [orHigh' orLow'].
  unfold Intraday.tradingPlan. cbv zeta.
  eexists. split; [reflexivity|]. cbn. repeat split; reflexivity.
Qed.

(** The clock enters the analysis through its calendar date only. *)
Lemma analyzeIntraday_same_date (now1 now2 : Z) (ticker : string) :
  tz now1 = tz now2 ->
  Intraday.analyzeIntraday lib market tz now1 ticker =
  Intraday.analyzeIntraday lib market tz now2 ticker.
Proof.
  intro Hdate.
  unfold Intraday.analyzeIntraday, Intraday.analyzeIntraday_body.
  destruct (getIntradayData market ticker) as [fetched|message]; [|reflexivity].
  cbn [bind]. rewrite Hdate.
  destruct (length (data5m fetched) =? 0)%nat eqn:E5; [reflexivity|].
  destruct (length (data15m fetched) =? 0)%nat; [reflexivity|].
  assert (Epos : (0 <? length (data5m fetched))%nat = true).
  { apply Nat.ltb_lt. apply Nat.eqb_neq in E5. lia. }
  rewrite Epos. reflexivity.
Qed.

End IntradayProperties.



(** C4, as amended.  The intraday analysis is a function of the two bar
    series, the current price, the host time zone and the calendar date of
    the clock reading: two runs that agree on these return the same outcome,
    whatever else the market collaborator or the clock hold. *)
Theorem intraday_deterministic (lib : TechnicalIndicators) (tz : TimeZone)
    (market1 market2 : Market) (now1 now2 : Z) (ticker : string)
    (fetched : IntradayData) :
  getIntradayData market1 ticker = Ok fetched ->
  getIntradayData market2 ticker = Ok fetched ->
  Intraday.currentPriceOf market1 ticker (data5m fetched) =
  Intraday.currentPriceOf market2 ticker (data5m fetched) ->
  tz now1 = tz now2 ->
  Intraday.analyzeIntraday lib market1 tz now1 ticker =
  Intraday.analyzeIntraday lib market2 tz now2 ticker.
Proof.
  intros Hf1 Hf2 Hprice Hdate.
  rewrite (analyzeIntraday_same_date lib market1 tz now1 now2 ticker Hdate).
  unfold Intraday.analyzeIntraday, Intraday.analyzeIntraday_body.
  rewrite Hf1, Hf2. cbn [bind]. rewrite Hprice. reflexivity.
Qed.

Lemma intraday_deterministic_witness :
  Sample.utc (Sample.morning 4) = Sample.utc (Sample.day 4) /\
  Intraday.analyzeIntraday Sample.indicators
    (Sample.marketOf Sample.fiveBars (Ok 130)) Sample.utc (Sample.morning 4) "BBCA" =
  Intraday.analyzeIntraday Sample.indicators
    (Sample.marketWithout "TLKM.JK" Sample.fiveBars (Ok 130)) Sample.utc (Sample.day 4)
    "BBCA".
Proof.
  split; [reflexivity|].
  exact (intraday_deterministic Sample.indicators Sample.utc
           (Sample.marketOf Sample.fiveBars (Ok 130))
           (Sample.marketWithout "TLKM.JK" Sample.fiveBars (Ok 130))
           (Sample.morning 4) (Sample.day 4) "BBCA"
           (mkIntradayData Sample.fiveBars Sample.fiveBars)
           eq_refl eq_refl eq_refl eq_refl).
Defined.

(** C4, as stated, fails: the same five bars and the same price of 130 give
    a BEARISH bias when the clock reads 2024-01-05, the date of the last
    bar, and a SIDEWAYS bias when it reads 2024-01-06. *)
Lemma intraday_clock_counterexample :
  exists r1 r2,
    Intraday.analyzeIntraday Sample.indicators
      (Sample.marketOf Sample.fiveBars (Ok 130)) Sample.utc (Sample.morning 4) "BBCA"
    = Ok r1 /\
    Intraday.analyzeIntraday Sample.indicators
      (Sample.marketOf Sample.fiveBars (Ok 130)) Sample.utc (Sample.morning 5) "BBCA"
    = Ok r2 /\
    bias r1 = BEARISH /\ orLow r1 = 139 /\
    bias r2 = SIDEWAYS /\ orLow r2 = 99 /\
    r1 <> r2.
Proof.
  eexists. eexists.
  split; [vm_compute; reflexivity|].
  split; [vm_compute; reflexivity|].
  cbn [bias orLow]. repeat split; try reflexivity.
  intro H. discriminate H.
Qed.

(* ------------------------------------------------------------------ *)
(** * Further properties of the services *)

(** ** Arrays *)

Lemma for_range_ext {S} (n : nat) (body1 body2 : nat -> S -> S) (init : S) :
  (forall i s, (i < n)%nat -> body1 i s = body2 i s) ->
  for_range n body1 init = for_range n body2 init.
Proof.
  induction n as [|n IH]; intro H; [reflexivity|].
  rewrite !for_range_S, IH by (intros; apply H; lia).
  apply H. lia.
Qed.

(** A loop that reads [xs[i]] at its [i]-th round is a left fold of [xs]. *)
Lemma for_range_fold {X S} (xs : list X) (f : S -> X -> S) (init : S) :
  for_range (length xs)
    (fun i s => match nth_error xs i with Some x => f s x | None => s end) init
  = fold_left f xs init.
Proof.
  induction xs as [|x xs IH] using rev_ind; [reflexivity|].
  rewrite length_app, Nat.add_1_r, for_range_S, fold_left_app.
  rewrite nth_error_app2, Nat.sub_diag by lia. cbn [nth_error fold_left].
  f_equal. rewrite <- IH. apply for_range_ext.
  intros i s Hi. rewrite nth_error_app1 by exact Hi. reflexivity.
Qed.

Lemma at_or_map {X} (f : X -> number) (xs : list X) (i : nat) (x : X) :
  nth_error xs i = Some x -> at_or (map f xs) i 0 = f x.
Proof.
  intro H. unfold at_or. apply nth_error_nth.
  rewrite nth_error_map, H. reflexivity.
Qed.

Lemma nth_last {X} (xs : list X) (d d' : X) :
  xs <> [] -> nth (length xs - 1) xs d = last xs d'.
Proof.
  intro H. destruct (exists_last H) as (ys & y & ->).
  rewrite length_app, Nat.add_sub, app_nth2, Nat.sub_diag, last_last by lia.
  reflexivity.
Qed.

Lemma Math_max_ge_l (x y : number) : x <= Math_max x y.
Proof.
  unfold Math_max. destruct (lt x y) eqn:E; to_order; lra.
Qed.

Lemma Math_max_ge_r (x y : number) : y <= Math_max x y.
Proof.
  unfold Math_max. destruct (lt x y) eqn:E; to_order; lra.
Qed.

Lemma fold_Math_max_ge (xs : list number) (a : number) :
  a <= fold_left Math_max xs a /\
  forall x, In x xs -> x <= fold_left Math_max xs a.
Proof.
  revert a. induction xs as [|y xs IH]; intro a; cbn [fold_left].
  - split; [lra|]. intros x [].
  - destruct (IH (Math_max a y)) as [Ha Hin]. split.
    + pose proof (Math_max_ge_l a y). lra.
    + intros x [<-|Hx]; [|apply Hin, Hx].
      pose proof (Math_max_ge_r a y). lra.
Qed.

Lemma fold_Math_min_le (xs : list number) (a : number) :
  fold_left Math_min xs a <= a /\
  forall x, In x xs -> fold_left Math_min xs a <= x.
Proof.
  revert a. induction xs as [|y xs IH]; intro a; cbn [fold_left].
  - split; [lra|]. intros x [].
  - destruct (IH (Math_min a y)) as [Ha Hin]. split.
    + pose proof (Math_min_le_l a y). lra.
    + intros x [<-|Hx]; [|apply Hin, Hx].
      pose proof (Math_min_le_r a y). lra.
Qed.

(** [Math.max(...xs)] is at least, and [Math.min(...xs)] at most, every
    element. *)
Lemma Math_max_spread_ge (xs : list number) (x : number) :
  In x xs -> x <= Math_max_spread xs.
Proof.
  destruct xs as [|a xs]; [intros []|]. cbn [Math_max_spread].
  destruct (fold_Math_max_ge xs a) as [Ha Hin].
  intros [<-|H]; [exact Ha|apply Hin, H].
Qed.

Lemma Math_min_spread_le (xs : list number) (x : number) :
  In x xs -> Math_min_spread xs <= x.
Proof.
  destruct xs as [|a xs]; [intros []|]. cbn [Math_min_spread].
  destruct (fold_Math_min_le xs a) as [Ha Hin].
  intros [<-|H]; [exact Ha|apply Hin, H].
Qed.

(** On bars whose low is not above their high, the least low is not above
    the greatest high. *)
Lemma spread_low_high (bars : list StockData) :
  bars <> [] ->
  Forall (fun bar => low bar <= high bar) bars ->
  Math_min_spread (map low bars) <= Math_max_spread (map high bars).
Proof.
  intros Hne Hwf. destruct bars as [|bar rest]; [contradiction|].
  apply Qle_trans with (low bar).
  - apply Math_min_spread_le. left. reflexivity.
  - apply Qle_trans with (high bar).
    + exact (Forall_inv Hwf).
    + apply Math_max_spread_ge. left. reflexivity.
Qed.

(** ** Session VWAP *)

Lemma dateKey_eqb_eq (a b : DateKey) : dateKey_eqb a b = true <-> a = b.
Proof.
  destruct a as [[ya ma] da], b as [[yb mb] db]. unfold dateKey_eqb.
  rewrite !andb_true_iff, !Z.eqb_eq. split.
  - intros [[-> ->] ->]. reflexivity.
  - intro H. injection H as -> -> ->. auto.
Qed.

Lemma dateKey_eqb_refl (a : DateKey) : dateKey_eqb a a = true.
Proof. apply dateKey_eqb_eq. reflexivity. Qed.

Lemma dateKey_eqb_neq (a b : DateKey) : a <> b -> dateKey_eqb a b = false.
Proof.
  intro H. destruct (dateKey_eqb a b) eqn:E; [|reflexivity].
  apply dateKey_eqb_eq in E. contradiction.
Qed.

Section SessionVWAP.

Variable tz : TimeZone.

(** One round of the loop of [calculateSessionVWAP], on the bar it reads. *)
Let step (acc : option DateKey * Indicators.VwapState) (item : StockData)
    : option DateKey * Indicators.VwapState :=
  let '(currentDate, st) := acc in
  let dateKey := tz (timestamp item) in
  let changed :=
    match currentDate with
    | Some d => negb (dateKey_eqb dateKey d)
    | None => true
    end in
  let st := if changed then Indicators.mkVwapState (Indicators.vwap_out st) 0 0 else st in
  let currentDate := if changed then Some dateKey else currentDate in
  let typicalPrice := (high item + low item + close item) / 3 in
  (currentDate, Indicators.vwapPush typicalPrice (volume item) st).

Let start : option DateKey * Indicators.VwapState :=
  (None, Indicators.mkVwapState [] 0 0).

Lemma sessionVWAP_fold (data : list StockData) :
  Indicators.calculateSessionVWAP tz data =
  Indicators.vwap_out (snd (fold_left step data start)).
Proof.
  unfold Indicators.calculateSessionVWAP.
  destruct data as [|bar rest] eqn:E; [reflexivity|].
  rewrite <- E. assert (E0 : (length data =? 0)%nat = false) by (rewrite E; reflexivity).
  rewrite E0. rewrite <- for_range_fold. do 2 f_equal.
  apply for_range_ext. intros i [currentDate st] _.
  destruct (nth_error data i); reflexivity.
Qed.

(** Every round pushes one value and leaves the earlier ones in place. *)
Lemma step_out (acc : option DateKey * Indicators.VwapState) (item : StockData) :
  exists v, Indicators.vwap_out (snd (step acc item))
            = Indicators.vwap_out (snd acc) ++ [v].
Proof.
  destruct acc as [currentDate st]. unfold step, Indicators.vwapPush. cbn [snd].
  repeat match goal with
         | |- context [if ?c then _ else _] => destruct c
         end; cbn; eexists; reflexivity.
Qed.

Lemma fold_step_length (data : list StockData)
    (acc : option DateKey * Indicators.VwapState) :
  length (Indicators.vwap_out (snd (fold_left step data acc))) =
  (length (Indicators.vwap_out (snd acc)) + length data)%nat.
Proof.
  revert acc. induction data as [|item rest IH]; intro acc; cbn [fold_left length].
  - lia.
  - rewrite IH. destruct (step_out acc item) as [v Hv].
    rewrite Hv, length_app. cbn. lia.
Qed.

(** The session VWAP has one value per bar. *)
Lemma sessionVWAP_length (data : list StockData) :
  length (Indicators.calculateSessionVWAP tz data) = length data.
Proof.
  rewrite sessionVWAP_fold, fold_step_length. reflexivity.
Qed.

(** After a round the current date is the date of the bar just read. *)
Lemma step_date (acc : option DateKey * Indicators.VwapState) (item : StockData) :
  fst (step acc item) = Some (tz (timestamp item)).
Proof.
  destruct acc as [[d|] st]; unfold step; cbn [fst]; [|reflexivity].
  destruct (dateKey_eqb (tz (timestamp item)) d) eqn:E; cbn [negb]; [|reflexivity].
  apply dateKey_eqb_eq in E. rewrite E. reflexivity.
Qed.

Lemma fold_step_date (data : list StockData) (d : StockData)
    (acc : option DateKey * Indicators.VwapState) :
  data <> [] ->
  fst (fold_left step data acc) = Some (tz (timestamp (last data d))).
Proof.
  intro H. destruct (exists_last H) as (ys & y & ->).
  rewrite fold_left_app, last_last. cbn [fold_left]. apply step_date.
Qed.

(** A round is the same whatever was pushed before it. *)
Lemma step_shape (cd : option DateKey) (a b : number) (item : StockData) :
  exists cd' v a' b',
    forall o,
      step (cd, Indicators.mkVwapState o a b) item =
      (cd', Indicators.mkVwapState (o ++ [v]) a' b').
Proof.
  unfold step, Indicators.vwapPush.
  cbn [Indicators.vwap_out Indicators.cumulativeTPV Indicators.cumulativeVolume].
  destruct cd as [d|]; [destruct (dateKey_eqb (tz (timestamp item)) d)|];
    cbn [negb Indicators.vwap_out Indicators.cumulativeTPV
         Indicators.cumulativeVolume];
    match goal with
    | |- context [strict_eq ?x 0] => destruct (strict_eq x 0)
    end;
    do 4 eexists; intro o; reflexivity.
Qed.

Lemma fold_step_prefix (data : list StockData) (cd : option DateKey)
    (o : list number) (a b : number) :
  fold_left step data (cd, Indicators.mkVwapState o a b) =
  let r := fold_left step data (cd, Indicators.mkVwapState [] a b) in
  (fst r,
   Indicators.mkVwapState (o ++ Indicators.vwap_out (snd r))
     (Indicators.cumulativeTPV (snd r)) (Indicators.cumulativeVolume (snd r))).
Proof.
  revert cd o a b. induction data as [|item rest IH]; intros cd o a b.
  - cbn. rewrite app_nil_r. reflexivity.
  - cbn [fold_left]. destruct (step_shape cd a b item) as (cd' & v & a' & b' & Hs).
    rewrite (Hs o), (Hs []). cbn [app].
    rewrite (IH cd' (o ++ [v])), (IH cd' [v]). cbv zeta.
    cbn [fst snd Indicators.vwap_out Indicators.cumulativeTPV
         Indicators.cumulativeVolume].
    rewrite <- app_assoc. reflexivity.
Qed.

(** X25.  Where the date changes the sums restart: the session VWAP of a
    series whose bar [y] opens a new date is the session VWAP of the bars
    before it followed by the session VWAP of the bars from [y] on. *)
Theorem sessionVWAP_restart (xs : list StockData) (y : StockData)
    (ys : list StockData) :
  xs <> [] ->
  tz (timestamp y) <> tz (timestamp (last xs y)) ->
  Indicators.calculateSessionVWAP tz (xs ++ y :: ys) =
  Indicators.calculateSessionVWAP tz xs
  ++ Indicators.calculateSessionVWAP tz (y :: ys).
Proof.
  intros Hne Hdate. rewrite !sessionVWAP_fold, fold_left_app.
  pose proof (fold_step_date xs y start Hne) as Hd.
  destruct (fold_left step xs start) as [cdx [ox ax bx]] eqn:Ex.
  cbn [fst] in Hd. subst cdx.
  cbn [fold_left snd Indicators.vwap_out].
  assert (Hreset :
    step (Some (tz (timestamp (last xs y))), Indicators.mkVwapState ox ax bx) y =
    step (None, Indicators.mkVwapState ox 0 0) y).
  { unfold step. rewrite (dateKey_eqb_neq _ _ Hdate). reflexivity. }
  rewrite Hreset.
  change (fold_left step ys (step (None, Indicators.mkVwapState ox 0 0) y))
    with (fold_left step (y :: ys) (None, Indicators.mkVwapState ox 0 0)).
  rewrite fold_step_prefix. cbv zeta. cbn [snd Indicators.vwap_out].
  reflexivity.
Qed.

(** One round of the loop of [calculateVWAP], on the bar it reads. *)
Let vstep (st : Indicators.VwapState) (item : StockData) : Indicators.VwapState :=
  Indicators.vwapPush ((high item + low item + close item) / 3) (volume item) st.

Lemma calculateVWAP_fold (data : list StockData) :
  Indicators.calculateVWAP (map high data) (map low data) (map close data)
    (map volume data) =
  Ok (Indicators.vwap_out (fold_left vstep data (Indicators.mkVwapState [] 0 0))).
Proof.
  unfold Indicators.calculateVWAP. rewrite !length_map, Nat.eqb_refl.
  cbn [negb orb]. do 2 f_equal. rewrite <- for_range_fold.
  apply for_range_ext. intros i st Hi.
  destruct (nth_error data i) as [item|] eqn:E.
  - unfold Indicators.vwapBody, vstep.
    rewrite (at_or_map high data i item E), (at_or_map low data i item E),
      (at_or_map close data i item E), (at_or_map volume data i item E).
    reflexivity.
  - apply nth_error_None in E. lia.
Qed.

Lemma fold_step_same_date (d : DateKey) (data : list StockData)
    (cd : option DateKey) (st : Indicators.VwapState) :
  (forall item, In item data -> tz (timestamp item) = d) ->
  cd = Some d \/
  (cd = None /\ Indicators.cumulativeTPV st = 0 /\ Indicators.cumulativeVolume st = 0) ->
  snd (fold_left step data (cd, st)) = fold_left vstep data st.
Proof.
  revert cd st. induction data as [|item rest IH]; intros cd st Hd Hcd;
    [reflexivity|].
  cbn [fold_left].
  assert (Hs : step (cd, st) item = (Some d, vstep st item)).
  { unfold step, vstep. rewrite (Hd item) by (left; reflexivity).
    destruct Hcd as [->|(-> & Ha & Hb)].
    - rewrite dateKey_eqb_refl. reflexivity.
    - destruct st as [o a b]. cbn in Ha, Hb. subst a b. reflexivity. }
  rewrite Hs. apply IH.
  - intros x Hx. apply Hd. right. exact Hx.
  - left. reflexivity.
Qed.

(** X26.  On bars of one calendar date the session VWAP is the
    whole-series VWAP of their columns. *)
Theorem sessionVWAP_one_date (d : DateKey) (data : list StockData) :
  (forall item, In item data -> tz (timestamp item) = d) ->
  Indicators.calculateVWAP (map high data) (map low data) (map close data)
    (map volume data) =
  Ok (Indicators.calculateSessionVWAP tz data).
Proof.
  intro Hd. rewrite calculateVWAP_fold, sessionVWAP_fold. do 2 f_equal.
  symmetry. apply (fold_step_same_date d); [exact Hd|].
  right. repeat split; reflexivity.
Qed.

End SessionVWAP.

(** ** Whole-series VWAP *)

Section VWAPShape.

Variables high low close volume : list number.

Let after (n : nat) : Indicators.VwapState :=
  for_range n (Indicators.vwapBody high low close volume)
    (Indicators.mkVwapState [] 0 0).

Let typicalPrice (i : nat) : number :=
  (at_or high i 0 + at_or low i 0 + at_or close i 0) / 3.

Lemma vwap_after_length (n : nat) : length (Indicators.vwap_out (after n)) = n.
Proof.
  induction n as [|n IH]; [reflexivity|].
  unfold after. rewrite for_range_S. fold (after n).
  unfold Indicators.vwapBody, Indicators.vwapPush.
  match goal with
  | |- context [strict_eq ?x 0] => destruct (strict_eq x 0)
  end; cbn [Indicators.vwap_out]; rewrite length_app, IH; cbn; lia.
Qed.

(** X27.  [calculateVWAP] returns exactly when the four arrays have one
    length, with one value per index; otherwise it fails with its length
    error. *)
Theorem vwap_shape :
  (length high = length low /\ length low = length close
   /\ length close = length volume ->
   exists vwap,
     Indicators.calculateVWAP high low close volume = Ok vwap /\
     length vwap = length close) /\
  (~ (length high = length low /\ length low = length close
      /\ length close = length volume) ->
   Indicators.calculateVWAP high low close volume =
   Err "All arrays must have the same length for VWAP calculation.").
Proof.
  unfold Indicators.calculateVWAP. split.
  - intros (H1 & H2 & H3).
    rewrite (proj2 (Nat.eqb_eq _ _) H1), (proj2 (Nat.eqb_eq _ _) H2),
      (proj2 (Nat.eqb_eq _ _) H3).
    cbn [negb orb]. eexists. split; [reflexivity|].
    fold (after (length close)). apply vwap_after_length.
  - intro H.
    destruct (length high =? length low)%nat eqn:E1; [|reflexivity].
    destruct (length low =? length close)%nat eqn:E2; [|reflexivity].
    destruct (length close =? length volume)%nat eqn:E3; [|reflexivity].
    apply Nat.eqb_eq in E1, E2, E3. exfalso. apply H. auto.
Qed.

Variables lo hi : number.

Hypothesis volume_nonneg : Forall (fun v => 0 <= v) volume.
Hypothesis typical_bounds :
  forall i, (i < length close)%nat -> lo <= typicalPrice i <= hi.




End VWAPShape.

(** ** Candlestick patterns, continued *)

Lemma two_last {X} (xs : list X) :
  (2 <= length xs)%nat -> exists pre prev current, xs = pre ++ [prev; current].
Proof.
  intro H. destruct xs as [|x xs] using rev_ind; [cbn in H; lia|].
  clear IHxs. destruct xs as [|x' xs] using rev_ind.
  - cbn in H. lia.
  - exists xs, x', x. rewrite <- app_assoc. reflexivity.
Qed.

(** With two candles or more, the detection is the checks on the last
    two. *)
Lemma detect_last_two (pre : list StockData) (prev current : StockData) :
  Candle.detectCandlePatterns (pre ++ [prev; current]) = Candle.checks prev current.
Proof.
  unfold Candle.detectCandlePatterns, slice_last.
  rewrite length_app. cbn [length].
  assert (E : (length pre + 2 <? 2)%nat = false) by (apply Nat.ltb_ge; lia).
  rewrite E, skipn_app.
  replace (length pre + 2 - 5 - length pre)%nat with 0%nat by lia.
  cbn [skipn]. rewrite rev_app_distr. reflexivity.
Qed.

(** X1.  The detected patterns depend on the last two candles only: any
    candles before them, inside or outside the window of five, change
    nothing. *)
Theorem patterns_depend_on_last_two (pre : list StockData) (prev current : StockData) :
  Candle.detectCandlePatterns (pre ++ [prev; current]) =
  Candle.detectCandlePatterns [prev; current].
Proof.
  rewrite detect_last_two. symmetry. apply (detect_last_two []).
Qed.

Lemma pushIf_app (c : bool) (p : CandlestickPattern) (patterns : list CandlestickPattern) :
  Candle.pushIf c p patterns = patterns ++ (if c then [p] else []).
Proof.
  unfold Candle.pushIf. destruct c; [reflexivity|]. rewrite app_nil_r. reflexivity.
Qed.

(** The checks push each pattern at most once, in the order of the source;
    the two engulfing patterns exclude each other, and so do Hammer and
    Shooting Star. *)
Lemma checks_shape (prev current : StockData) :
  exists b1 b2 b3 b4 b5 : bool,
    Candle.checks prev current =
    ((((([] ++ (if b1 then [Candle.bullishEngulfing] else []))
        ++ (if b2 then [Candle.bearishEngulfing] else []))
       ++ (if b3 then [Candle.hammer] else []))
      ++ (if b4 then [Candle.shootingStar] else []))
     ++ (if b5 then [Candle.doji] else [])) /\
    b1 && b2 = false /\ b3 && b4 = false.
Proof.
  unfold Candle.checks. cbv zeta. rewrite !pushIf_app.
  do 5 eexists. split; [reflexivity|]. split.
  - destruct (Candle.isBullish current) eqn:Eu, (Candle.isBearish current) eqn:Ed;
      rewrite ?andb_false_r, ?andb_false_l, ?andb_true_r; try reflexivity.
    unfold Candle.isBullish, Candle.isBearish in Eu, Ed. to_order. lra.
  - match goal with
    | |- ?h && ?s = false => destruct h eqn:Eh; [destruct s eqn:Es|]; try reflexivity
    end.
    exfalso.
    repeat match goal with
           | H : _ && _ = true |- _ => apply andb_prop in H; destruct H
           end.
    to_order.
    pose proof (Math_abs_nonneg (close current - open current)) as Hb.
    fold (Candle.bodySize current) in Hb. lra.
Qed.

(** X2.  At most three patterns are detected, no name twice, and never
    both Bullish Engulfing and Bearish Engulfing. *)
Theorem patterns_at_most_three (historicalData : list StockData) :
  (length (Candle.detectCandlePatterns historicalData) <= 3)%nat /\
  NoDup (map name (Candle.detectCandlePatterns historicalData)) /\
  ~ (Candle.hasPattern "Bullish Engulfing" (Candle.detectCandlePatterns historicalData)
     = true /\
     Candle.hasPattern "Bearish Engulfing" (Candle.detectCandlePatterns historicalData)
     = true).
Proof.
  destruct (Nat.lt_ge_cases (length historicalData) 2) as [Hlt|Hge].
  - unfold Candle.detectCandlePatterns.
    rewrite (proj2 (Nat.ltb_lt _ _) Hlt). cbn.
    split; [lia|]. split; [constructor|]. intros [H _]. discriminate H.
  - destruct (two_last historicalData Hge) as (pre & prev & current & ->).
    rewrite detect_last_two.
    destruct (checks_shape prev current) as (b1 & b2 & b3 & b4 & b5 & -> & H12 & H34).
    destruct b1, b2; try discriminate H12;
      destruct b3, b4; try discriminate H34;
      destruct b5; cbn;
      (split; [lia|]); (split; [|intros [H1 H2]; discriminate]);
      repeat constructor; cbn; intuition discriminate.
Qed.

(** Read off which check decides the presence of a name. *)
Ltac pattern_presence :=
  unfold Candle.checks; cbv zeta; rewrite !hasPattern_pushIf;
  cbn [name Candle.bullishEngulfing Candle.bearishEngulfing Candle.hammer
       Candle.shootingStar Candle.doji Candle.hasPattern existsb];
  repeat match goal with
         | |- context [String.eqb ?a ?b] =>
           let v := eval vm_compute in (String.eqb a b) in
           change (String.eqb a b) with v
         end;
  rewrite ?andb_false_r, ?andb_true_r, ?orb_false_r; cbn [orb].

(** X3.  A last candle without range (its high not above its low) is given
    none of Hammer, Shooting Star and Doji. *)
Theorem zero_range_suppresses (pre : list StockData) (prev current : StockData) :
  high current <= low current ->
  let patterns := Candle.detectCandlePatterns (pre ++ [prev; current]) in
  Candle.hasPattern "Hammer" patterns = false /\
  Candle.hasPattern "Shooting Star" patterns = false /\
  Candle.hasPattern "Doji" patterns = false.
Proof.
  intros Hflat patterns. unfold patterns. rewrite detect_last_two.
  assert (E : gt (Candle.rangeSize current) 0 = false).
  { apply gt_false_iff. unfold Candle.rangeSize. lra. }
  repeat split; pattern_presence; rewrite E; reflexivity.
Qed.

(** ** The intraday analyzer, continued *)

Lemma Forall_firstn_of {X} (P : X -> Prop) (n : nat) (xs : list X) :
  Forall P xs -> Forall P (firstn n xs).
Proof.
  revert n. induction xs as [|x xs IH]; intros [|n] H; cbn; try constructor.
  - exact (Forall_inv H).
  - apply IH. exact (Forall_inv_tail H).
Qed.

Lemma nonempty_of_length {X} (xs : list X) : (0 < length xs)%nat -> xs <> [].
Proof. destruct xs; [cbn; lia|discriminate]. Qed.

(** Reading a list index by index gives the list back. *)
Lemma map_nth_seq {X} (xs : list X) (d : nat -> X) :
  map (fun i => nth i xs (d i)) (List.seq 0 (length xs)) = xs.
Proof.
  revert d. induction xs as [|x xs IH]; intro d; [reflexivity|].
  cbn [length List.seq map nth]. f_equal.
  rewrite <- seq_shift, map_map. apply (IH (fun i => d (S i))).
Qed.

Lemma map_nth_seq_with {X Y} (g : X -> Y) (xs : list X) (d : X) :
  map (fun i => g (nth i xs d)) (List.seq 0 (length xs)) = map g xs.
Proof.
  transitivity (map g (map (fun i => nth i xs d) (List.seq 0 (length xs)))).
  - rewrite map_map. reflexivity.
  - rewrite (map_nth_seq xs (fun _ => d)). reflexivity.
Qed.

(** On bars whose low is not above their high, the opening range has its
    low not above its high. *)
Lemma openingRange_ordered (tz : TimeZone) (todayKey : DateKey)
    (bars : list StockData) (currentPrice : number) :
  Forall (fun bar => low bar <= high bar) bars ->
  snd (Intraday.openingRange tz todayKey bars currentPrice) <=
  fst (Intraday.openingRange tz todayKey bars currentPrice).
Proof.
  intro Hwf. unfold Intraday.openingRange.
  set (todayData := filter _ bars).
  assert (Htoday : Forall (fun bar => low bar <= high bar) todayData).
  { apply (incl_Forall (incl_filter _ bars)), Hwf. }
  destruct (3 <=? length todayData)%nat eqn:E3.
  - cbn [fst snd]. apply Nat.leb_le in E3. apply spread_low_high.
    + apply nonempty_of_length. unfold slice. rewrite length_firstn. cbn [skipn]. lia.
    + unfold slice. apply Forall_firstn_of. exact Htoday.
  - destruct (0 <? length todayData)%nat eqn:E0.
    + cbn [fst snd]. apply Nat.ltb_lt in E0.
      apply spread_low_high; [apply nonempty_of_length, E0|exact Htoday].
    + destruct (0 <? length (slice 0 (Nat.min 3 (length bars)) bars))%nat eqn:Ef;
        cbn [fst snd]; [|lra].
      apply Nat.ltb_lt in Ef.
      apply spread_low_high; [apply nonempty_of_length, Ef|].
      unfold slice. apply Forall_firstn_of. exact Hwf.
Qed.

(** The score before rounding: between 40 and 99. *)
Lemma scoreOf_range (lib : TechnicalIndicators) (b : Bias) (bars : list StockData) :
  40 <= Intraday.scoreOf lib b bars <= 99.
Proof.
  unfold Intraday.scoreOf. cbv zeta.
  destruct (Intraday.bias_eqb b BULLISH);
    destruct (gt (Intraday.latestRSI5m lib (map close bars)) 70);
    destruct (lt (Intraday.latestRSI5m lib (map close bars)) 30);
    cbn [andb];
    match goal with
    | |- context [if ?c then _ else _] => destruct c
    end;
    vm_compute; split; discriminate.
Qed.

Section IntradayFields.

Variable lib : TechnicalIndicators.
Variable market : Market.
Variable tz : TimeZone.

(** The analysis returns only after a fetch that gave two non-empty
    series. *)
Lemma analyzeIntraday_inv (now : Z) (ticker : string) (r : IntradayAnalysisResult) :
  Intraday.analyzeIntraday lib market tz now ticker = Ok r ->
  exists fetched,
    getIntradayData market ticker = Ok fetched /\
    data5m fetched <> [] /\ data15m fetched <> [].
Proof.
  unfold Intraday.analyzeIntraday, Intraday.analyzeIntraday_body.
  destruct (getIntradayData market ticker) as [fetched|message]; cbn [bind];
    [|discriminate].
  destruct (length (data5m fetched) =? 0)%nat eqn:E5; [discriminate|].
  destruct (length (data15m fetched) =? 0)%nat eqn:E15; [discriminate|].
  intros _. exists fetched. split; [reflexivity|].
  apply Nat.eqb_neq in E5, E15.
  split; apply nonempty_of_length; lia.
Qed.

(** The fields of the returned record that describe the session. *)
Lemma analyzeIntraday_session (now : Z) (ticker : string) (fetched : IntradayData) :
  getIntradayData market ticker = Ok fetched ->
  data5m fetched <> [] ->
  data15m fetched <> [] ->
  let bars := data5m fetched in
  let currentPrice := Intraday.currentPriceOf market ticker bars in
  let range := Intraday.openingRange tz (tz now) bars currentPrice in
  let session := Indicators.calculateSessionVWAP tz bars in
  let vwapNow := last_or session currentPrice in
  exists r,
    Intraday.analyzeIntraday lib market tz now ticker = Ok r /\
    bias r = Intraday.biasOf currentPrice vwapNow (fst range) (snd range) /\
    score r = Math_round (Intraday.scoreOf lib (bias r) bars) /\
    currentVWAP r = Math_round vwapNow /\
    chartData r = bars /\
    map vwap (vwapData r) = session /\
    map vwap_timestamp (vwapData r) = map timestamp bars /\
    lastTimestamp r = timestamp (last bars (mkStockData 0 0 0 0 0 0)).
Proof.
  intros Hfetch H5 H15 bars currentPrice range session vwapNow.
  unfold Intraday.analyzeIntraday, Intraday.analyzeIntraday_body.
  rewrite Hfetch. cbn [bind]. fold bars.
  assert (Hpos : (0 < length bars)%nat).
  { assert (length bars <> 0)%nat by (intro H0; apply H5, length_zero_iff_nil, H0).
    lia. }
  assert (E5 : (length bars =? 0)%nat = false) by (apply Nat.eqb_neq; lia).
  assert (E15 : (length (data15m fetched) =? 0)%nat = false).
  { apply Nat.eqb_neq. intro H0. apply H15, length_zero_iff_nil, H0. }
  rewrite E5, E15. fold currentPrice. fold range. fold session.
  assert (Hsl : length session = length bars) by apply sessionVWAP_length.
  set (vwapData :=
         map (fun index =>
                let item := at_or bars index (mkStockData 0 0 0 0 0 0) in
                mkVwapPoint (timestamp item) (at_or session index (close item)))
             (List.seq 0 (length bars))).
  assert (Hvl : length vwapData = length bars).
  { unfold vwapData. rewrite length_map, length_seq. reflexivity. }
  assert (Hvw : map vwap vwapData = session).
  { unfold vwapData. rewrite map_map. cbn [vwap]. unfold at_or.
    rewrite <- Hsl. apply map_nth_seq. }
  assert (Hts : map vwap_timestamp vwapData = map timestamp bars).
  { unfold vwapData. rewrite map_map. cbn [vwap_timestamp]. unfold at_or.
    transitivity
      (map timestamp
         (map (fun i => nth i bars (mkStockData 0 0 0 0 0 0))
              (List.seq 0 (length bars)))).
    - rewrite map_map. reflexivity.
    - rewrite (map_nth_seq bars (fun _ => mkStockData 0 0 0 0 0 0)). reflexivity. }
  assert (Hnow : vwap (at_or vwapData (length vwapData - 1) (mkVwapPoint 0 0))
                 = vwapNow).
  { unfold at_or.
    change (vwap (nth (length vwapData - 1) vwapData (mkVwapPoint 0 0)))
      with (nth (length vwapData - 1) (map vwap vwapData) 0) at 1 || idtac.
    rewrite <- (map_nth vwap). cbn [vwap]. rewrite Hvw, Hvl, <- Hsl.
    unfold vwapNow, last_or. apply nth_last.
    apply nonempty_of_length. lia. }
  rewrite Hnow, Hvl, (proj2 (Nat.ltb_lt _ _) Hpos).
  destruct range as [orHigh' orLow']. cbn [fst snd].
  unfold Intraday.tradingPlan. cbv zeta.
  eexists. split; [reflexivity|]. cbn.
  repeat split; try reflexivity; try assumption.
  f_equal. unfold at_or. apply nth_last. apply nonempty_of_length, Hpos.
Qed.

End IntradayFields.

Lemma Math_round_ge (lo : Z) (x : number) :
  inject_Z lo <= x -> inject_Z lo <= Math_round x.
Proof.
  intro H. rewrite <- (Math_round_Z lo). apply Math_round_mono, H.
Qed.

Lemma Math_round_le (hi : Z) (x : number) :
  x <= inject_Z hi -> Math_round x <= inject_Z hi.
Proof.
  intro H. rewrite <- (Math_round_Z hi). apply Math_round_mono, H.
Qed.

Lemma scoreOf_by_bias (lib : TechnicalIndicators) (b : Bias) (bars : list StockData) :
  (b = BULLISH -> 60 <= Intraday.scoreOf lib b bars) /\
  (b <> BULLISH -> Intraday.scoreOf lib b bars <= 70).
Proof.
  unfold Intraday.scoreOf. cbv zeta.
  destruct b; cbn [Intraday.bias_eqb];
    destruct (gt (Intraday.latestRSI5m lib (map close bars)) 70);
    destruct (lt (Intraday.latestRSI5m lib (map close bars)) 30);
    cbn [andb];
    match goal with
    | |- context [if ?c then _ else _] => destruct c
    end;
    (split; intro H; [try discriminate H|try (exfalso; apply H; reflexivity)]);
    vm_compute; discriminate.
Qed.

Section IntradayResults.

Variable lib : TechnicalIndicators.
Variable market : Market.
Variable tz : TimeZone.

(** X4.  The intraday analysis returns exactly when the fetch succeeds with
    both series non-empty: no failure of the RSI or of the ATR aborts it. *)
Theorem intraday_returns_iff (now : Z) (ticker : string) :
  (exists r, Intraday.analyzeIntraday lib market tz now ticker = Ok r) <->
  (exists fetched,
     getIntradayData market ticker = Ok fetched /\
     data5m fetched <> [] /\ data15m fetched <> []).
Proof.
  split.
  - intros [r Hr]. exact (analyzeIntraday_inv lib market tz now ticker r Hr).
  - intros (fetched & Hf & H5 & H15).
    destruct (analyzeIntraday_returns lib market tz now ticker fetched Hf H5 H15)
      as (r & Hr & _).
    exists r. exact Hr.
Qed.

(** X5.  The returned score is an integer between 40 and 99; it is at
    least 60 under a BULLISH bias and at most 70 under any other. *)
Theorem intraday_score_range (now : Z) (ticker : string) (r : IntradayAnalysisResult) :
  Intraday.analyzeIntraday lib market tz now ticker = Ok r ->
  40 <= score r <= 99 /\
  (exists z : Z, score r = inject_Z z) /\
  (bias r = BULLISH -> 60 <= score r) /\
  (bias r <> BULLISH -> score r <= 70).
Proof.
  intro Hr.
  destruct (analyzeIntraday_inv lib market tz now ticker r Hr)
    as (fetched & Hf & H5 & H15).
  destruct (analyzeIntraday_session lib market tz now ticker fetched Hf H5 H15)
    as (r' & Hr' & _ & Hscore & _).
  rewrite Hr in Hr'. injection Hr' as <-.
  rewrite Hscore.
  destruct (scoreOf_by_bias lib (bias r) (data5m fetched)) as [Hb Hn].
  split; [apply (Math_round_range 40 99), scoreOf_range|].
  split; [unfold Math_round; eexists; reflexivity|].
  split; intro H.
  - apply (Math_round_ge 60), Hb, H.
  - apply (Math_round_le 70), Hn, H.
Qed.

(** X6.  The returned chart is aligned with the bars: one VWAP point per
    5-minute bar, carrying the bar's timestamp and the session VWAP at the
    bar; the last timestamp is the last bar's, and the current VWAP is the
    rounding of the last point. *)
Theorem intraday_chart_aligned (now : Z) (ticker : string) (r : IntradayAnalysisResult) :
  Intraday.analyzeIntraday lib market tz now ticker = Ok r ->
  chartData r <> [] /\
  map vwap_timestamp (vwapData r) = map timestamp (chartData r) /\
  map vwap (vwapData r) = Indicators.calculateSessionVWAP tz (chartData r) /\
  lastTimestamp r = timestamp (last (chartData r) (mkStockData 0 0 0 0 0 0)) /\
  currentVWAP r = Math_round (last (map vwap (vwapData r)) 0).
Proof.
  intro Hr.
  destruct (analyzeIntraday_inv lib market tz now ticker r Hr)
    as (fetched & Hf & H5 & H15).
  destruct (analyzeIntraday_session lib market tz now ticker fetched Hf H5 H15)
    as (r' & Hr' & _ & _ & Hv & Hc & Hw & Ht & Hl).
  rewrite Hr in Hr'. injection Hr' as <-.
  rewrite Hc, Hw. repeat split; try assumption.
  rewrite Hv. unfold last_or. apply (f_equal Math_round).
  assert (Hne : Indicators.calculateSessionVWAP tz (data5m fetched) <> []).
  { apply nonempty_of_length. rewrite sessionVWAP_length.
    destruct (data5m fetched); [contradiction|cbn; lia]. }
  transitivity
    (nth (length (Indicators.calculateSessionVWAP tz (data5m fetched)) - 1)
         (Indicators.calculateSessionVWAP tz (data5m fetched)) 0).
  - symmetry. apply nth_last, Hne.
  - apply nth_last, Hne.
Qed.

(** X7.  The bias is BULLISH exactly when the price is above both the
    current VWAP and the opening-range high, BEARISH exactly when it is not
    BULLISH and the price is below both the current VWAP and the
    opening-range low, and SIDEWAYS otherwise. *)
Theorem intraday_bias_rule (now : Z) (ticker : string) (fetched : IntradayData) :
  getIntradayData market ticker = Ok fetched ->
  data5m fetched <> [] ->
  data15m fetched <> [] ->
  let currentPrice := Intraday.currentPriceOf market ticker (data5m fetched) in
  let range := Intraday.openingRange tz (tz now) (data5m fetched) currentPrice in
  let vwapNow :=
    last_or (Indicators.calculateSessionVWAP tz (data5m fetched)) currentPrice in
  let bullish := vwapNow < currentPrice /\ fst range < currentPrice in
  let bearish := currentPrice < vwapNow /\ currentPrice < snd range in
  exists r,
    Intraday.analyzeIntraday lib market tz now ticker = Ok r /\
    (bias r = BULLISH <-> bullish) /\
    (bias r = BEARISH <-> ~ bullish /\ bearish) /\
    (bias r = SIDEWAYS <-> ~ bullish /\ ~ bearish).
Proof.
  intros Hf H5 H15 currentPrice range vwapNow bullish bearish.
  destruct (analyzeIntraday_session lib market tz now ticker fetched Hf H5 H15)
    as (r & Hr & Hb & _).
  fold currentPrice range vwapNow in Hb.
  exists r. split; [exact Hr|]. rewrite Hb.
  unfold Intraday.biasOf, bullish, bearish.
  destruct (gt currentPrice vwapNow) eqn:E1; destruct (gt currentPrice (fst range)) eqn:E2;
    destruct (lt currentPrice vwapNow) eqn:E3; destruct (lt currentPrice (snd range)) eqn:E4;
    cbn [andb]; to_order;
    (split; [|split]);
    (split; [intro H; try discriminate H; lra|intro H; try reflexivity; lra]).
Qed.

(** X8.  When the latest ATR is not negative the returned plan is ordered:
    stop loss, entry, first target, second target. *)
Theorem intraday_plan_ordered (now : Z) (ticker : string) (fetched : IntradayData) :
  getIntradayData market ticker = Ok fetched ->
  data5m fetched <> [] ->
  data15m fetched <> [] ->
  0 <= Intraday.latestATR5m lib (data5m fetched)
         (Intraday.currentPriceOf market ticker (data5m fetched)) ->
  exists r,
    Intraday.analyzeIntraday lib market tz now ticker = Ok r /\
    sl r <= entry r /\ entry r <= tp1 r /\ tp1 r <= tp2 r.
Proof.
  intros Hf H5 H15 Hatr.
  destruct (analyzeIntraday_returns lib market tz now ticker fetched Hf H5 H15)
    as (r & Hr & He & Hs & H1 & H2 & _).
  exists r. split; [exact Hr|]. rewrite He, Hs, H1, H2.
  repeat split; apply Math_round_mono; lra.
Qed.

(** X9.  When no 5-minute bar has its low above its high, the returned
    opening-range low is not above the returned opening-range high. *)
Theorem intraday_range_ordered (now : Z) (ticker : string) (fetched : IntradayData) :
  getIntradayData market ticker = Ok fetched ->
  data5m fetched <> [] ->
  data15m fetched <> [] ->
  Forall (fun bar => low bar <= high bar) (data5m fetched) ->
  exists r,
    Intraday.analyzeIntraday lib market tz now ticker = Ok r /\
    orLow r <= orHigh r.
Proof.
  intros Hf H5 H15 Hwf.
  destruct (analyzeIntraday_returns lib market tz now ticker fetched Hf H5 H15)
    as (r & Hr & _ & _ & _ & _ & Hh & Hl).
  exists r. split; [exact Hr|]. rewrite Hh, Hl.
  apply Math_round_mono, openingRange_ordered, Hwf.
Qed.

End IntradayResults.

(** ** The swing analyzer, continued *)

Section SwingFields.

Variable lib : TechnicalIndicators.
Variable market : Market.
Variable Badge : Type.
Variable analyzeFundamentals : FundamentalData -> list Badge.

Let analyzeStock := Analyzer.analyzeStock lib market Badge analyzeFundamentals.

(** The analysis returns only on a fetched series of at least 200 bars. *)
Lemma analyzeStock_inv (ticker : string) (r : AnalysisResult Badge) :
  analyzeStock ticker = Ok r ->
  exists bars,
    getHistoricalData market ticker "1d" = Ok bars /\ (200 <= length bars)%nat.
Proof.
  unfold analyzeStock, Analyzer.analyzeStock, Analyzer.analyzeStock_body.
  destruct (getHistoricalData market ticker "1d") as [bars|message]; cbn [bind];
    [|discriminate].
  destruct (length bars <? 200)%nat eqn:E; [discriminate|].
  intros _. exists bars. split; [reflexivity|]. apply Nat.ltb_ge in E. exact E.
Qed.

(** The price fields of the returned record. *)
Lemma analyzeStock_prices (ticker : string) (bars : list StockData) :
  getHistoricalData market ticker "1d" = Ok bars ->
  (200 <= length bars)%nat ->
  let currentPrice := Analyzer.currentPriceOf market ticker (map close bars) in
  let latestRSI := Analyzer.latestRSI_of (RSI_calculate lib (map close bars) 14) in
  let latestCandle := last bars (mkStockData 0 0 0 0 0 0) in
  let volatility :=
    if gt (close latestCandle) 0
    then (high latestCandle - low latestCandle) / close latestCandle
    else 2 # 100 in
  let window := slice_last 250 bars in
  let highest := Math_max_spread (map high window) in
  let lowest := Math_min_spread (map low window) in
  let position :=
    if gt (highest - lowest) 0
    then ((currentPrice - lowest) / (highest - lowest)) * 100 else 50 in
  exists r latestMACDHistogram,
    analyzeStock ticker = Ok r /\
    price r = currentPrice /\
    predPrice r =
      Analyzer.predictPrice latestRSI currentPrice volatility latestMACDHistogram /\
    low52w r = Math_round lowest /\
    high52w r = Math_round highest /\
    position52w r = Math_round (position * 100) / 100.
Proof.
  intros Hfetch Hlen currentPrice latestRSI latestCandle volatility window
    highest lowest position.
  unfold analyzeStock, Analyzer.analyzeStock, Analyzer.analyzeStock_body.
  rewrite Hfetch. cbn [bind].
  assert (E200 : (length bars <? 200)%nat = false) by (apply Nat.ltb_ge; lia).
  rewrite E200.
  unfold Indicators.calculateRSI, Indicators.calculateMACD, Indicators.calculateEMA.
  rewrite length_map.
  assert (E15 : (length bars <? 14 + 1)%nat = false) by (apply Nat.ltb_ge; lia).
  assert (E26 : (length bars <? 26)%nat = false) by (apply Nat.ltb_ge; lia).
  assert (E50 : (length bars <? 50)%nat = false) by (apply Nat.ltb_ge; lia).
  rewrite E15, E26, E200, E50. cbn [bind].
  fold currentPrice. fold latestRSI. fold window. fold highest. fold lowest.
  assert (Hlast : at_or bars (length bars - 1) (mkStockData 0 0 0 0 0 0) = latestCandle).
  { unfold at_or, latestCandle. apply nth_last. apply nonempty_of_length. lia. }
  rewrite Hlast. fold volatility. fold position.
  destruct (Analyzer.signalAndConfidence latestRSI currentPrice _) as [sg conf].
  eexists. eexists. split; [reflexivity|]. cbn. repeat split; reflexivity.
Qed.

End SwingFields.

(** The chart series of the bandar-flow block. *)
Lemma bandarFlowOf_chart (bars : list StockData) :
  (20 <= length bars)%nat ->
  exists flow,
    Analyzer.bandarFlowOf bars = Some flow /\
    priceData flow =
      map (fun d => mkChartPoint (timestamp d) (close d)) (slice_last 20 bars) /\
    map point_timestamp (obvData flow) = map timestamp (slice_last 20 bars) /\
    Forall (fun point => 0 <= value point <= 100) (obvData flow).
Proof.
  intro Hlen. set (window := slice_last 20 bars).
  assert (Hw : length window = 20%nat) by (apply slice_last_length, Hlen).
  destruct (calculateOBV_returns (map close window) (map volume window))
    as (obv & Hobv & Hol).
  { rewrite !length_map. reflexivity. }
  rewrite length_map, Hw in Hol.
  unfold Analyzer.bandarFlowOf. fold window. rewrite Hw. cbn [Nat.leb].
  rewrite Hobv. eexists. split; [reflexivity|].
  cbn [priceData obvData]. split; [reflexivity|]. split.
  - rewrite map_map. cbn [point_timestamp]. unfold at_or.
    rewrite Hol, <- Hw, <- (length_map timestamp window).
    apply map_nth_seq.
  - apply Forall_forall. intros point Hin.
    apply in_map_iff in Hin. destruct Hin as (index & <- & Hidx).
    apply in_seq in Hidx. cbn [value].
    destruct (gt (Math_max_spread obv - Math_min_spread obv) 0) eqn:E;
      [|lra].
    to_order.
    assert (Hin : In (at_or obv index 0) obv) by (apply nth_In; lia).
    pose proof (Math_min_spread_le obv _ Hin) as Hmin.
    pose proof (Math_max_spread_ge obv _ Hin) as Hmax.
    set (x := at_or obv index 0) in *.
    set (lo := Math_min_spread obv) in *. set (hi := Math_max_spread obv) in *.
    assert (H0 : 0 <= (x - lo) / (hi - lo)) by (apply Qdiv_nonneg; lra).
    assert (H1 : (x - lo) / (hi - lo) <= 1) by (apply Qle_shift_div_r; lra).
    set (q := (x - lo) / (hi - lo)) in *. lra.
Qed.

Lemma last_skipn_In {X} (k : nat) (xs : list X) (d : X) :
  (k < length xs)%nat -> In (last xs d) (skipn k xs).
Proof.
  revert k. induction xs as [|x xs IH]; intros k Hk; [cbn in Hk; lia|].
  destruct k as [|k].
  - cbn [skipn]. destruct (exists_last (l := x :: xs)) as (ys & y & E);
      [discriminate|].
    rewrite E, last_last. apply in_or_app. right. left. reflexivity.
  - cbn [skipn]. destruct xs as [|x' xs']; [cbn in Hk; lia|].
    change (last (x :: x' :: xs') d) with (last (x' :: xs') d).
    apply IH. cbn in Hk |- *. lia.
Qed.

Lemma predictPrice_direction (latestRSI currentPrice volatility histogram : number) :
  0 <= currentPrice ->
  0 <= volatility ->
  (latestRSI < 30 ->
   Math_round currentPrice <=
   Analyzer.predictPrice latestRSI currentPrice volatility histogram) /\
  (70 < latestRSI ->
   Analyzer.predictPrice latestRSI currentPrice volatility histogram
   <= Math_round currentPrice).
Proof.
  intros Hp Hv.
  assert (Hpv : 0 <= currentPrice * volatility) by (apply Qmult_le_0_compat; assumption).
  unfold Analyzer.predictPrice. cbv zeta.
  split; intro Hr.
  - rewrite (proj2 (lt_iff latestRSI 30) Hr). apply Math_round_mono.
    set (pv := currentPrice * volatility) in *.
    assert (E : currentPrice * (1 + volatility * (8 # 10))
                == currentPrice + (8 # 10) * pv) by (unfold pv; ring).
    rewrite E. lra.
  - assert (E30 : lt latestRSI 30 = false) by (apply lt_false_iff; lra).
    rewrite E30, (proj2 (gt_iff latestRSI 70) Hr). apply Math_round_mono.
    set (pv := currentPrice * volatility) in *.
    assert (E : currentPrice * (1 - volatility * (8 # 10))
                == currentPrice - (8 # 10) * pv) by (unfold pv; ring).
    rewrite E. lra.
Qed.

Section SwingResults.

Variable lib : TechnicalIndicators.
Variable market : Market.
Variable Badge : Type.
Variable analyzeFundamentals : FundamentalData -> list Badge.

Let analyzeStock := Analyzer.analyzeStock lib market Badge analyzeFundamentals.

(** X10.  The swing analysis returns exactly when the history is fetched
    with at least 200 bars: that guard covers the preconditions of every
    indicator, and neither the quote nor the fundamentals can abort it.  A
    failed fetch and a short history fail with their message behind the
    ticker. *)
Theorem swing_returns_iff (ticker : string) :
  ((exists r, analyzeStock ticker = Ok r) <->
   (exists bars,
      getHistoricalData market ticker "1d" = Ok bars /\ (200 <= length bars)%nat)) /\
  (forall message,
     getHistoricalData market ticker "1d" = Err message ->
     analyzeStock ticker = Err ("Failed to analyze stock " ++ ticker ++ ": " ++ message)) /\
  (forall bars,
     getHistoricalData market ticker "1d" = Ok bars ->
     (length bars < 200)%nat ->
     analyzeStock ticker =
     Err ("Failed to analyze stock " ++ ticker ++ ": "
          ++ "Insufficient historical data for " ++ ticker
          ++ ". Need at least 200 days for EMA200 calculation.")).
Proof.
  split; [split|split].
  - intros [r Hr].
    exact (analyzeStock_inv lib market Badge analyzeFundamentals ticker r Hr).
  - intros (bars & Hf & Hlen).
    destruct (analyzeStock_returns lib market Badge analyzeFundamentals ticker bars
                Hf Hlen) as (r & Hr & _).
    exists r. exact Hr.
  - intros message Hf.
    unfold analyzeStock, Analyzer.analyzeStock, Analyzer.analyzeStock_body.
    rewrite Hf. reflexivity.
  - intros bars Hf Hlen.
    unfold analyzeStock, Analyzer.analyzeStock, Analyzer.analyzeStock_body.
    rewrite Hf. cbn [bind]. rewrite (proj2 (Nat.ltb_lt _ _) Hlen). reflexivity.
Qed.

(** X11.  Every returned analysis carries a bandar-flow assessment whose
    two chart series have the 20 timestamps of the trailing window, the
    price series holding the closes and the OBV series values between 0 and
    100. *)
Theorem swing_bandar_chart (ticker : string) (r : AnalysisResult Badge) :
  analyzeStock ticker = Ok r ->
  exists bars flow,
    getHistoricalData market ticker "1d" = Ok bars /\
    bandarFlow r = Some flow /\
    length (priceData flow) = 20%nat /\
    length (obvData flow) = 20%nat /\
    map point_timestamp (priceData flow) = map timestamp (slice_last 20 bars) /\
    map value (priceData flow) = map close (slice_last 20 bars) /\
    map point_timestamp (obvData flow) = map timestamp (slice_last 20 bars) /\
    Forall (fun point => 0 <= value point <= 100) (obvData flow).
Proof.
  intro Hr.
  destruct (analyzeStock_inv lib market Badge analyzeFundamentals ticker r Hr)
    as (bars & Hf & Hlen).
  destruct (analyzeStock_returns lib market Badge analyzeFundamentals ticker bars
              Hf Hlen) as (r' & Hr' & _ & _ & Hflow & _).
  fold analyzeStock in Hr'. rewrite Hr in Hr'. injection Hr' as <-.
  destruct (bandarFlowOf_chart bars) as (flow & Hb & Hp & Ht & Hv); [lia|].
  assert (Hw : length (slice_last 20 bars) = 20%nat) by (apply slice_last_length; lia).
  exists bars, flow. split; [exact Hf|]. split; [rewrite Hflow; exact Hb|].
  split; [rewrite Hp, length_map; exact Hw|].
  split; [rewrite <- (length_map point_timestamp), Ht, length_map; exact Hw|].
  split; [rewrite Hp, map_map; reflexivity|].
  split; [rewrite Hp, map_map; reflexivity|].
  split; assumption.
Qed.

(** X12.  On a price that is not negative and a latest bar whose low is
    not above its high, the prediction agrees with the signal: a BUY never
    comes with a predicted price below the rounded current price, a SELL
    never with one above it. *)
Theorem swing_prediction_agrees (ticker : string) (bars : list StockData) :
  getHistoricalData market ticker "1d" = Ok bars ->
  (200 <= length bars)%nat ->
  0 <= Analyzer.currentPriceOf market ticker (map close bars) ->
  low (last bars (mkStockData 0 0 0 0 0 0)) <= high (last bars (mkStockData 0 0 0 0 0 0)) ->
  exists r,
    analyzeStock ticker = Ok r /\
    (signal r = BUY -> Math_round (price r) <= predPrice r) /\
    (signal r = SELL -> predPrice r <= Math_round (price r)).
Proof.
  intros Hf Hlen Hprice Hbar.
  destruct (analyzeStock_returns lib market Badge analyzeFundamentals ticker bars
              Hf Hlen) as (r & Hr & Hsig & _).
  destruct (analyzeStock_prices lib market Badge analyzeFundamentals ticker bars
              Hf Hlen) as (r' & hist & Hr' & Hp & Hpred & _).
  rewrite Hr in Hr'. injection Hr' as <-.
  exists r. split; [exact Hr|]. rewrite Hp, Hpred, Hsig.
  match goal with
  | |- context [Analyzer.predictPrice _ _ ?v _] => set (volatility := v)
  end.
  assert (Hv : 0 <= volatility).
  { unfold volatility.
    destruct (gt (close (last bars (mkStockData 0 0 0 0 0 0))) 0) eqn:E; [|lra].
    to_order. apply Qdiv_nonneg; lra. }
  destruct (predictPrice_direction
              (Analyzer.latestRSI_of (RSI_calculate lib (map close bars) 14))
              (Analyzer.currentPriceOf market ticker (map close bars))
              volatility hist Hprice Hv) as [Hup Hdown].
  split; intro H.
  - apply Hup. apply signal_BUY_iff in H. tauto.
  - apply Hdown. apply signal_SELL_iff in H. tauto.
Qed.

(** X13.  When no bar has its low above its high, the returned 52-week low
    is not above the returned 52-week high. *)
Theorem swing_range_ordered (ticker : string) (bars : list StockData) :
  getHistoricalData market ticker "1d" = Ok bars ->
  (200 <= length bars)%nat ->
  Forall (fun bar => low bar <= high bar) bars ->
  exists r,
    analyzeStock ticker = Ok r /\ low52w r <= high52w r.
Proof.
  intros Hf Hlen Hwf.
  destruct (analyzeStock_prices lib market Badge analyzeFundamentals ticker bars
              Hf Hlen) as (r & hist & Hr & _ & _ & Hlo & Hhi & _).
  exists r. split; [exact Hr|]. rewrite Hlo, Hhi.
  apply Math_round_mono, spread_low_high.
  - apply nonempty_of_length. unfold slice_last. rewrite length_skipn. lia.
  - unfold slice_last. apply (incl_Forall (l1 := bars)); [|exact Hwf].
    intros x Hx. rewrite <- (firstn_skipn (length bars - 250) bars).
    apply in_or_app. right. exact Hx.
Qed.

End SwingResults.

Section SwingPosition.

Variable lib : TechnicalIndicators.
Variable market : Market.
Variable Badge : Type.
Variable analyzeFundamentals : FundamentalData -> list Badge.

(** X14.  When the quote fails, so that the price is the latest close, and
    every bar has its close between its low and its high, the returned
    position in the 52-week range is between 0 and 100. *)
Theorem swing_position_bounds (ticker : string) (bars : list StockData)
    (message : string) :
  getHistoricalData market ticker "1d" = Ok bars ->
  (200 <= length bars)%nat ->
  getCurrentPrice market ticker = Err message ->
  Forall (fun bar => low bar <= close bar <= high bar) bars ->
  exists r,
    Analyzer.analyzeStock lib market Badge analyzeFundamentals ticker = Ok r /\
    price r = close (last bars (mkStockData 0 0 0 0 0 0)) /\
    0 <= position52w r <= 100.
Proof.
  intros Hf Hlen Hquote Hwf.
  destruct (analyzeStock_prices lib market Badge analyzeFundamentals ticker bars
              Hf Hlen) as (r & hist & Hr & Hp & _ & _ & _ & Hpos).
  exists r. split; [exact Hr|].
  set (d := mkStockData 0 0 0 0 0 0) in *.
  assert (Hne : bars <> []) by (apply nonempty_of_length; lia).
  assert (Hprice : Analyzer.currentPriceOf market ticker (map close bars)
                   = close (last bars d)).
  { unfold Analyzer.currentPriceOf. rewrite Hquote. unfold at_or.
    destruct (exists_last Hne) as (ys & y & ->).
    rewrite map_app, last_last. cbn [map].
    rewrite length_app, Nat.add_sub, app_nth2, Nat.sub_diag by lia. reflexivity. }
  rewrite Hprice in Hp, Hpos. split; [exact Hp|]. rewrite Hpos.
  set (window := slice_last 250 bars) in *.
  assert (Hin : In (last bars d) window).
  { unfold window, slice_last. apply last_skipn_In. lia. }
  assert (Hbar : low (last bars d) <= close (last bars d) <= high (last bars d)).
  { apply (proj1 (Forall_forall _ _) Hwf). apply (@exists_last _ bars) in Hne.
    destruct Hne as (ys & y & ->). rewrite last_last.
    apply in_or_app. right. left. reflexivity. }
  pose proof (Math_min_spread_le (map low window) _ (in_map low _ _ Hin)) as Hlo.
  pose proof (Math_max_spread_ge (map high window) _ (in_map high _ _ Hin)) as Hhi.
  set (lo := Math_min_spread (map low window)) in *.
  set (hi := Math_max_spread (map high window)) in *.
  set (p := close (last bars d)) in *.
  assert (Hposition :
    0 <= (if gt (hi - lo) 0 then (p - lo) / (hi - lo) * 100 else 50) <= 100).
  { destruct (gt (hi - lo) 0) eqn:E; [|lra]. to_order.
    assert (H0 : 0 <= (p - lo) / (hi - lo)) by (apply Qdiv_nonneg; lra).
    assert (H1 : (p - lo) / (hi - lo) <= 1) by (apply Qle_shift_div_r; lra).
    set (q := (p - lo) / (hi - lo)) in *. lra. }
  set (position := if gt (hi - lo) 0 then (p - lo) / (hi - lo) * 100 else 50) in *.
  assert (Hround : 0 <= Math_round (position * 100) <= 10000).
  { apply (Math_round_range 0 10000). change (inject_Z 0) with 0.
    change (inject_Z 10000) with 10000. lra. }
  split.
  - apply Qdiv_nonneg; lra.
  - apply Qle_shift_div_r; lra.
Qed.

End SwingPosition.

(** ** Comparison, continued *)

Lemma order_swap (x y : number) :
  (if lt y x then A else if lt x y then B else TIE) =
  Verdict.swapWinner (if lt x y then A else if lt y x then B else TIE).
Proof.
  destruct (lt x y) eqn:E1, (lt y x) eqn:E2; try reflexivity.
  to_order. lra.
Qed.

(** Each comparator run on the exchanged arguments. *)
Lemma comparators_antisymmetric_aux (fundamentalA fundamentalB : FundamentalData)
    (rsiA rsiB : number) (signalA signalB : Signal)
    (bandarFlowA bandarFlowB : option BandarFlowData) :
  Comparison.determineValuationWinner fundamentalB fundamentalA =
    Verdict.swapWinner (Comparison.determineValuationWinner fundamentalA fundamentalB) /\
  Comparison.determineMomentumWinner rsiB signalB rsiA signalA =
    Verdict.swapWinner (Comparison.determineMomentumWinner rsiA signalA rsiB signalB) /\
  Comparison.determineProfitabilityWinner fundamentalB fundamentalA =
    Verdict.swapWinner (Comparison.determineProfitabilityWinner fundamentalA fundamentalB) /\
  Comparison.determineBandarmologyWinner bandarFlowB bandarFlowA =
    Verdict.swapWinner (Comparison.determineBandarmologyWinner bandarFlowA bandarFlowB).
Proof.
  repeat split.
  - unfold Comparison.determineValuationWinner, Comparison.orInfinity.
    destruct (trailingPE fundamentalA), (priceToBook fundamentalA),
      (trailingPE fundamentalB), (priceToBook fundamentalB);
      cbn [Comparison.isInfinity negb andb Comparison.xlt];
      try reflexivity; apply order_swap.
  - unfold Comparison.determineMomentumWinner, gt. cbv zeta. apply order_swap.
  - unfold Comparison.determineProfitabilityWinner, Comparison.orNegInfinity.
    destruct (trailingEps fundamentalA), (trailingEps fundamentalB);
      cbn [Comparison.isNegInfinity andb Comparison.xlt]; try reflexivity.
    apply order_swap.
  - unfold Comparison.determineBandarmologyWinner. cbv zeta.
    set (a := Comparison.statusScore _). set (b := Comparison.statusScore _).
    destruct (a <? b)%nat eqn:E1, (b <? a)%nat eqn:E2; try reflexivity.
    apply Nat.ltb_lt in E1, E2. lia.
Qed.

(** X15.  The four comparators are insensitive to the order of the two
    stocks: exchanging them exchanges the winner. *)
Theorem comparators_antisymmetric (fundamentalA fundamentalB : FundamentalData)
    (rsiA rsiB : number) (signalA signalB : Signal)
    (bandarFlowA bandarFlowB : option BandarFlowData) :
  Comparison.determineValuationWinner fundamentalB fundamentalA =
    Verdict.swapWinner (Comparison.determineValuationWinner fundamentalA fundamentalB) /\
  Comparison.determineMomentumWinner rsiB signalB rsiA signalA =
    Verdict.swapWinner (Comparison.determineMomentumWinner rsiA signalA rsiB signalB) /\
  Comparison.determineProfitabilityWinner fundamentalB fundamentalA =
    Verdict.swapWinner (Comparison.determineProfitabilityWinner fundamentalA fundamentalB) /\
  Comparison.determineBandarmologyWinner bandarFlowB bandarFlowA =
    Verdict.swapWinner (Comparison.determineBandarmologyWinner bandarFlowA bandarFlowB).
Proof.
  apply comparators_antisymmetric_aux.
Qed.

(** The verdict reads the same from either side. *)
Lemma generateVerdict_swap (symbolA symbolB : string)
    (fundamentalA fundamentalB : FundamentalData) (w : Winners) :
  Verdict.generateVerdict symbolB symbolA fundamentalB fundamentalA (Verdict.swapWinners w)
  = Verdict.generateVerdict symbolA symbolB fundamentalA fundamentalB w.
Proof.
  destruct w as [v m p b]. destruct v, m, p, b; reflexivity.
Qed.

(** X16.  Comparing B with A gives the comparison of A with B read from
    the other side: the two stocks exchanged, every winner exchanged, and the
    same verdict text. *)
Theorem comparison_symmetric {Badge} (analysisA analysisB : AnalysisResult Badge)
    (fundamentalA fundamentalB : FundamentalData) :
  let ab := Verdict.compareAnalyses analysisA analysisB fundamentalA fundamentalB in
  let ba := Verdict.compareAnalyses analysisB analysisA fundamentalB fundamentalA in
  stockA ba = stockB ab /\
  stockB ba = stockA ab /\
  winners ba = Verdict.swapWinners (winners ab) /\
  verdict ba = verdict ab.
Proof.
  intros ab ba.
  destruct (comparators_antisymmetric_aux fundamentalA fundamentalB
              (rsi analysisA) (rsi analysisB) (signal analysisA) (signal analysisB)
              (bandarFlow analysisA) (bandarFlow analysisB)) as (Hv & Hm & Hp & Hb).
  assert (Hw : winners ba = Verdict.swapWinners (winners ab)).
  { unfold ba, ab, Verdict.compareAnalyses, Verdict.swapWinners.
    cbn [winners valuation momentum profitability bandarmology].
    rewrite Hv, Hm, Hp, Hb. reflexivity. }
  split; [reflexivity|]. split; [reflexivity|]. split; [exact Hw|].
  unfold ba, ab, Verdict.compareAnalyses in *. cbn [verdict winners] in *.
  rewrite Hw. apply generateVerdict_swap.
Qed.

(** ** Batches, continued *)

Section BatchSizes.

Context {T R : Type}.
Variable errorRecord : string -> R.
Variable items : list T.
Variable processor : T -> result R.

(** X17.  The batch size does not show in the result: with any positive
    size [processInBatches] returns every item settled once, in the order
    of the input. *)
Theorem batches_independent_of_size (batchSize1 batchSize2 : nat) :
  (0 < batchSize1)%nat ->
  (0 < batchSize2)%nat ->
  Actions.processInBatches errorRecord items batchSize1 processor =
  Actions.processInBatches errorRecord items batchSize2 processor /\
  Actions.processInBatches errorRecord items batchSize1 processor =
  Some (map (Actions.settle errorRecord processor) items).
Proof.
  intros H1 H2.
  rewrite (processInBatches_returns errorRecord items batchSize1 processor H1),
    (processInBatches_returns errorRecord items batchSize2 processor H2).
  split; reflexivity.
Qed.

(** X18.  With a batch size of 0 the loop over a non-empty input never
    returns: whatever the fuel, it runs out. *)
Theorem zero_batch_never_returns (fuel i : nat) (results : list R) :
  (i < length items)%nat ->
  Actions.processInBatches_loop errorRecord items 0 processor fuel i results = None.
Proof.
  intro Hi. revert results. induction fuel as [|fuel IH]; intro results;
    cbn [Actions.processInBatches_loop]; rewrite (proj2 (Nat.ltb_lt _ _) Hi);
    [reflexivity|].
  rewrite Nat.add_0_r. apply IH.
Qed.

End BatchSizes.

(** ** The server actions *)

Section ServerActionProperties.

Variable lib : TechnicalIndicators.
Variable market : Market.
Variable Badge : Type.
Variable analyzeFundamentals : FundamentalData -> list Badge.
Variable tz : TimeZone.
Variable now : Z.
Variable firstRejected : Winner.

(** X20.  On a fetched history that is not empty [getChartData] succeeds:
    the length check of [calculateVWAP] cannot fail there, and the chart has
    one point per bar, carrying the bar's timestamp and close and the VWAP at
    the bar. *)
Theorem chart_data_aligned (ticker : string) (bars : list StockData) :
  getHistoricalData market ticker "5m" = Ok bars ->
  bars <> [] ->
  exists points vwapValues,
    ServerActions.getChartData market ticker = ServerActions.succeed points /\
    Indicators.calculateVWAP (map high bars) (map low bars) (map close bars)
      (map volume bars) = Ok vwapValues /\
    map chart_timestamp points = map timestamp bars /\
    map chart_close points = map close bars /\
    map chart_vwap points = vwapValues.
Proof.
  intros Hf Hne. unfold ServerActions.getChartData. rewrite Hf.
  assert (E0 : (length bars =? 0)%nat = false).
  { apply Nat.eqb_neq. intro H0. apply Hne, length_zero_iff_nil, H0. }
  rewrite E0.
  unfold Indicators.calculateVWAP. rewrite !length_map, Nat.eqb_refl. cbn [negb orb].
  set (final := for_range _ _ _).
  assert (Hvl : length (Indicators.vwap_out final) = length bars).
  { unfold final. rewrite vwap_after_length. reflexivity. }
  eexists. eexists. split; [reflexivity|]. split; [reflexivity|].
  repeat split; rewrite map_map; cbn [chart_timestamp chart_close chart_vwap];
    unfold at_or.
  - apply (map_nth_seq_with timestamp).
  - apply (map_nth_seq_with close).
  - rewrite <- Hvl. apply map_nth_seq.
Qed.

(** X21.  [compareTickers] succeeds exactly when both tickers are given,
    not blank, different once put in upper case, and both analyses return;
    when both analyses fail, which one rejects first does not matter. *)
Theorem compare_tickers_succeeds_iff (formData : FormData) :
  action_success
    (ServerActions.compareTickers lib market Badge analyzeFundamentals firstRejected
       formData) = true <->
  exists tickerA tickerB analysisA analysisB,
    ServerActions.tickerField formData "tickerA" = Some tickerA /\
    ServerActions.tickerField formData "tickerB" = Some tickerB /\
    toUpperCase tickerA <> toUpperCase tickerB /\
    Analyzer.analyzeStock lib market Badge analyzeFundamentals tickerA = Ok analysisA /\
    Analyzer.analyzeStock lib market Badge analyzeFundamentals tickerB = Ok analysisB.
Proof.
  unfold ServerActions.compareTickers, Verdict.compareStocks.
  destruct (ServerActions.tickerField formData "tickerA") as [tickerA|].
  2:{ split; [discriminate|]. intros (? & ? & ? & ? & H & _). discriminate H. }
  destruct (ServerActions.tickerField formData "tickerB") as [tickerB|].
  2:{ split; [discriminate|]. intros (? & ? & ? & ? & _ & H & _). discriminate H. }
  destruct (String.eqb (toUpperCase tickerA) (toUpperCase tickerB)) eqn:E.
  { apply String.eqb_eq in E. split; [discriminate|].
    intros (a & b & ? & ? & Ha & Hb & Hneq & _).
    injection Ha as <-. injection Hb as <-. contradiction. }
  apply String.eqb_neq in E.
  destruct (Analyzer.analyzeStock lib market Badge analyzeFundamentals tickerA)
    as [analysisA|messageA] eqn:EA;
    destruct (Analyzer.analyzeStock lib market Badge analyzeFundamentals tickerB)
      as [analysisB|messageB] eqn:EB.
  - split; [|reflexivity]. intros _.
    exists tickerA, tickerB, analysisA, analysisB. repeat split; assumption.
  - split; [discriminate|].
    intros (a & b & ? & ? & Ha & Hb & _ & _ & H).
    injection Hb as <-. rewrite EB in H. discriminate H.
  - split; [discriminate|].
    intros (a & b & ? & ? & Ha & Hb & _ & H & _).
    injection Ha as <-. rewrite EA in H. discriminate H.
  - split.
    + destruct firstRejected; discriminate.
    + intros (a & b & ? & ? & Ha & Hb & _ & H & _).
      injection Ha as <-. rewrite EA in H. discriminate H.
Qed.

(** X31.  [analyzeTicker] succeeds exactly when the ticker is given and not
    blank and the history fetched for it has at least 200 bars, and
    [analyzeIntradayTicker] exactly when the ticker is given and not blank
    and the intraday fetch gives two non-empty series; without a ticker
    both answer that the ticker is required, whatever the market holds. *)
Theorem ticker_actions_succeed_iff (formData : FormData) :
  (action_success
     (ServerActions.analyzeTicker lib market Badge analyzeFundamentals formData) = true <->
   exists ticker bars,
     ServerActions.tickerField formData "ticker" = Some ticker /\
     getHistoricalData market ticker "1d" = Ok bars /\ (200 <= length bars)%nat) /\
  (action_success
     (ServerActions.analyzeIntradayTicker lib market tz now formData) = true <->
   exists ticker fetched,
     ServerActions.tickerField formData "ticker" = Some ticker /\
     getIntradayData market ticker = Ok fetched /\
     data5m fetched <> [] /\ data15m fetched <> []) /\
  ((formData "ticker"%string = None \/
    exists raw, formData "ticker"%string = Some raw /\ trim raw = EmptyString) ->
   ServerActions.analyzeTicker lib market Badge analyzeFundamentals formData =
   ServerActions.fail "Ticker symbol is required" /\
   ServerActions.analyzeIntradayTicker lib market tz now formData =
   ServerActions.fail "Ticker symbol is required").
Proof.
  unfold ServerActions.analyzeTicker, ServerActions.analyzeIntradayTicker.
  split; [|split].
  - destruct (ServerActions.tickerField formData "ticker") as [ticker|].
    2:{ split; [discriminate|]. intros (? & ? & H & _). discriminate H. }
    destruct (Analyzer.analyzeStock lib market Badge analyzeFundamentals ticker)
      as [r|message] eqn:E.
    + split; [|reflexivity]. intros _.
      destruct (analyzeStock_inv lib market Badge analyzeFundamentals ticker r E)
        as (bars & Hf & Hlen).
      exists ticker, bars. repeat split; assumption.
    + split; [discriminate|].
      intros (t & bars & Ht & Hf & Hlen). injection Ht as <-.
      destruct (analyzeStock_returns lib market Badge analyzeFundamentals ticker bars
                  Hf Hlen) as (r & Hr & _).
      rewrite E in Hr. discriminate Hr.
  - destruct (ServerActions.tickerField formData "ticker") as [ticker|].
    2:{ split; [discriminate|]. intros (? & ? & H & _). discriminate H. }
    destruct (Intraday.analyzeIntraday lib market tz now ticker) as [r|message] eqn:E.
    + split; [|reflexivity]. intros _.
      destruct (analyzeIntraday_inv lib market tz now ticker r E)
        as (fetched & Hf & H5 & H15).
      exists ticker, fetched. repeat split; assumption.
    + split; [discriminate|].
      intros (t & fetched & Ht & Hf & H5 & H15). injection Ht as <-.
      destruct (analyzeIntraday_returns lib market tz now ticker fetched Hf H5 H15)
        as (r & Hr & _).
      rewrite E in Hr. discriminate Hr.
  - intros Hblank.
    assert (Hnone : ServerActions.tickerField formData "ticker" = None).
    { unfold ServerActions.tickerField.
      destruct Hblank as [->|(raw & -> & Hraw)]; [reflexivity|].
      rewrite Hraw. reflexivity. }
    rewrite Hnone. split; reflexivity.
Qed.

End ServerActionProperties.

(** ** Market status *)

Section MarketStatusProperties.

Local Open Scope Z_scope.

(** Decide every integer comparison of the goal and leave arithmetic. *)
Ltac decide_clock :=
  repeat match goal with
         | |- context [?a =? ?b] => destruct (Z.eqb_spec a b)
         | |- context [?a <=? ?b] => destruct (Z.leb_spec0 a b)
         | |- context [?a <? ?b] => destruct (Z.ltb_spec0 a b)
         end;
  cbn [andb orb].

(** X22.  Read on one clock reading with a valid day of the week, the
    time-based status is BREAK exactly on Friday from 11:30 to 14:00 and on
    Monday to Thursday from 12:00 to 13:30, OPEN exactly on Monday to Friday
    from 09:00 to 15:50 outside the break, and CLOSED at every other time. *)
Theorem market_status_by_time (reading : ClockReading) :
  0 <= dayOfWeek reading <= 6 ->
  let t := hours reading * 60 + minutes reading in
  let day := dayOfWeek reading in
  let inBreak :=
    (day = 5 /\ 690 <= t < 840) \/ (1 <= day <= 4 /\ 720 <= t < 810) in
  let status := MarketClock.getMarketStatusByTime reading reading in
  (status = BREAK <-> inBreak) /\
  (status = OPEN <-> 1 <= day <= 5 /\ 540 <= t < 950 /\ ~ inBreak) /\
  (status = CLOSED <-> day = 0 \/ day = 6 \/ t < 540 \/ 950 <= t).
Proof.
  intros Hday t day inBreak status.
  unfold status, inBreak, MarketClock.getMarketStatusByTime, MarketClock.isBreakTime.
  cbv zeta. fold t. fold day.
  change (11 * 60 + 30) with 690. change (14 * 60) with 840.
  change (12 * 60) with 720. change (13 * 60 + 30) with 810.
  change (9 * 60) with 540. change (15 * 60 + 50) with 950.
  decide_clock;
    (split; [|split]);
    (split; [intro H; try discriminate H; lia|intro H; try reflexivity; exfalso; lia]).
Qed.

(** X23.  In every branch of [getRealTimeMarketStatus] the message is the
    one of the returned status and the timestamp the clock's; the second
    quote is consulted only when the first fails; a REGULAR market state
    never gives CLOSED, and the states CLOSED, PRE and POST always do. *)
Theorem market_status_result_coherent (quoteJKSE quoteBBCA : result (option string))
    (now breakNow : ClockReading) (timestamp : Z) :
  let answer :=
    MarketClock.getRealTimeMarketStatus quoteJKSE quoteBBCA now breakNow timestamp in
  let marketState :=
    match quoteJKSE, quoteBBCA with
    | Ok state, _ => state
    | Err _, Ok state => state
    | Err _, Err _ => None
    end in
  market_message answer = MarketClock.messageOf (market_status answer) /\
  market_timestamp answer = timestamp /\
  (forall state other,
     quoteJKSE = Ok state ->
     answer = MarketClock.getRealTimeMarketStatus quoteJKSE other now breakNow timestamp) /\
  (marketState = Some "REGULAR"%string -> market_status answer <> CLOSED) /\
  (marketState = Some "CLOSED"%string \/ marketState = Some "PRE"%string
   \/ marketState = Some "POST"%string ->
   market_status answer = CLOSED).
Proof.
  intros answer marketState. unfold answer, marketState.
  unfold MarketClock.getRealTimeMarketStatus.
  split; [|split; [|split; [|split]]].
  - destruct quoteJKSE as [s|]; [|destruct quoteBBCA as [s|]];
      cbn [market_message market_status];
      try (destruct (MarketClock.getMarketStatusByTime now breakNow); reflexivity);
      reflexivity.
  - destruct quoteJKSE; [|destruct quoteBBCA]; reflexivity.
  - intros state other ->. reflexivity.
  - intro Hs.
    destruct quoteJKSE as [s|]; [|destruct quoteBBCA as [s|]; [|discriminate Hs]];
      subst s; cbn; destruct (MarketClock.isBreakTime breakNow); discriminate.
  - intro Hs.
    destruct quoteJKSE as [s|];
      [|destruct quoteBBCA as [s|]; [|destruct Hs as [Hs|[Hs|Hs]]; discriminate Hs]];
      destruct Hs as [ -> | [ -> | -> ] ]; reflexivity.
Qed.

End MarketStatusProperties.

(** ** The further properties at sample inputs *)

Lemma sample_bars_ordered (f : nat -> number) (n : nat) :
  Forall (fun bar => low bar <= close bar <= high bar) (Sample.barsOf f n).
Proof.
  apply Forall_forall. intros bar Hin. unfold Sample.barsOf in Hin.
  apply in_map_iff in Hin. destruct Hin as (i & <- & _).
  unfold Sample.barAt. cbn [low close high]. lra.
Qed.

Lemma sample_bars_low_high (f : nat -> number) (n : nat) :
  Forall (fun bar => low bar <= high bar) (Sample.barsOf f n).
Proof.
  apply (Forall_impl (P := fun bar => low bar <= close bar <= high bar)).
  - intros bar H. lra.
  - apply sample_bars_ordered.
Qed.

Lemma zero_range_suppresses_witness :
  high (mkStockData 0 100 100 100 100 0) <= low (mkStockData 0 100 100 100 100 0) /\
  Candle.hasPattern "Doji"
    (Candle.detectCandlePatterns
       (Sample.twoBars ++ [mkStockData 0 99 101 98 100 10; mkStockData 0 100 100 100 100 0]))
  = false.
Proof.
  split; [cbn; lra|].
  apply (zero_range_suppresses Sample.twoBars (mkStockData 0 99 101 98 100 10)
           (mkStockData 0 100 100 100 100 0)).
  cbn. lra.
Defined.

Lemma intraday_score_range_witness :
  exists r,
    Intraday.analyzeIntraday Sample.indicators (Sample.marketOf Sample.fiveBars (Ok 130))
      Sample.utc (Sample.morning 4) "BBCA" = Ok r /\
    40 <= score r <= 99.
Proof.
  eexists. split; [vm_compute; reflexivity|].
  apply (intraday_score_range Sample.indicators
           (Sample.marketOf Sample.fiveBars (Ok 130)) Sample.utc (Sample.morning 4)
           "BBCA" _ ltac:(vm_compute; reflexivity)).
Defined.

Lemma intraday_chart_aligned_witness :
  exists r,
    Intraday.analyzeIntraday Sample.indicators (Sample.marketOf Sample.fiveBars (Ok 130))
      Sample.utc (Sample.morning 4) "BBCA" = Ok r /\
    map vwap_timestamp (vwapData r) = map timestamp (chartData r).
Proof.
  eexists. split; [vm_compute; reflexivity|].
  apply (intraday_chart_aligned Sample.indicators
           (Sample.marketOf Sample.fiveBars (Ok 130)) Sample.utc (Sample.morning 4)
           "BBCA" _ ltac:(vm_compute; reflexivity)).
Defined.

Lemma intraday_bias_rule_witness :
  getIntradayData (Sample.marketOf Sample.fiveBars (Ok 130)) "BBCA"
    = Ok (mkIntradayData Sample.fiveBars Sample.fiveBars) /\
  Sample.fiveBars <> [] /\
  exists r,
    Intraday.analyzeIntraday Sample.indicators (Sample.marketOf Sample.fiveBars (Ok 130))
      Sample.utc (Sample.morning 4) "BBCA" = Ok r.
Proof.
  split; [reflexivity|]. split; [discriminate|].
  destruct (intraday_bias_rule Sample.indicators
              (Sample.marketOf Sample.fiveBars (Ok 130)) Sample.utc (Sample.morning 4)
              "BBCA" (mkIntradayData Sample.fiveBars Sample.fiveBars) eq_refl
              ltac:(discriminate) ltac:(discriminate)) as (r & Hr & _).
  exists r. exact Hr.
Defined.

Lemma intraday_plan_ordered_witness :
  getIntradayData (Sample.marketOf Sample.fiveBars (Ok 130)) "BBCA"
    = Ok (mkIntradayData Sample.fiveBars Sample.fiveBars) /\
  Sample.fiveBars <> [] /\
  0 <= Intraday.latestATR5m Sample.indicators Sample.fiveBars
         (Intraday.currentPriceOf (Sample.marketOf Sample.fiveBars (Ok 130)) "BBCA"
            Sample.fiveBars) /\
  exists r,
    Intraday.analyzeIntraday Sample.indicators (Sample.marketOf Sample.fiveBars (Ok 130))
      Sample.utc (Sample.morning 4) "BBCA" = Ok r /\
    sl r <= entry r /\ entry r <= tp1 r /\ tp1 r <= tp2 r.
Proof.
  split; [reflexivity|]. split; [discriminate|].
  split; [vm_compute; discriminate|].
  apply (intraday_plan_ordered Sample.indicators
           (Sample.marketOf Sample.fiveBars (Ok 130)) Sample.utc (Sample.morning 4)
           "BBCA" (mkIntradayData Sample.fiveBars Sample.fiveBars) eq_refl
           ltac:(discriminate) ltac:(discriminate) ltac:(vm_compute; discriminate)).
Defined.

Lemma intraday_range_ordered_witness :
  getIntradayData (Sample.marketOf Sample.fiveBars (Ok 130)) "BBCA"
    = Ok (mkIntradayData Sample.fiveBars Sample.fiveBars) /\
  Sample.fiveBars <> [] /\
  Forall (fun bar => low bar <= high bar) Sample.fiveBars /\
  exists r,
    Intraday.analyzeIntraday Sample.indicators (Sample.marketOf Sample.fiveBars (Ok 130))
      Sample.utc (Sample.morning 4) "BBCA" = Ok r /\
    orLow r <= orHigh r.
Proof.
  split; [reflexivity|]. split; [discriminate|].
  split; [apply sample_bars_low_high|].
  apply (intraday_range_ordered Sample.indicators
           (Sample.marketOf Sample.fiveBars (Ok 130)) Sample.utc (Sample.morning 4)
           "BBCA" (mkIntradayData Sample.fiveBars Sample.fiveBars) eq_refl
           ltac:(discriminate) ltac:(discriminate) (sample_bars_low_high _ _)).
Defined.

Lemma swing_bandar_chart_witness :
  exists r,
    Analyzer.analyzeStock Sample.indicators
      (Sample.marketOf Sample.risingBars (Err "no quote")) unit Sample.noBadges "BBCA"
    = Ok r /\
    exists flow, bandarFlow r = Some flow /\ length (obvData flow) = 20%nat.
Proof.
  eexists. split; [vm_compute; reflexivity|].
  destruct (swing_bandar_chart Sample.indicators
              (Sample.marketOf Sample.risingBars (Err "no quote")) unit Sample.noBadges
              "BBCA" _ ltac:(vm_compute; reflexivity))
    as (bars & flow & _ & Hflow & _ & Hlen & _).
  exists flow. split; [exact Hflow|exact Hlen].
Defined.

Lemma swing_prediction_agrees_witness :
  getHistoricalData (Sample.marketOf Sample.risingBars (Err "no quote")) "BBCA" "1d"
    = Ok Sample.risingBars /\
  (200 <= length Sample.risingBars)%nat /\
  0 <= Analyzer.currentPriceOf (Sample.marketOf Sample.risingBars (Err "no quote"))
         "BBCA" (map close Sample.risingBars) /\
  low (last Sample.risingBars (mkStockData 0 0 0 0 0 0))
  <= high (last Sample.risingBars (mkStockData 0 0 0 0 0 0)) /\
  exists r,
    Analyzer.analyzeStock Sample.indicators
      (Sample.marketOf Sample.risingBars (Err "no quote")) unit Sample.noBadges "BBCA"
    = Ok r /\
    (signal r = SELL -> predPrice r <= Math_round (price r)).
Proof.
  split; [reflexivity|]. split; [vm_compute; lia|].
  split; [vm_compute; discriminate|]. split; [vm_compute; discriminate|].
  destruct (swing_prediction_agrees Sample.indicators
              (Sample.marketOf Sample.risingBars (Err "no quote")) unit Sample.noBadges
              "BBCA" Sample.risingBars eq_refl ltac:(vm_compute; lia)
              ltac:(vm_compute; discriminate) ltac:(vm_compute; discriminate))
    as (r & Hr & _ & Hsell).
  exists r. split; [exact Hr|exact Hsell].
Defined.

Lemma swing_range_ordered_witness :
  getHistoricalData (Sample.marketOf Sample.risingBars (Err "no quote")) "BBCA" "1d"
    = Ok Sample.risingBars /\
  (200 <= length Sample.risingBars)%nat /\
  Forall (fun bar => low bar <= high bar) Sample.risingBars /\
  exists r,
    Analyzer.analyzeStock Sample.indicators
      (Sample.marketOf Sample.risingBars (Err "no quote")) unit Sample.noBadges "BBCA"
    = Ok r /\
    low52w r <= high52w r.
Proof.
  split; [reflexivity|]. split; [vm_compute; lia|].
  split; [apply sample_bars_low_high|].
  apply (swing_range_ordered Sample.indicators
           (Sample.marketOf Sample.risingBars (Err "no quote")) unit Sample.noBadges
           "BBCA" Sample.risingBars eq_refl ltac:(vm_compute; lia)
           (sample_bars_low_high _ _)).
Defined.

Lemma swing_position_bounds_witness :
  getHistoricalData (Sample.marketOf Sample.risingBars (Err "no quote")) "BBCA" "1d"
    = Ok Sample.risingBars /\
  (200 <= length Sample.risingBars)%nat /\
  getCurrentPrice (Sample.marketOf Sample.risingBars (Err "no quote")) "BBCA"
    = Err "no quote" /\
  Forall (fun bar => low bar <= close bar <= high bar) Sample.risingBars /\
  exists r,
    Analyzer.analyzeStock Sample.indicators
      (Sample.marketOf Sample.risingBars (Err "no quote")) unit Sample.noBadges "BBCA"
    = Ok r /\
    price r = close (last Sample.risingBars (mkStockData 0 0 0 0 0 0)) /\
    0 <= position52w r <= 100.
Proof.
  split; [reflexivity|]. split; [vm_compute; lia|].
  split; [reflexivity|]. split; [apply sample_bars_ordered|].
  apply (swing_position_bounds Sample.indicators
           (Sample.marketOf Sample.risingBars (Err "no quote")) unit Sample.noBadges
           "BBCA" Sample.risingBars "no quote" eq_refl ltac:(vm_compute; lia)
           eq_refl (sample_bars_ordered _ _)).
Defined.

Lemma batches_independent_of_size_witness :
  (0 < 2)%nat /\ (0 < 5)%nat /\
  Actions.processInBatches (fun _ : string => 0%nat) [1; 2; 3; 4; 5; 6; 7]%nat 2
    (fun n => if (n =? 4)%nat then Err "four" else Ok (n * n)%nat)
  = Some [1; 4; 9; 0; 25; 36; 49]%nat.
Proof.
  split; [lia|]. split; [lia|].
  apply (batches_independent_of_size (fun _ : string => 0%nat)
           [1; 2; 3; 4; 5; 6; 7]%nat
           (fun n => if (n =? 4)%nat then Err "four" else Ok (n * n)%nat) 2 5);
    lia.
Defined.

Lemma zero_batch_never_returns_witness :
  (0 < length [1; 2; 3]%nat)%nat /\
  Actions.processInBatches_loop (fun _ : string => 0%nat) [1; 2; 3]%nat 0
    (fun n => Ok n) 1000 0 [] = None.
Proof.
  split; [cbn; lia|].
  apply (zero_batch_never_returns (fun _ : string => 0%nat) [1; 2; 3]%nat
           (fun n => Ok n) 1000 0 []).
  cbn. lia.
Defined.

Lemma chart_data_aligned_witness :
  getHistoricalData (Sample.marketOf Sample.fiveBars (Ok 130)) "BBCA" "5m"
    = Ok Sample.fiveBars /\
  Sample.fiveBars <> [] /\
  exists points,
    ServerActions.getChartData (Sample.marketOf Sample.fiveBars (Ok 130)) "BBCA"
    = ServerActions.succeed points /\
    map chart_close points = map close Sample.fiveBars.
Proof.
  split; [reflexivity|]. split; [discriminate|].
  destruct (chart_data_aligned (Sample.marketOf Sample.fiveBars (Ok 130)) "BBCA"
              Sample.fiveBars eq_refl ltac:(discriminate))
    as (points & vwapValues & Hp & _ & _ & Hc & _).
  exists points. split; [exact Hp|exact Hc].
Defined.

Lemma market_status_by_time_witness :
  (0 <= dayOfWeek (mkClockReading 5 11 45) <= 6)%Z /\
  MarketClock.getMarketStatusByTime (mkClockReading 5 11 45) (mkClockReading 5 11 45)
  = BREAK.
Proof.
  split; [cbn; lia|].
  apply (proj1 (market_status_by_time (mkClockReading 5 11 45) ltac:(cbn; lia))).
  left. cbn. lia.
Defined.

Lemma sessionVWAP_restart_witness :
  Sample.twoBars <> [] /\
  Sample.utc (timestamp (Sample.barAt 2 120)) <>
  Sample.utc (timestamp (last Sample.twoBars (Sample.barAt 2 120))) /\
  Indicators.calculateSessionVWAP Sample.utc (Sample.twoBars ++ [Sample.barAt 2 120]) =
  Indicators.calculateSessionVWAP Sample.utc Sample.twoBars
  ++ Indicators.calculateSessionVWAP Sample.utc [Sample.barAt 2 120].
Proof.
  split; [discriminate|]. split; [vm_compute; discriminate|].
  apply (sessionVWAP_restart Sample.utc Sample.twoBars (Sample.barAt 2 120) []).
  - discriminate.
  - vm_compute. discriminate.
Defined.

(** Three bars of one UTC date, six hours apart. *)
Lemma sessionVWAP_one_date_witness :
  let bars :=
    [mkStockData (Sample.day 0) 100 102 99 101 1000;
     mkStockData (Sample.day 0 + 21600000) 101 104 100 103 3000;
     mkStockData (Sample.day 0 + 43200000) 103 103 100 100 2000] in
  (forall item, In item bars -> Sample.utc (timestamp item) = (2024, 1, 1)%Z) /\
  Indicators.calculateVWAP (map high bars) (map low bars) (map close bars)
    (map volume bars) =
  Ok (Indicators.calculateSessionVWAP Sample.utc bars).
Proof.
  intro bars.
  assert (H : forall item, In item bars -> Sample.utc (timestamp item) = (2024, 1, 1)%Z).
  { intros item [<-|[<-|[<-|[]]]]; reflexivity. }
  split; [exact H|].
  apply (sessionVWAP_one_date Sample.utc (2024, 1, 1)%Z bars H).
Defined.


Lemma vwap_shape_witness :
  (exists vwapValues,
     Indicators.calculateVWAP [102; 104] [99; 100] [101; 103] [1000; 3000]
     = Ok vwapValues /\ length vwapValues = 2%nat) /\
  Indicators.calculateVWAP [102; 104] [99] [101; 103] [1000; 3000] =
  Err "All arrays must have the same length for VWAP calculation.".
Proof.
  split.
  - apply (proj1 (vwap_shape [102; 104] [99; 100] [101; 103] [1000; 3000])).
    repeat split.
  - apply (proj2 (vwap_shape [102; 104] [99] [101; 103] [1000; 3000])).
    intros (H & _). discriminate H.
Defined.

Lemma swing_returns_iff_witness :
  Analyzer.analyzeStock Sample.indicators
    (Sample.marketOf Sample.fiveBars (Ok 130)) unit Sample.noBadges "BBCA" =
  Err ("Failed to analyze stock BBCA: Insufficient historical data for BBCA. "
       ++ "Need at least 200 days for EMA200 calculation.").
Proof.
  apply (proj2 (proj2 (swing_returns_iff Sample.indicators
                         (Sample.marketOf Sample.fiveBars (Ok 130)) unit
                         Sample.noBadges "BBCA")) Sample.fiveBars eq_refl).
  vm_compute. lia.
Defined.

(** ** Ticker normalisation *)

Section Strings.

Local Open Scope string_scope.

Lemma append_nil_r (s : string) : s ++ "" = s.
Proof. induction s as [|c s IH]; cbn; [reflexivity|]. rewrite IH. reflexivity. Qed.

Lemma append_assoc (s t u : string) : (s ++ t) ++ u = s ++ (t ++ u).
Proof. induction s as [|c s IH]; cbn; [reflexivity|]. rewrite IH. reflexivity. Qed.

Lemma reverse_app (s t : string) : reverse (s ++ t) = reverse t ++ reverse s.
Proof.
  induction s as [|c s IH]; cbn.
  - rewrite append_nil_r. reflexivity.
  - rewrite IH, append_assoc. reflexivity.
Qed.

Lemma reverse_involutive (s : string) : reverse (reverse s) = s.
Proof.
  induction s as [|c s IH]; cbn; [reflexivity|].
  rewrite reverse_app, IH. reflexivity.
Qed.

Lemma prefix_app (s t : string) : String.prefix s (s ++ t) = true.
Proof.
  induction s as [|c s IH]; cbn; [destruct t; reflexivity|].
  destruct (ascii_dec c c) as [_|H]; [exact IH|contradiction].
Qed.

Lemma endsWith_app (s suffix : string) : endsWith (s ++ suffix) suffix = true.
Proof.
  unfold endsWith. rewrite reverse_app. apply prefix_app.
Qed.

(** Whether a string starts with white space. *)
Let leads (s : string) : bool :=
  match s with
  | EmptyString => false
  | String c _ => is_space c
  end.

Lemma trimStart_fix (s : string) : leads s = false -> trimStart s = s.
Proof. destruct s as [|c s]; cbn; [reflexivity|]. intros ->. reflexivity. Qed.

Lemma trimStart_leads (s : string) : leads (trimStart s) = false.
Proof.
  induction s as [|c s IH]; cbn; [reflexivity|].
  destruct (is_space c) eqn:E; [exact IH|]. cbn. exact E.
Qed.

Lemma leads_app (s t : string) : s <> "" -> leads (s ++ t) = leads s.
Proof. destruct s; [contradiction|reflexivity]. Qed.

Lemma reverse_nonempty (s : string) : s <> "" -> reverse s <> "".
Proof.
  intros H E. apply H. rewrite <- (reverse_involutive s), E. reflexivity.
Qed.

(** Trimming the start keeps the end free of white space. *)
Lemma trimStart_keeps_end (s : string) :
  leads (reverse s) = false -> leads (reverse (trimStart s)) = false.
Proof.
  induction s as [|c s IH]; [reflexivity|].
  cbn [trimStart reverse]. intro H.
  destruct (is_space c) eqn:E; [|exact H].
  apply IH. destruct s as [|c' s'].
  - cbn in H. rewrite E in H. discriminate H.
  - rewrite leads_app in H; [exact H|]. apply reverse_nonempty. discriminate.
Qed.

(** A string without white space at either end is its own trimming, and a
    trimming is such a string. *)
Lemma trim_fix (s : string) :
  leads s = false -> leads (reverse s) = false -> trim s = s.
Proof.
  intros H1 H2. unfold trim.
  rewrite (trimStart_fix s H1), (trimStart_fix (reverse s) H2).
  apply reverse_involutive.
Qed.

Lemma trim_ends (s : string) :
  leads (trim s) = false /\ leads (reverse (trim s)) = false.
Proof.
  unfold trim. split.
  - apply trimStart_keeps_end. rewrite reverse_involutive. apply trimStart_leads.
  - rewrite reverse_involutive. apply trimStart_leads.
Qed.

Lemma upper_ascii_idempotent (c : ascii) : upper_ascii (upper_ascii c) = upper_ascii c.
Proof. destruct c as [[] [] [] [] [] [] [] []]; reflexivity. Qed.

Lemma is_space_upper (c : ascii) : is_space (upper_ascii c) = is_space c.
Proof. destruct c as [[] [] [] [] [] [] [] []]; reflexivity. Qed.

Lemma toUpperCase_idempotent (s : string) : toUpperCase (toUpperCase s) = toUpperCase s.
Proof.
  induction s as [|c s IH]; cbn; [reflexivity|].
  rewrite upper_ascii_idempotent, IH. reflexivity.
Qed.

Lemma toUpperCase_app (s t : string) :
  toUpperCase (s ++ t) = toUpperCase s ++ toUpperCase t.
Proof. induction s as [|c s IH]; cbn; [reflexivity|]. rewrite IH. reflexivity. Qed.

Lemma toUpperCase_reverse (s : string) : toUpperCase (reverse s) = reverse (toUpperCase s).
Proof.
  induction s as [|c s IH]; cbn; [reflexivity|].
  rewrite toUpperCase_app, IH. reflexivity.
Qed.

Lemma toUpperCase_trimStart (s : string) :
  toUpperCase (trimStart s) = trimStart (toUpperCase s).
Proof.
  induction s as [|c s IH]; cbn; [reflexivity|].
  rewrite is_space_upper. destruct (is_space c); [exact IH|reflexivity].
Qed.

Lemma toUpperCase_trim (s : string) : toUpperCase (trim s) = trim (toUpperCase s).
Proof.
  unfold trim.
  rewrite toUpperCase_reverse, toUpperCase_trimStart, toUpperCase_reverse,
    toUpperCase_trimStart.
  reflexivity.
Qed.

(** X24.  A normalised ticker ends with [.JK], and normalising it again
    changes nothing. *)
Theorem normalize_ticker_idempotent (ticker : string) :
  endsWith (Actions.normalizeTickerForScan ticker) ".JK" = true /\
  Actions.normalizeTickerForScan (Actions.normalizeTickerForScan ticker) =
  Actions.normalizeTickerForScan ticker.
Proof.
  assert (Hfix : forall r,
            toUpperCase r = r -> trim r = r -> endsWith r ".JK" = true ->
            Actions.normalizeTickerForScan r = r).
  { intros r Hu Ht He. unfold Actions.normalizeTickerForScan.
    rewrite Hu, Ht, He. reflexivity. }
  unfold Actions.normalizeTickerForScan at 1 3 4.
  set (u := trim (toUpperCase ticker)).
  assert (Hu : toUpperCase u = u).
  { unfold u. rewrite toUpperCase_trim, toUpperCase_idempotent. reflexivity. }
  destruct (trim_ends (toUpperCase ticker)) as [Hl Hr]. fold u in Hl, Hr.
  destruct (endsWith u ".JK") eqn:E.
  - split; [exact E|]. apply Hfix; [exact Hu| |exact E].
    apply trim_fix; assumption.
  - split; [apply endsWith_app|].
    apply Hfix; [| |apply endsWith_app].
    + rewrite toUpperCase_app, Hu. reflexivity.
    + apply trim_fix.
      * destruct u as [|c u']; [reflexivity|exact Hl].
      * rewrite reverse_app. reflexivity.
Qed.

End Strings.

Example normalize_samples :
  map Actions.normalizeTickerForScan ["bbca"; "  Tlkm "; "ADRO.JK"; "goto.jk"]%string
  = ["BBCA.JK"; "TLKM.JK"; "ADRO.JK"; "GOTO.JK"]%string.
Proof. reflexivity. Qed.

(* ------------------------------------------------------------------ *)
(** ** The series fetched from the package *)

Lemma toStockData_length (clock : ClockReadings) (items : list YahooHistoricalItem) :
  length (MarketData.toStockData clock items) = length items.
Proof.
  unfold MarketData.toStockData. rewrite length_map, length_seq. reflexivity.
Qed.

Lemma In_slice_last {A} (n : nat) (xs : list A) (x : A) :
  In x (slice_last n xs) -> In x xs.
Proof.
  unfold slice_last. intro H.
  rewrite <- (firstn_skipn (length xs - n) xs).
  apply in_or_app. right. exact H.
Qed.

Lemma slice_last_nonempty {A} (n : nat) (xs : list A) :
  (0 < n)%nat -> xs <> [] -> slice_last n xs <> [].
Proof.
  intros Hn Hxs Hnil.
  assert (Hlen : length (slice_last n xs) = 0%nat) by (rewrite Hnil; reflexivity).
  unfold slice_last in Hlen. rewrite length_skipn in Hlen.
  destruct xs as [|x xs]; [contradiction|]. cbn [length] in Hlen. lia.
Qed.

Section MarketDataProperties.

Variable historical : YahooHistorical.
Variable clock : ClockReadings.

Let yearQuery : QueryOptions :=
  mkQueryOptions (nowPeriod1 clock / 1000 - 365 * 24 * 60 * 60)%Z
    (nowPeriod2 clock / 1000)%Z "1d".

Let sixtyDayQuery : QueryOptions :=
  mkQueryOptions (nowPeriod1 clock / 1000 - 60 * 24 * 60 * 60)%Z
    (nowPeriod2 clock / 1000)%Z "1d".

Let fiveDaysAgo : Z := (nowFilter clock - 5 * 24 * 60 * 60 * 1000)%Z.

Lemma getHistoricalData_daily (ticker : string) (bars : list StockData) :
  MarketData.getHistoricalData historical clock ticker "1d" = Ok bars <->
  exists items,
    historical (MarketData.normalizeTicker ticker) yearQuery = Ok (Some items) /\
    items <> [] /\ bars = MarketData.toStockData clock items.
Proof.
  unfold MarketData.getHistoricalData, MarketData.getHistoricalData_body.
  cbn [String.eqb Ascii.eqb Bool.eqb orb].
  fold yearQuery.
  destruct (historical (MarketData.normalizeTicker ticker) yearQuery)
    as [[items|]|message]; cbn [bind].
  - destruct items as [|item items]; cbn [length Nat.eqb].
    + split; [discriminate|].
      intros (items & H & Hne & _). injection H as <-. contradiction.
    + split.
      * intro H. injection H as <-. eexists. split; [reflexivity|].
        split; [discriminate|reflexivity].
      * intros (items' & H & _ & ->). injection H as <-. reflexivity.
  - split; [discriminate|]. intros (items & H & _). discriminate H.
  - split; [discriminate|]. intros (items & H & _). discriminate H.
Qed.

Lemma getIntradayData_inv (ticker : string) (d : IntradayData) :
  MarketData.getIntradayData historical clock ticker = Ok d ->
  exists items,
    historical (MarketData.normalizeTicker ticker) sixtyDayQuery = Ok (Some items) /\
    items <> [] /\
    data15m d = MarketData.toStockData clock items /\
    data5m d =
      (let recentData :=
         filter (fun item => (fiveDaysAgo <=? timestamp item)%Z)
           (MarketData.toStockData clock items) in
       if (0 <? length recentData)%nat then recentData
       else slice_last 10 (MarketData.toStockData clock items)).
Proof.
  unfold MarketData.getIntradayData, MarketData.getIntradayData_body.
  fold sixtyDayQuery. fold fiveDaysAgo.
  destruct (historical (MarketData.normalizeTicker ticker) sixtyDayQuery)
    as [[items|]|message]; cbn [bind]; [|discriminate|discriminate].
  destruct (length items =? 0)%nat eqn:E0; [discriminate|].
  cbv zeta.
  replace (if (20 <=? length (MarketData.toStockData clock items))%nat
           then MarketData.toStockData clock items
           else MarketData.toStockData clock items)
    with (MarketData.toStockData clock items)
    by (destruct (20 <=? length (MarketData.toStockData clock items))%nat; reflexivity).
  match goal with
  | |- context [if ?c then Err ?m else Ok ?v] => destruct c eqn:Eguard
  end; [discriminate|].
  intro H. injection H as <-. exists items.
  split; [reflexivity|]. split.
  - intro Hnil. rewrite Hnil in E0. discriminate E0.
  - split; reflexivity.
Qed.

Lemma getIntradayData_returns (ticker : string) (items : list YahooHistoricalItem) :
  historical (MarketData.normalizeTicker ticker) sixtyDayQuery = Ok (Some items) ->
  items <> [] ->
  exists d, MarketData.getIntradayData historical clock ticker = Ok d.
Proof.
  intros H Hne.
  unfold MarketData.getIntradayData, MarketData.getIntradayData_body.
  fold sixtyDayQuery. rewrite H. cbn [bind].
  destruct (length items =? 0)%nat eqn:E0.
  - apply Nat.eqb_eq, length_zero_iff_nil in E0. contradiction.
  - cbv zeta.
    replace (if (20 <=? length (MarketData.toStockData clock items))%nat
             then MarketData.toStockData clock items
             else MarketData.toStockData clock items)
      with (MarketData.toStockData clock items)
      by (destruct (20 <=? length (MarketData.toStockData clock items))%nat; reflexivity).
    assert (E15 : (length (MarketData.toStockData clock items) =? 0)%nat = false)
      by (rewrite toStockData_length; exact E0).
    rewrite E15, andb_false_r. eexists. reflexivity.
Qed.

Lemma data5m_nonempty (items : list YahooHistoricalItem) :
  items <> [] ->
  (let recentData :=
     filter (fun item => (fiveDaysAgo <=? timestamp item)%Z)
       (MarketData.toStockData clock items) in
   if (0 <? length recentData)%nat then recentData
   else slice_last 10 (MarketData.toStockData clock items)) <> [].
Proof.
  intro Hne. cbv zeta.
  destruct (0 <? length _)%nat eqn:E.
  - apply Nat.ltb_lt in E. apply nonempty_of_length. exact E.
  - apply slice_last_nonempty; [lia|].
    apply nonempty_of_length. rewrite toStockData_length.
    destruct items; [contradiction|cbn; lia].
Qed.

(** X29.  What [getIntradayData] returns is daily data: the 15-minute
    series is the whole 60-day daily history, one bar per item of the
    package, and the 5-minute series is a non-empty part of it: exactly its
    bars of the last five days, in their order, or, when there is none,
    exactly its last ten bars. *)
Theorem intraday_data_shape (ticker : string) (d : IntradayData) :
  MarketData.getIntradayData historical clock ticker = Ok d ->
  exists items,
    historical (MarketData.normalizeTicker ticker) sixtyDayQuery = Ok (Some items) /\
    items <> [] /\
    data15m d = MarketData.toStockData clock items /\
    length (data15m d) = length items /\
    data5m d <> [] /\
    (forall bar, In bar (data5m d) -> In bar (data15m d)) /\
    let recentData :=
      filter (fun bar => (fiveDaysAgo <=? timestamp bar)%Z) (data15m d) in
    (recentData <> [] -> data5m d = recentData) /\
    (recentData = [] -> data5m d = slice_last 10 (data15m d)).
Proof.
  intro H. destruct (getIntradayData_inv ticker d H) as (items & Hh & Hne & H15 & H5).
  exists items. split; [exact Hh|]. split; [exact Hne|]. split; [exact H15|].
  split; [rewrite H15; apply toStockData_length|].
  split; [rewrite H5; apply data5m_nonempty; exact Hne|].
  rewrite H15, H5. cbv zeta.
  destruct (0 <? length _)%nat eqn:E.
  - split; [|split].
    + intros bar Hbar. apply filter_In in Hbar. exact (proj1 Hbar).
    + intros _. reflexivity.
    + intro Hnil. rewrite Hnil in E. discriminate E.
  - split; [|split].
    + intros bar Hbar. exact (In_slice_last _ _ _ Hbar).
    + intro Hrecent. exfalso. apply Hrecent.
      apply Nat.ltb_ge in E. apply length_zero_iff_nil. lia.
    + intros _. reflexivity.
Qed.

Variable lib : TechnicalIndicators.
Variable quote : string -> result number.
Variable fundamentals : string -> result FundamentalData.
Variable tz : TimeZone.
Variable Badge : Type.
Variable analyzeFundamentals : FundamentalData -> list Badge.

Let market : Market := MarketData.marketOver historical clock quote fundamentals.

(** X30.  Over this package the two services return exactly when the
    package does: the intraday analysis whenever the 60-day daily query
    gives a non-empty array, so that its guards on an empty 5-minute or
    15-minute series are never reached, and the swing analysis whenever the
    one-year daily query gives at least 200 items. *)
Theorem services_over_package (now : Z) (ticker : string) :
  ((exists r, Intraday.analyzeIntraday lib market tz now ticker = Ok r) <->
   (exists items,
      historical (MarketData.normalizeTicker ticker) sixtyDayQuery = Ok (Some items) /\
      items <> [])) /\
  ((exists r, Analyzer.analyzeStock lib market Badge analyzeFundamentals ticker = Ok r) <->
   (exists items,
      historical (MarketData.normalizeTicker ticker) yearQuery = Ok (Some items) /\
      (200 <= length items)%nat)).
Proof.
  split; split.
  - intros [r Hr].
    destruct (analyzeIntraday_inv lib market tz now ticker r Hr)
      as (fetched & Hf & _ & _).
    destruct (getIntradayData_inv ticker fetched Hf) as (items & Hh & Hne & _).
    exists items. split; assumption.
  - intros (items & Hh & Hne).
    destruct (getIntradayData_returns ticker items Hh Hne) as [d Hd].
    destruct (getIntradayData_inv ticker d Hd) as (items' & Hh' & Hne' & H15 & H5).
    assert (N5 : data5m d <> [])
      by (rewrite H5; apply data5m_nonempty; exact Hne').
    assert (N15 : data15m d <> []).
    { rewrite H15. apply nonempty_of_length. rewrite toStockData_length.
      destruct items'; [contradiction|cbn; lia]. }
    destruct (analyzeIntraday_returns lib market tz now ticker d Hd N5 N15)
      as (r & Hr & _).
    exists r. exact Hr.
  - intros [r Hr].
    destruct (analyzeStock_inv lib market Badge analyzeFundamentals ticker r Hr)
      as (bars & Hf & Hlen).
    apply getHistoricalData_daily in Hf. destruct Hf as (items & Hh & _ & ->).
    rewrite toStockData_length in Hlen.
    exists items. split; assumption.
  - intros (items & Hh & Hlen).
    assert (Hf : getHistoricalData market ticker "1d" =
                 Ok (MarketData.toStockData clock items)).
    { apply getHistoricalData_daily. exists items. split; [exact Hh|].
      split; [|reflexivity]. intros ->. cbn in Hlen. lia. }
    assert (Hlen' : (200 <= length (MarketData.toStockData clock items))%nat)
      by (rewrite toStockData_length; exact Hlen).
    destruct (analyzeStock_returns lib market Badge analyzeFundamentals ticker _ Hf Hlen')
      as (r & Hr & _).
    exists r. exact Hr.
Qed.

End MarketDataProperties.

Lemma intraday_data_shape_witness :
  exists d,
    MarketData.getIntradayData Sample.package Sample.readings "bbca" = Ok d /\
    exists items,
      Sample.package "BBCA.JK"%string
        (mkQueryOptions 1699142400 1704326400 "1d") = Ok (Some items) /\
      items <> [] /\
      data15m d = MarketData.toStockData Sample.readings items /\
      length (data15m d) = length items /\
      data5m d <> [] /\
      (forall bar, In bar (data5m d) -> In bar (data15m d)) /\
      let recentData :=
        filter (fun bar => (1703894400009 <=? timestamp bar)%Z) (data15m d) in
      (recentData <> [] -> data5m d = recentData) /\
      (recentData = [] -> data5m d = slice_last 10 (data15m d)).
Proof.
  eexists. split; [vm_compute; reflexivity|].
  apply (intraday_data_shape Sample.package Sample.readings "bbca" _
           ltac:(vm_compute; reflexivity)).
Defined.
